(** * Obfuscation benchmark: orchestration and measurement engine

    A shallow embedding of the core of [benchmark.py] (class
    [ObfuscationBenchmark]): the statistics tail of [measure_performance],
    the dependency resolver [detect_dependencies], the driver
    [apply_obfuscation], the sampling loop of [measure_performance] and
    [save_results] / [run_benchmark].

    Conventions of the embedding.
    - Numeric samples are exact rationals [Q].  Every finite float is a
      rational and [statistics.mean] sums exactly before it divides; the
      final rounding to a float is not modelled.  Python's [==] on numbers
      is [Qeq].
    - Library calls that raise on an empty sequence ([statistics.mean],
      [statistics.median], [min], [max], [statistics.stdev]) return
      [option]; [None] stands for the raised exception.
    - The square root used by [statistics.stdev] is a parameter.
    - Effectful code runs in a state-and-exception monad over the host
      ([world]: files, working directory, log).  What the host decides
      (external commands, child processes, the regular-expression rewriting
      of the repair pass, the Cython handler, the installer, the JSON
      serialiser) enters as parameters.
    - Log messages keep their fixed text; interpolated counters, lists and
      exception texts are left out. *)

From Stdlib Require Import QArith Qminmax Lqa List String Ascii Bool Arith ZArith Lia.
Import ListNotations.

Set Implicit Arguments.

(* ===================================================================== *)
(** * Part I: the embedding                                              *)
(* ===================================================================== *)

(** ** METRICS *)

Inductive metric : Type :=
| execution_time
| memory_usage
| code_size
| startup_time.

(** Iteration order of the [METRICS] dict literal. *)
Definition METRICS : list metric :=
  [execution_time; memory_usage; code_size; startup_time].

Definition metric_eqb (a b : metric) : bool :=
  match a, b with
  | execution_time, execution_time
  | memory_usage, memory_usage
  | code_size, code_size
  | startup_time, startup_time => true
  | _, _ => false
  end.

(** ** Builtins and the [statistics] module *)

Module builtins.

(** [min(xs)]: keeps the first smallest element; raises on an empty list. *)
Definition min (xs : list Q) : option Q :=
  match xs with
  | [] => None
  | x :: rest =>
      Some (fold_left (fun m y => if Qlt_le_dec y m then y else m) rest x)
  end.

(** [max(xs)]: keeps the first largest element; raises on an empty list. *)
Definition max (xs : list Q) : option Q :=
  match xs with
  | [] => None
  | x :: rest =>
      Some (fold_left (fun m y => if Qlt_le_dec m y then y else m) rest x)
  end.

Definition sum (xs : list Q) : Q := fold_left Qplus xs 0%Q.

Fixpoint insert_sorted (x : Q) (xs : list Q) : list Q :=
  match xs with
  | [] => [x]
  | y :: ys => if Qlt_le_dec x y then x :: y :: ys else y :: insert_sorted x ys
  end.

(** [sorted(xs)]: a stable sort with [<] as the only comparison. *)
Definition sorted (xs : list Q) : list Q :=
  fold_left (fun acc x => insert_sorted x acc) xs [].

End builtins.

Module statistics.

Definition len (xs : list Q) : Q := inject_Z (Z.of_nat (List.length xs)).

(** [statistics.mean]: StatisticsError on empty data, else sum / n. *)
Definition mean (data : list Q) : option Q :=
  match data with
  | [] => None
  | _ => Some (builtins.sum data / len data)%Q
  end.

(** [statistics.median]: sorts, then the middle item (odd length) or the
    average of the two middle items (even length). *)
Definition median (data : list Q) : option Q :=
  let data' := builtins.sorted data in
  let n := List.length data' in
  match n with
  | O => None
  | _ =>
      if Nat.odd n then nth_error data' (n / 2)
      else
        let i := (n / 2)%nat in
        match nth_error data' (i - 1), nth_error data' i with
        | Some a, Some b => Some ((a + b) / 2)%Q
        | _, _ => None
        end
  end.

(** [statistics.variance]: sum of squared deviations over n - 1. *)
Definition variance (data : list Q) : option Q :=
  match mean data with
  | None => None
  | Some m =>
      if (List.length data <? 2)%nat then None
      else
        let ss := builtins.sum (map (fun x => (x - m) * (x - m))%Q data) in
        Some (ss / (len data - 1))%Q
  end.

(** [statistics.stdev = sqrt(variance)]; [sqrt] is the parameter. *)
Definition stdev (sqrt : Q -> Q) (data : list Q) : option Q :=
  option_map sqrt (variance data).

End statistics.

(** ** MetricSummary: the dict [{'mean', 'median', 'min', 'max', 'stdev'}] *)

Module Summary.

Record t : Type := mk {
  mean : Q;
  median : Q;
  min : Q;
  max : Q;
  stdev : Q
}.

(** The literal [{'mean': 0, 'median': 0, 'min': 0, 'max': 0, 'stdev': 0}]. *)
Definition zero : t := mk 0 0 0 0 0.

End Summary.

(** The body of the [for metric in METRICS] loop that closes
    [measure_performance]: the summary of one metric's sample list.
    [None] would be an exception escaping from a library call. *)
Definition summarize (sqrt : Q -> Q) (samples : list Q) : option Summary.t :=
  match samples with
  | _ :: _ =>
      match statistics.mean samples, statistics.median samples,
            builtins.min samples, builtins.max samples with
      | Some mean, Some median, Some mn, Some mx =>
          if (1 <? List.length samples)%nat then
            match statistics.stdev sqrt samples with
            | Some sd => Some (Summary.mk mean median mn mx sd)
            | None => None
            end
          else Some (Summary.mk mean median mn mx 0)
      | _, _, _, _ => None
      end
  | [] => Some Summary.zero
  end.

(** The per-metric sample lists ([metrics = {metric: [] for ...}]) are a
    total map over the four metric names. *)
Definition sample_sets : Type := metric -> list Q.

Definition empty_samples : sample_sets := fun _ => [].

Definition append_sample (m : metric) (x : Q) (ms : sample_sets) : sample_sets :=
  fun m' => if metric_eqb m m' then ms m' ++ [x] else ms m'.

(** [result = {}; for metric in METRICS: result[metric] = ...]:
    an association list in the iteration order of [METRICS]; [None] if a
    library call raised. *)
Fixpoint compute_statistics_loop (sqrt : Q -> Q) (metrics : sample_sets)
  (todo : list metric) : option (list (metric * Summary.t)) :=
  match todo with
  | [] => Some []
  | m :: rest =>
      match summarize sqrt (metrics m) with
      | None => None
      | Some s =>
          match compute_statistics_loop sqrt metrics rest with
          | None => None
          | Some r => Some ((m, s) :: r)
          end
      end
  end.

Definition compute_statistics (sqrt : Q -> Q) (metrics : sample_sets)
  : option (list (metric * Summary.t)) :=
  compute_statistics_loop sqrt metrics METRICS.

Definition lookup_metric (m : metric) (r : list (metric * Summary.t))
  : option Summary.t :=
  option_map snd (find (fun p => metric_eqb m (fst p)) r).


(** ** Text

    Text is a [string] whose characters are code points below 256. *)

Open Scope string_scope.

Definition str_eqb (a b : string) : bool := String.eqb a b.

Definition in_list (x : string) (xs : list string) : bool :=
  existsb (str_eqb x) xs.

(** [set(xs)] followed by iteration: one occurrence of each element.  The
    iteration order of a Python set is unspecified; the model keeps the last
    occurrences in list order. *)
Definition py_set (xs : list string) : list string := nodup string_dec xs.

(** [s.rfind(c)]: index of the last occurrence. *)
Fixpoint rfind (c : ascii) (s : string) : option nat :=
  match s with
  | EmptyString => None
  | String d r =>
      match rfind c r with
      | Some i => Some (S i)
      | None => if Ascii.eqb d c then Some O else None
      end
  end.

(** [s[:i]] and [s[i:]]. *)
Definition str_take (i : nat) (s : string) : string := substring 0 i s.
Definition str_drop (i : nat) (s : string) : string :=
  substring i (String.length s - i) s.

(** [s.rstrip(c)]. *)
Fixpoint rstrip (c : ascii) (s : string) : string :=
  match s with
  | EmptyString => EmptyString
  | String d r =>
      match rstrip c r with
      | EmptyString => if Ascii.eqb d c then EmptyString else String d EmptyString
      | r' => String d r'
      end
  end.

Fixpoint all_chars (p : ascii -> bool) (s : string) : bool :=
  match s with
  | EmptyString => true
  | String d r => p d && all_chars p r
  end.

Definition endswith_char (c : ascii) (s : string) : bool :=
  match rfind c s with
  | Some i => (S i =? String.length s)%nat
  | None => false
  end.

(** [s.split(c)]. *)
Fixpoint split_on (c : ascii) (s : string) : list string :=
  match s with
  | EmptyString => [EmptyString]
  | String d r =>
      match split_on c r with
      | [] => [String d EmptyString]
      | hd :: tl => if Ascii.eqb d c then EmptyString :: hd :: tl
                    else String d hd :: tl
      end
  end.

(** ** [posixpath] and [pathlib] *)

Module os_path.

Definition sep : ascii := "/"%char.

(** [os.path.dirname]. *)
Definition dirname (p : string) : string :=
  let i := match rfind sep p with Some k => S k | None => O end in
  let head := str_take i p in
  if negb (str_eqb head "") && negb (all_chars (Ascii.eqb sep) head)
  then rstrip sep head else head.

(** [os.path.basename]. *)
Definition basename (p : string) : string :=
  let i := match rfind sep p with Some k => S k | None => O end in
  str_drop i p.

(** [os.path.join(a, b)]. *)
Definition join (a b : string) : string :=
  if prefix "/" b then b
  else if str_eqb a "" || endswith_char sep a then a ++ b
  else a ++ "/" ++ b.

End os_path.

Module Path.

(** The components of [Path(p)] below the root: empty and ["."] parts are
    dropped when the path is parsed. *)
Definition parts (p : string) : list string :=
  filter (fun c => negb (str_eqb c "") && negb (str_eqb c "."))
         (split_on os_path.sep p).

(** [Path(p).name]. *)
Definition name (p : string) : string := last (parts p) "".

(** Position of the dot that starts the suffix of a file name, if any. *)
Definition suffix_index (nm : string) : option nat :=
  match rfind "."%char nm with
  | Some i => if (0 <? i)%nat && (i <? String.length nm - 1)%nat then Some i else None
  | None => None
  end.

(** [Path(p).suffix]. *)
Definition suffix (p : string) : string :=
  match suffix_index (name p) with
  | Some i => str_drop i (name p)
  | None => ""
  end.

(** [Path(p).stem]. *)
Definition stem (p : string) : string :=
  match suffix_index (name p) with
  | Some i => str_take i (name p)
  | None => name p
  end.

(** The root of [Path(p)]: exactly two leading slashes are kept, any other
    number of leading slashes is one. *)
Definition root (p : string) : string :=
  if prefix "//" p && negb (prefix "///" p) then "//"
  else if prefix "/" p then "/" else "".

(** [str(Path(p).parent)]. *)
Definition parent (p : string) : string :=
  match parts p with
  | [] => match root p with EmptyString => "." | r => r end
  | ps =>
      match root p ++ String.concat "/" (removelast ps) with
      | EmptyString => "."
      | d => d
      end
  end.

(** [str(dir / name)] for a normalised directory path and a single
    component. *)
Definition child (dir nm : string) : string := dir ++ "/" ++ nm.

End Path.

(** ** Import scanning: the two [re.findall] calls of [detect_dependencies] *)

Module Scan.

(** [\s] on text. *)
Definition is_space (c : ascii) : bool :=
  let n := nat_of_ascii c in
  ((9 <=? n) && (n <=? 13) || (28 <=? n) && (n <=? 32)
   || (n =? 133) || (n =? 160))%nat.

(** Longest prefix whose characters satisfy [p], and the rest. *)
Fixpoint span (p : ascii -> bool) (s : string) : string * string :=
  match s with
  | EmptyString => (EmptyString, EmptyString)
  | String c r =>
      if p c then let (a, b) := span p r in (String c a, b)
      else (EmptyString, s)
  end.

(** [[^\s.]] and [[^\s.,]]. *)
Definition from_name_char (c : ascii) : bool :=
  negb (is_space c) && negb (Ascii.eqb c "."%char).
Definition import_name_char (c : ascii) : bool :=
  negb (is_space c) && negb (Ascii.eqb c "."%char) && negb (Ascii.eqb c ","%char).

(** A match of [from\s+([^\s.]+)\s+import] anchored at the start of [s]:
    the group and the length of the match.  Every quantifier is greedy and no
    shorter choice can make a later piece succeed, so the first attempt
    decides. *)
Definition match_from (s : string) : option (string * nat) :=
  if prefix "from" s then
    let (ws1, r1) := span is_space (str_drop 4 s) in
    let (g, r2) := span from_name_char r1 in
    let (ws2, r3) := span is_space r2 in
    if negb (str_eqb ws1 "") && negb (str_eqb g "") && negb (str_eqb ws2 "")
       && prefix "import" r3
    then Some (g, 4 + String.length ws1 + String.length g
                  + String.length ws2 + 6)%nat
    else None
  else None.

(** A match of [import\s+([^\s.,]+)] anchored at the start of [s]. *)
Definition match_import (s : string) : option (string * nat) :=
  if prefix "import" s then
    let (ws, r1) := span is_space (str_drop 6 s) in
    let (g, _) := span import_name_char r1 in
    if negb (str_eqb ws "") && negb (str_eqb g "")
    then Some (g, 6 + String.length ws + String.length g)%nat
    else None
  else None.

(** [re.findall] for a pattern with one group: leftmost matches, each
    search resuming where the previous match ended.  [skip] counts the
    characters of the last match still to be passed over. *)
Fixpoint findall (match_at : string -> option (string * nat)) (skip : nat)
  (s : string) : list string :=
  match s with
  | EmptyString => []
  | String _ rest =>
      match skip with
      | S k => findall match_at k rest
      | O =>
          match match_at s with
          | Some (g, n) => g :: findall match_at (n - 1) rest
          | None => findall match_at 0 rest
          end
      end
  end.

Definition from_imports (content : string) : list string :=
  findall match_from 0 content.

Definition direct_imports (content : string) : list string :=
  findall match_import 0 content.

(** [potential_modules = set(from_imports + direct_imports)]. *)
Definition potential_modules (content : string) : list string :=
  py_set (from_imports content ++ direct_imports content).

End Scan.

(** The inline list of names that [detect_dependencies] never treats as
    local files. *)
Definition excluded_modules : list string :=
  ["os"; "sys"; "time"; "math"; "numpy"; "cv2"; "dlib";
   "imutils"; "scipy"; "argparse"; "subprocess"; "importlib";
   "psutil"; "json"; "statistics"; "matplotlib"; "logging";
   "tempfile"; "shutil"; "platform"; "re"; "distutils"; "shlex"].

(** ** The host: files, working directory, log

    A path names a file by its spelling: two spellings are two files, and
    a file may exist without its parent directory being recorded. *)

Inductive node : Type :=
| File (data : string) (text : bool)
    (** a regular file the process may read and write; [text] tells whether
        its bytes decode in text mode *)
| Directory
| Locked.
    (** exists, but opening it for reading or writing is refused *)

Definition filesystem : Type := string -> option node.

Definition fs_set (p : string) (n : option node) (fs : filesystem) : filesystem :=
  fun q => if str_eqb p q then n else fs q.

Inductive level : Type := DEBUG | INFO | WARNING | ERROR.

Record world : Type := mkWorld {
  files : filesystem;
  cwd : string;
  log : list (level * string)
}.

(** The exceptions that can occur; all of them derive from [Exception]. *)
Inductive exn : Type :=
| FileNotFoundError
| FileExistsError
| IsADirectoryError
| NotADirectoryError
| PermissionError
| UnicodeDecodeError
| SameFileError
| ShutilError
| KeyError
| CalledProcessError
| OSError
| NameError
| IndexError
| NoSuchProcess
| AccessDenied
| OtherError.

(** The outcome of running a piece of code: a value, a raised exception, or
    [Diverged] when the recursion did not bottom out within the depth the
    run was given. *)
Inductive result (A : Type) : Type :=
| Ok (a : A)
| Raised (e : exn)
| Diverged.

Arguments Ok {A} a.
Arguments Raised {A} e.
Arguments Diverged {A}.

(** Code running over a state [S]: the state after the run is kept whatever
    the outcome, as mutations made before an exception are. *)
Definition St (S A : Type) : Type := S -> result A * S.

(** Code running on the host. *)
Definition M (A : Type) : Type := St world A.

Definition ret {S A} (a : A) : St S A := fun s => (Ok a, s).

Definition bind {S A B} (c : St S A) (k : A -> St S B) : St S B :=
  fun s =>
    match c s with
    | (Ok a, s') => k a s'
    | (Raised e, s') => (Raised e, s')
    | (Diverged, s') => (Diverged, s')
    end.

Definition raise {S A} (e : exn) : St S A := fun s => (Raised e, s).

Definition diverge {S A} : St S A := fun s => (Diverged, s).

(** [try: body except Exception as e: handler(e)]. *)
Definition try_except {S A} (body : St S A) (handler : exn -> St S A) : St S A :=
  fun s =>
    match body s with
    | (Raised e, s') => handler e s'
    | r => r
    end.

(** [try: body except (E1, E2): handler] with [catches] selecting E1, E2. *)
Definition try_except_only {S A} (catches : exn -> bool) (body : St S A)
  (handler : exn -> St S A) : St S A :=
  fun s =>
    match body s with
    | (Raised e, s') => if catches e then handler e s' else (Raised e, s')
    | r => r
    end.

Declare Scope monad_scope.
Delimit Scope monad_scope with monad.
Notation "x <- c ;; k" := (bind c (fun x => k))
  (at level 61, c at next level, right associativity) : monad_scope.
Notation "c ;; k" := (bind c (fun _ => k))
  (at level 61, right associativity) : monad_scope.
Open Scope monad_scope.

(** [for x in xs: acc = body(acc, x)]. *)
Fixpoint for_each {S A B} (xs : list A) (acc : B) (body : B -> A -> St S B)
  : St S B :=
  match xs with
  | [] => ret acc
  | x :: rest => acc' <- body acc x ;; for_each rest acc' body
  end.

Definition logger (lv : level) (msg : string) : M unit :=
  fun w => (Ok tt, mkWorld (files w) (cwd w) (log w ++ [(lv, msg)])).

Definition set_files (fs : filesystem) : M unit :=
  fun w => (Ok tt, mkWorld fs (cwd w) (log w)).

Definition get_files : M filesystem := fun w => (Ok (files w), w).

Module os.

(** [os.path.exists]. *)
Definition path_exists (p : string) : M bool :=
  fs <- get_files ;;
  ret (match fs p with Some _ => true | None => false end).

(** [os.path.isdir]. *)
Definition path_isdir (p : string) : M bool :=
  fs <- get_files ;;
  ret (match fs p with Some Directory => true | _ => false end).

(** [os.makedirs(p, exist_ok=True)]. *)
Definition makedirs (p : string) : M unit :=
  fs <- get_files ;;
  if str_eqb p "" then raise FileNotFoundError
  else match fs p with
       | Some Directory => ret tt
       | Some _ => raise FileExistsError
       | None => set_files (fs_set p (Some Directory) fs)
       end.

(** [os.getcwd()] and [os.chdir(p)]. *)
Definition getcwd : M string := fun w => (Ok (cwd w), w).

Definition chdir (p : string) : M unit :=
  fun w =>
    match files w p with
    | Some Directory => (Ok tt, mkWorld (files w) p (log w))
    | Some Locked => (Raised PermissionError, w)
    | Some (File _ _) => (Raised NotADirectoryError, w)
    | None => (Raised FileNotFoundError, w)
    end.

End os.

(** [with open(p, 'r') as f: content = f.read()]. *)
Definition read_text (p : string) : M string :=
  fs <- get_files ;;
  match fs p with
  | Some (File data true) => ret data
  | Some (File _ false) => raise UnicodeDecodeError
  | Some Directory => raise IsADirectoryError
  | Some Locked => raise PermissionError
  | None => raise FileNotFoundError
  end.

(** [with open(p, 'w') as f: f.write(content)]. *)
Definition write_text (p : string) (content : string) : M unit :=
  fs <- get_files ;;
  match fs p with
  | Some Directory => raise IsADirectoryError
  | Some Locked => raise PermissionError
  | Some (File _ _) | None => set_files (fs_set p (Some (File content true)) fs)
  end.

Module shutil.

(** [shutil.copy2(src, dst)]: into [dst] when it is a directory; refuses to
    copy a file onto itself; copies the bytes as they are. *)
Definition copy2 (src dst : string) : M unit :=
  isdir <- os.path_isdir dst ;;
  let dst := if isdir then os_path.join dst (os_path.basename src) else dst in
  if str_eqb src dst then raise SameFileError
  else
    fs <- get_files ;;
    match fs src with
    | None => raise FileNotFoundError
    | Some Directory => raise IsADirectoryError
    | Some Locked => raise PermissionError
    | Some (File data text) =>
        match fs dst with
        | Some Directory => raise IsADirectoryError
        | Some Locked => raise PermissionError
        | Some (File _ _) | None => set_files (fs_set dst (Some (File data text)) fs)
        end
    end.

(** [shutil.move(src, dst)]: a rename; into [dst] when it is a directory,
    where an existing entry of the same name is an error. *)
Definition move (src dst : string) : M unit :=
  isdir <- os.path_isdir dst ;;
  let real_dst := if isdir then os_path.join dst (os_path.basename src) else dst in
  fs <- get_files ;;
  match fs real_dst, isdir with
  | Some _, true => raise ShutilError
  | _, _ =>
      match fs src with
      | None => raise FileNotFoundError
      | Some n => set_files (fs_set real_dst (Some n) (fs_set src None fs))
      end
  end.

End shutil.

(** ** Dependency resolver *)

(** [os.path.join(os.path.dirname(test_file), f"{module}.py")]. *)
Definition module_file (test_file module : string) : string :=
  os_path.join (os_path.dirname test_file) (module ++ ".py").

(** [detect_dependencies(self, test_file)].  [depth] bounds the nesting of
    the recursive calls.  The source has no bound of its own (no visited
    set, no depth cap), so a run that exhausts [depth] is [Diverged]: the
    recursion did not bottom out.  What an interpreter does when its own
    stack limit is hit is a property of that interpreter and is not part of
    the embedding; [Diverged] passes through every [except] clause. *)
Fixpoint detect_dependencies (depth : nat) (test_file : string)
  : M (list string) :=
  match depth with
  | O => diverge
  | S depth' =>
      logger INFO ("Detectando dependências para " ++ test_file ++ "...") ;;
      try_except
        (content <- read_text test_file ;;
         let potential_modules := Scan.potential_modules content in
         dependencies <-
           for_each potential_modules []
             (fun dependencies module =>
                if negb (in_list module excluded_modules) then
                  let module_file := module_file test_file module in
                  found <- os.path_exists module_file ;;
                  if found then
                    logger INFO ("Dependência encontrada: " ++ module_file) ;;
                    sub_dependencies <- detect_dependencies depth' module_file ;;
                    ret (dependencies ++ [module_file] ++ sub_dependencies)%list
                  else ret dependencies
                else ret dependencies) ;;
         ret (py_set dependencies))
        (fun e =>
           logger ERROR "Erro ao detectar dependências" ;;
           ret [])
  end.

(** *** A state-free reading of the resolver

    [detect_dependencies] only reads the file system; the functions below
    compute its result from the file system alone ([None] stands for
    [Diverged]).  [DepsFacts.detect_dependencies_resolve] proves that they
    agree with the embedding. *)

Definition fs_exists (fs : filesystem) (p : string) : bool :=
  match fs p with Some _ => true | None => false end.

(** The sibling files that the loop of [detect_dependencies] recurses into,
    in loop order. *)
Definition local_imports (fs : filesystem) (test_file : string) : list string :=
  match fs test_file with
  | Some (File content true) =>
      filter (fs_exists fs)
        (map (module_file test_file)
           (filter (fun m => negb (in_list m excluded_modules))
              (Scan.potential_modules content)))
  | _ => []
  end.

Fixpoint resolve_loop (rec : string -> option (list string))
  (todo : list string) (acc : list string) : option (list string) :=
  match todo with
  | [] => Some acc
  | q :: rest =>
      match rec q with
      | None => None
      | Some sub => resolve_loop rec rest (acc ++ [q] ++ sub)%list
      end
  end.

Fixpoint resolve (depth : nat) (fs : filesystem) (test_file : string)
  : option (list string) :=
  match depth with
  | O => None
  | S depth' =>
      option_map py_set
        (resolve_loop (resolve depth' fs) (local_imports fs test_file) [])
  end.

Definition result_of_option {A} (o : option A) : result A :=
  match o with Some a => Ok a | None => Diverged end.

(** The body of the [for module in potential_modules] loop of
    [detect_dependencies], with the recursive call as a parameter. *)
Definition loop_body (rec : string -> M (list string)) (test_file : string)
  (dependencies : list string) (module : string) : M (list string) :=
  if negb (in_list module excluded_modules) then
    let module_file := module_file test_file module in
    found <- os.path_exists module_file ;;
    if found then
      logger INFO ("Dependência encontrada: " ++ module_file) ;;
      sub_dependencies <- rec module_file ;;
      ret (dependencies ++ [module_file] ++ sub_dependencies)%list
    else ret dependencies
  else ret dependencies.

(** Worlds that differ at most by log entries appended. *)
Definition extends (w w' : world) : Prop :=
  files w' = files w /\ cwd w' = cwd w /\ exists lg, log w' = (log w ++ lg)%list.


(** The import relation among sibling files has no cycle: some rank
    decreases along every local import. *)
Definition rank_decreases (fs : filesystem) (rank : string -> nat) : Prop :=
  forall p q, In q (local_imports fs p) -> (rank q < rank p)%nat.


(** ** Tool registry *)

(** A [str.format] template: literal text and named replacement fields. *)
Inductive piece : Type :=
| Lit (s : string)
| Field (name : string).

Definition template : Type := list piece.

Fixpoint assoc {V} (k : string) (kvs : list (string * V)) : option V :=
  match kvs with
  | [] => None
  | (k', v) :: rest => if str_eqb k k' then Some v else assoc k rest
  end.

(** [str.format] with keyword arguments; a field without a keyword is a
    [KeyError]. *)
Fixpoint format (t : template) (kwargs : list (string * string)) : M string :=
  match t with
  | [] => ret ""
  | Lit s :: rest => tail <- format rest kwargs ;; ret (s ++ tail)
  | Field name :: rest =>
      match assoc name kwargs with
      | Some v => tail <- format rest kwargs ;; ret (v ++ tail)
      | None => raise KeyError
      end
  end.

(** One entry of [TOOLS]; an absent key is [None]. *)
Record tool_info : Type := mkTool {
  description : string;
  install : option string;
  command : option template;
  output : option template;
  enabled : option bool;
  check_version : option bool;
  post_process : option bool;
  custom_handler : option bool;
  needs_execution : option bool;
  check_env : option bool
}.

(** [d.get(key, default)]. *)
Definition get_default {A} (field : option A) (default : A) : A :=
  match field with Some v => v | None => default end.

(** The registry is a dict in insertion order. *)
Definition registry : Type := list (string * tool_info).

Definition dquote : string := String (ascii_of_nat 34) EmptyString.
Definition squote : string := String (ascii_of_nat 39) EmptyString.

Definition TOOLS : registry :=
  [ ("original",
     mkTool "Código original sem ofuscação"
       None None None (Some true) None None None None None);
    ("pyarmor7",
     mkTool "PyArmor v7 - Ferramenta comercial com proteção avançada"
       (Some "pip install pyarmor==7.7.4")
       (Some [Lit "pyarmor-7 obfuscate "; Field "input_file"; Lit " -O ";
              Field "output_dir"])
       (Some [Field "output_dir"; Lit "/dist/"; Field "input_name"; Lit ".py"])
       (Some true) (Some true) None None None None);
    ("pyarmor_gen",
     mkTool "PyArmor 8+ com comando gen"
       (Some "pip install pyarmor")
       (Some [Lit "pyarmor gen "; Field "input_file"])
       (Some [Lit "dist/"; Field "input_name"; Lit ".py"])
       (Some true) None None None None None);
    ("pyminifier",
     mkTool "Minificação e ofuscação básica"
       (Some "pip install pyminifier")
       (Some [Lit "python -m pyminifier "; Field "input_file"; Lit " > ";
              Field "output_file"])
       (Some [Field "output_dir"; Lit "/"; Field "input_name"; Lit ".min.py"])
       (Some true) None None None None None);
    ("opy",
     mkTool "Ofuscação baseada em manipulação de AST"
       (Some "pip install https://github.com/QQuick/Opy/archive/master.zip")
       (Some [Lit ("python -c " ++ dquote
                   ++ "from opy.tool import main; import sys; sys.argv = ["
                   ++ squote ++ squote ++ ", " ++ squote ++ "-o" ++ squote
                   ++ ", " ++ squote);
              Field "output_file";
              Lit (squote ++ ", " ++ squote);
              Field "input_file";
              Lit (squote ++ "]; main()" ++ dquote)])
       (Some [Field "output_dir"; Lit "/"; Field "input_name"; Lit ".opy.py"])
       (Some false) None None None None None);
    ("pyobfuscate",
     mkTool "Ofuscação básica"
       (Some "pip install git+https://github.com/astrand/pyobfuscate.git")
       (Some [Lit "pyobfuscate -i "; Field "input_file"; Lit " > ";
              Field "output_temp"])
       (Some [Field "output_dir"; Lit "/"; Field "input_name"; Lit ".obf.py"])
       (Some true) None (Some true) None None None);
    ("cython",
     mkTool "Compilação para código C como ofuscação"
       (Some "pip install cython")
       None None (Some true) None None (Some true) None None);
    ("pyinstaller",
     mkTool "Empacotamento com ofuscação básica"
       (Some "pip install pyinstaller")
       (Some [Lit "pyinstaller --onefile "; Field "input_file";
              Lit " --distpath "; Field "output_dir"])
       (Some [Field "output_dir"; Lit "/"; Field "input_name"])
       (Some true) None None None (Some true) (Some true)) ].

(** [TOOLS[tool_name]]. *)
Definition lookup_tool (tools : registry) (tool_name : string) : M tool_info :=
  match assoc tool_name tools with
  | Some info => ret info
  | None => raise KeyError
  end.

(** [tools[tool_name]['enabled'] = value], as [main] and the capability
    checks do it. *)
Definition with_enabled (value : bool) (info : tool_info) : tool_info :=
  mkTool (description info) (install info) (command info) (output info)
    (Some value) (check_version info) (post_process info)
    (custom_handler info) (needs_execution info) (check_env info).

Fixpoint set_enabled (tool_name : string) (value : bool) (tools : registry)
  : registry :=
  match tools with
  | [] => []
  | (k, info) :: rest =>
      if str_eqb tool_name k then (k, with_enabled value info) :: rest
      else (k, info) :: set_enabled tool_name value rest
  end.

(** ** Obfuscation driver *)

(** What a finished child process reports. *)
Inductive completed : Type :=
| Exit0 (stdout : string)
| ExitNonZero (stdout stderr : string).

Section Driver.

(** The host's shell: running a command line changes the world and ends in
    an exit status, or fails to launch (an exception other than
    [CalledProcessError]). *)
Variable shell : string -> M completed.

(** The text rewriting of [_fix_pyobfuscate_output]: [name_var_match] is the
    group of the [re.search] for the renamed [__name__] test, [apply_repairs]
    the chain of [re.sub] calls that follows. *)
Variable name_var_match : string -> option string.
Variable apply_repairs : string -> string.

(** The custom handler [_apply_cython]. *)
Variable _apply_cython : string -> M (option string).

(** [self.temp_dir], as [mkdtemp] returned it. *)
Variable temp_dir : string.

(** The registry as it stands when the driver runs. *)
Variable tools : registry.

(** The nesting depth granted to [detect_dependencies]. *)
Variable depth : nat.

(** [subprocess.run(command, shell=True, check=True, ...)]. *)
Definition subprocess_run_checked (command : string) : M string :=
  r <- shell command ;;
  match r with
  | Exit0 stdout => ret stdout
  | ExitNonZero _ _ => raise CalledProcessError
  end.

(** [_execute_command(self, command)]. *)
Definition _execute_command (command : string) : M (bool * string) :=
  logger INFO ("Executando comando: " ++ command) ;;
  try_except_only
    (fun e => match e with CalledProcessError => true | _ => false end)
    (stdout <- subprocess_run_checked command ;;
     (if negb (str_eqb stdout "") then logger DEBUG ("Saída: " ++ stdout)
      else ret tt) ;;
     ret (true, stdout))
    (fun e =>
       logger ERROR ("Comando falhou: " ++ command) ;;
       ret (false, "")).

(** [_fix_pyobfuscate_output(self, output_file)]. *)
Definition _fix_pyobfuscate_output (output_file : string) : M bool :=
  try_except
    (found <- os.path_exists output_file ;;
     if negb found then
       logger ERROR ("Arquivo a ser corrigido não existe: " ++ output_file) ;;
       ret false
     else
       content <- read_text output_file ;;
       content <-
         match name_var_match content with
         | Some var_name =>
             logger INFO ("Corrigindo substituição de __name__ por " ++ var_name) ;;
             ret (var_name ++ " = __name__
" ++ content)
         | None => ret content
         end ;;
       let content := apply_repairs content in
       write_text output_file content ;;
       ret true)
    (fun e =>
       logger ERROR "Erro ao corrigir arquivo pyobfuscate" ;;
       ret false).

(** The post-processing step shared by the main artifact and the
    dependencies; the outcome of the repair is not looked at. *)
Definition post_process_step (tool_name : string) (info : tool_info)
  (out_temp out_file : string) : M unit :=
  if str_eqb tool_name "pyobfuscate" && get_default (post_process info) false then
    found <- os.path_exists out_temp ;;
    if found then
      (if negb (str_eqb out_temp out_file) then shutil.move out_temp out_file
       else ret tt) ;;
      _ <- _fix_pyobfuscate_output out_file ;;
      ret tt
    else ret tt
  else ret tt.

(** [tool_info['output']] and [tool_info['command']]. *)
Definition required {A} (field : option A) : M A :=
  match field with Some v => ret v | None => raise KeyError end.

(** [apply_obfuscation(self, tool_name, input_file)]. *)
Definition apply_obfuscation (tool_name input_file : string)
  : M (option string) :=
  dependencies <- detect_dependencies depth input_file ;;
  logger INFO ("Dependências encontradas para " ++ input_file) ;;
  if str_eqb tool_name "original" then
    let output_path :=
      Path.child temp_dir
        (Path.stem input_file ++ "_original" ++ Path.suffix input_file) in
    shutil.copy2 input_file output_path ;;
    for_each dependencies tt
      (fun _ dep => shutil.copy2 dep (Path.child temp_dir (Path.name dep))) ;;
    ret (Some output_path)
  else
    tool_info <- lookup_tool tools tool_name ;;
    if negb (get_default (enabled tool_info) true) then
      logger WARNING ("Ferramenta " ++ tool_name ++ " está desativada, pulando.") ;;
      ret None
    else
      let input_dir := Path.parent input_file in
      let input_name := Path.stem input_file in
      let output_dir := temp_dir in
      if str_eqb tool_name "cython" then
        main_output <- _apply_cython input_file ;;
        for_each dependencies tt
          (fun _ dep => _ <- _apply_cython dep ;; ret tt) ;;
        ret main_output
      else
        match command tool_info with
        | Some command_template =>
            output_template <- required (output tool_info) ;;
            output_file <-
              format output_template
                [("output_dir", output_dir); ("input_name", input_name);
                 ("input_dir", input_dir)] ;;
            let output_temp :=
              if str_eqb tool_name "pyobfuscate" then output_file ++ ".temp"
              else output_file in
            os.makedirs (os_path.dirname output_file) ;;
            command <-
              format command_template
                [("input_file", input_file); ("output_file", output_file);
                 ("output_temp", output_temp); ("input_name", input_name);
                 ("input_dir", input_dir); ("output_dir", output_dir)] ;;
            try_except
              (r <- _execute_command command ;;
               if negb (fst r) then
                 logger ERROR ("Erro ao executar comando para " ++ tool_name) ;;
                 ret None
               else
                 post_process_step tool_name tool_info output_temp output_file ;;
                 found <- os.path_exists output_file ;;
                 if negb found then
                   logger ERROR ("Arquivo de saída não foi criado: " ++ output_file) ;;
                   ret None
                 else
                   for_each dependencies tt
                     (fun _ dep =>
                        let dep_name := Path.stem dep in
                        dep_output_file <-
                          format output_template
                            [("output_dir", output_dir); ("input_name", dep_name);
                             ("input_dir", input_dir)] ;;
                        let dep_output_temp :=
                          if str_eqb tool_name "pyobfuscate"
                          then dep_output_file ++ ".temp" else dep_output_file in
                        dep_command <-
                          format command_template
                            [("input_file", dep); ("output_file", dep_output_file);
                             ("output_temp", dep_output_temp);
                             ("input_name", dep_name); ("input_dir", input_dir);
                             ("output_dir", output_dir)] ;;
                        r <- _execute_command dep_command ;;
                        (if negb (fst r) then
                           logger WARNING
                             ("Erro ao processar dependência " ++ dep ++ " com "
                              ++ tool_name ++ ", continuando...")
                         else ret tt) ;;
                        post_process_step tool_name tool_info
                          dep_output_temp dep_output_file) ;;
                   logger INFO ("Ofuscação concluída: " ++ output_file) ;;
                   ret (Some output_file))
              (fun e =>
                 logger ERROR "Erro ao executar comando" ;;
                 ret None)
        | None =>
            logger ERROR ("Configuração inválida para ferramenta " ++ tool_name) ;;
            ret None
        end.

End Driver.

(** *** What the identity branch needs *)

(** A node that [copy2] can overwrite: nothing there, or a regular file. *)
Definition writable (fs : filesystem) (p : string) : Prop :=
  fs p = None \/ exists d t, fs p = Some (File d t).

(** Where the identity tool puts its copy of [input_file]. *)
Definition original_output (temp_dir input_file : string) : string :=
  Path.child temp_dir
    (Path.stem input_file ++ "_original" ++ Path.suffix input_file).

(** What the identity branch needs in order to copy an artifact: the
    artifact and its dependencies are regular files outside the workspace,
    the places the copies go to are free or hold regular files, and no
    dependency is named like the artifact's copy. *)
Record copyable (temp_dir : string) (w : world) (input_file : string)
  (deps : list string)
  (data : string) (text : bool) : Prop := {
  artifact_is_file : files w input_file = Some (File data text);
  artifact_outside : forall nm, input_file <> Path.child temp_dir nm;
  deps_outside : forall dep nm, In dep deps -> dep <> Path.child temp_dir nm;
  deps_are_files :
    forall dep, In dep deps -> exists d t, files w dep = Some (File d t);
  copy_target_free : writable (files w) (original_output temp_dir input_file);
  dep_targets_free :
    forall dep, In dep deps ->
      writable (files w) (Path.child temp_dir (Path.name dep));
  no_name_clash :
    forall dep, In dep deps ->
      Path.name dep <>
      Path.stem input_file ++ "_original" ++ Path.suffix input_file
}.

(** ** Performance sampler *)

(** What the host does with one launch of the artifact: everything the
    sampling iteration observes from the clock, the child process, [psutil]
    and the file system. *)
Inductive monitor : Type :=
| Attached (rss_readings : list Z)
    (** [psutil.Process(pid)] succeeded; the polling loop took these
        resident-set sizes (bytes) until the process ended or a poll hit
        [NoSuchProcess] / [AccessDenied] *)
| AttachFailed (e : exn).
    (** [psutil.Process(pid)] raised [e] *)

Record process_run : Type := mkRun {
  popen : option Q;
    (** [None]: [Popen] raises [OSError]; [Some t]: the handle exists [t]
        seconds after [start_time] *)
  monitoring : monitor;
  communicate : option (Q * Z * bool);
    (** [None]: [communicate] raises; else the seconds elapsed since
        [start_time], the return code, and whether the captured output
        decodes *)
  getsize : option Z
    (** [os.path.getsize(obfuscated_file)] in bytes; [None]: it raises *)
}.

(** The state a sampling loop works on: the host, the [metrics] dict and the
    local variable [memory_usage] (unbound until first assigned). *)
Record sampler_state : Type := mkSampler {
  host : world;
  metrics : sample_sets;
  memory_usage_var : option Q
}.

Definition lift {A} (c : M A) : St sampler_state A :=
  fun s =>
    let (r, w') := c (host s) in
    (r, mkSampler w' (metrics s) (memory_usage_var s)).

(** [metrics[m].append(x)]. *)
Definition append_metric (m : metric) (x : Q) : St sampler_state unit :=
  fun s =>
    (Ok tt, mkSampler (host s) (append_sample m x (metrics s)) (memory_usage_var s)).

(** [memory_usage = x]. *)
Definition assign_memory_usage (x : Q) : St sampler_state unit :=
  fun s => (Ok tt, mkSampler (host s) (metrics s) (Some x)).

(** Reading [memory_usage]; unbound is a [NameError]. *)
Definition read_memory_usage : St sampler_state Q :=
  fun s =>
    match memory_usage_var s with
    | Some x => (Ok x, s)
    | None => (Raised NameError, s)
    end.

(** [max(a, b)] on two numbers. *)
Definition max2 (a b : Q) : Q := if Qlt_le_dec a b then b else a.

(** The peak that the polling loop leaves in [memory_usage], started at
    [x], after the readings [l] (bytes, divided into megabytes). *)
Definition peak_from (x : Q) (l : list Z) : Q :=
  fold_left (fun p rss => max2 p (inject_Z rss / (1024 * 1024))%Q) l x.

Definition of_option {S A} (o : option A) (e : exn) : St S A :=
  match o with Some a => ret a | None => raise e end.

Section Sampler.

Variable temp_dir : string.

(** The block that measures peak memory: the inner [try] of the iteration,
    with its handler for [NoSuchProcess] and [AccessDenied]. *)
Definition monitor_memory (run : process_run) : St sampler_state unit :=
  try_except_only
    (fun e => match e with NoSuchProcess | AccessDenied => true | _ => false end)
    (match monitoring run with
     | AttachFailed e => raise e
     | Attached rss_readings =>
         assign_memory_usage 0 ;;
         for_each rss_readings tt
           (fun _ rss =>
              let current_memory := (inject_Z rss / (1024 * 1024))%Q in
              peak <- read_memory_usage ;;
              assign_memory_usage (max2 peak current_memory)) ;;
         peak <- read_memory_usage ;;
         append_metric memory_usage peak
     end)
    (fun e => lift (logger WARNING "Erro ao medir memória")).

(** One pass of the body of [for i in range(self.iterations)]. *)
Definition iteration (run : process_run) : St sampler_state unit :=
  lift (logger INFO "Iteração") ;;
  try_except
    (current_dir <- lift os.getcwd ;;
     lift (os.chdir temp_dir) ;;
     started <- of_option (popen run) OSError ;;
     let startup_time_ms := (started * 1000)%Q in
     append_metric startup_time startup_time_ms ;;
     monitor_memory run ;;
     finished <- of_option (communicate run) OtherError ;;
     let '(elapsed, returncode, decodes) := finished in
     append_metric execution_time elapsed ;;
     lift (os.chdir current_dir) ;;
     (if negb (returncode =? 0)%Z then
        lift (logger WARNING "Erro na execução") ;;
        if decodes then lift (logger WARNING "Saída") else raise UnicodeDecodeError
      else ret tt) ;;
     size <- of_option (getsize run) OSError ;;
     append_metric code_size (inject_Z size / 1024)%Q ;;
     _ <- read_memory_usage ;;
     lift (logger INFO "Iteração concluída"))
    (fun e => lift (logger ERROR "Erro na iteração")).

(** [for i in range(count): ...], starting at index [i]. *)
Fixpoint sampling_loop (runs : nat -> process_run) (i count : nat)
  : St sampler_state unit :=
  match count with
  | O => ret tt
  | S count' => iteration (runs i) ;; sampling_loop runs (S i) count'
  end.

Variable tools : registry.
Variable test_files : list string.
Variable iterations : nat.
Variable sqrt : Q -> Q.

(** [measure_performance(self, tool_name, obfuscated_file)]; [runs] is what
    the host does at each launch. *)
Definition measure_performance (runs : nat -> process_run)
  (tool_name : string) (obfuscated_file : option string)
  : M (option (list (metric * Summary.t))) :=
  found <- match obfuscated_file with
           | Some path =>
               if str_eqb path "" then ret false else os.path_exists path
           | None => ret false
           end ;;
  if negb found then
    logger ERROR "Arquivo ofuscado não encontrado" ;;
    ret None
  else
    tool_info <- lookup_tool tools tool_name ;;
    let is_executable := get_default (needs_execution tool_info) false in
    first <- of_option (nth_error test_files 0) IndexError ;;
    let resource_dir := os_path.dirname first in
    has_dlib <- os.path_exists (os_path.join resource_dir "dlib_shape_predictor") ;;
    (if has_dlib then
       let target_dir := os_path.join temp_dir "dlib_shape_predictor" in
       os.makedirs target_dir ;;
       let dat_file :=
         os_path.join (os_path.join resource_dir "dlib_shape_predictor")
           "shape_predictor_68_face_landmarks.dat" in
       has_dat <- os.path_exists dat_file ;;
       if has_dat then shutil.copy2 dat_file target_dir else ret tt
     else ret tt) ;;
    let video_file := os_path.join resource_dir "video.mp4" in
    has_video <- os.path_exists video_file ;;
    (if has_video then shutil.copy2 video_file temp_dir else ret tt) ;;
    logger INFO ("Medindo desempenho para " ++ tool_name) ;;
    fun w =>
      let (r, s) := sampling_loop runs 0 iterations (mkSampler w empty_samples None) in
      match r with
      | Ok _ =>
          match compute_statistics sqrt (metrics s) with
          | Some result => (Ok (Some result), host s)
          | None => (Raised OtherError, host s)
          end
      | Raised e => (Raised e, host s)
      | Diverged => (Diverged, host s)
      end.

End Sampler.

(** The exceptions the memory block handles itself. *)
Definition caught (e : exn) : bool :=
  match e with NoSuchProcess | AccessDenied => true | _ => false end.

(** An iteration returns normally and extends each sample list by at most
    one sample. *)
Definition grows (s : sampler_state) (r : result unit * sampler_state) : Prop :=
  fst r = Ok tt /\
  forall m, exists extra,
    metrics (snd r) m = (metrics s m ++ extra)%list /\ (List.length extra <= 1)%nat.

(** ** The run: [run_benchmark] and [save_results] *)

(** [self.results]: test file -> tool name -> metric -> summary, each dict
    in insertion order. *)
Definition tool_results : Type := list (string * list (metric * Summary.t)).
Definition results_map : Type := list (string * tool_results).

(** [d[k] = v]. *)
Fixpoint dict_set {V} (k : string) (v : V) (d : list (string * V))
  : list (string * V) :=
  match d with
  | [] => [(k, v)]
  | (k', v') :: rest =>
      if str_eqb k k' then (k, v) :: rest else (k', v') :: dict_set k v rest
  end.

(** [not d]. *)
Definition dict_empty {V} (d : list (string * V)) : bool :=
  match d with [] => true | _ => false end.

Section Benchmark.

Variable shell : string -> M completed.
Variable name_var_match : string -> option string.
Variable apply_repairs : string -> string.
Variable _apply_cython : string -> M (option string).
Variable sqrt : Q -> Q.

(** [install_tools]: may run installers and switch tools off. *)
Variable install_tools : registry -> M registry.

(** What the host does at launch [i] of the artifact a tool produced. *)
Variable runs : string -> string -> nat -> process_run.

(** [json.dumps(results, indent=2)]. *)
Variable json_dumps : results_map -> string.

Variable temp_dir : string.
Variable output_dir : string.
Variable test_files : list string.
Variable iterations : nat.
Variable depth : nat.

(** [self.output_dir / "benchmark_results.json"]. *)
Definition results_file : string := Path.child output_dir "benchmark_results.json".

(** [save_results(self)]. *)
Definition save_results (results : results_map) : M unit :=
  if dict_empty results then
    logger ERROR "Nenhum resultado para salvar." ;;
    ret tt
  else
    logger INFO ("Salvando resultados em " ++ results_file) ;;
    try_except
      (write_text results_file (json_dumps results) ;;
       logger INFO "Resultados salvos com sucesso")
      (fun e => logger ERROR "Erro ao salvar resultados").

(** The body of [for tool_name, tool_info in TOOLS.items()]. *)
Definition run_tool (tools : registry) (test_file : string)
  (results : results_map) (entry : string * tool_info) : M results_map :=
  let (tool_name, tool_info) := entry in
  if negb (get_default (enabled tool_info) true) then
    logger INFO ("Ferramenta " ++ tool_name ++ " está desativada, pulando.") ;;
    ret results
  else
    logger INFO ("Aplicando " ++ tool_name ++ " a " ++ test_file ++ "...") ;;
    try_except
      (obfuscated_file <-
         apply_obfuscation shell name_var_match apply_repairs _apply_cython
           temp_dir tools depth tool_name test_file ;;
       match obfuscated_file with
       | Some path =>
           if str_eqb path "" then
             logger ERROR ("Falha ao aplicar " ++ tool_name) ;; ret results
           else
             measured <-
               measure_performance temp_dir tools test_files iterations sqrt
                 (runs tool_name path) tool_name (Some path) ;;
             match measured with
             | Some summary =>
                 of_file <- of_option (assoc test_file results) KeyError ;;
                 let results :=
                   dict_set test_file (dict_set tool_name summary of_file) results in
                 logger INFO (tool_name ++ " concluído com sucesso") ;;
                 ret results
             | None =>
                 logger ERROR ("Falha ao medir desempenho para " ++ tool_name) ;;
                 ret results
             end
       | None =>
           logger ERROR ("Falha ao aplicar " ++ tool_name) ;; ret results
       end)
      (fun e =>
         logger ERROR ("Erro ao processar " ++ tool_name) ;;
         ret results).

(** The body of [for test_file in self.test_files]. *)
Definition test_file_pass (tools : registry) (results : results_map)
  (test_file : string) : M results_map :=
  logger INFO ("Executando benchmark para " ++ test_file ++ "...") ;;
  let results := dict_set test_file [] results in
  for_each tools results (run_tool tools test_file).

(** [run_benchmark(self)], started with [self.results = results] and the
    registry [tools]; returns [self.results] as it is at the end. *)
Definition run_benchmark (tools : registry) (results : results_map)
  : M results_map :=
  tools <- install_tools tools ;;
  results <- for_each test_files results (test_file_pass tools) ;;
  save_results results ;;
  ret results.

End Benchmark.

(** Does the text end with [.py]? *)
Fixpoint ends_py (s : string) : bool :=
  match s with
  | EmptyString => false
  | String _ r => str_eqb s ".py" || ends_py r
  end.

(** ** Concrete inputs used by the examples *)

Module Examples.

(** Two sibling files that import each other. *)
Definition cyclic_files : filesystem :=
  fun p =>
    if str_eqb p "proj/a.py" then Some (File "import b
" true)
    else if str_eqb p "proj/b.py" then Some (File "import a
" true)
    else None.

(** An artifact with a chain of two sibling modules. *)
Definition chain_files : filesystem :=
  fun p =>
    if str_eqb p "proj/main.py" then Some (File "import os
import helper
from util import f
" true)
    else if str_eqb p "proj/helper.py" then Some (File "import util
" true)
    else if str_eqb p "proj/util.py" then Some (File "import math
" true)
    else None.

Definition chain_world : world := mkWorld chain_files "/home/user" [].

Definition temp_dir : string := "/tmp/obfuscation_benchmark_k3".

(** A host on which no external command does anything. *)
Definition idle_shell : string -> M completed := fun _ => ret (Exit0 "").
Definition no_name_var : string -> option string := fun _ => None.
Definition no_repairs : string -> string := fun s => s.
Definition no_cython : string -> M (option string) := fun _ => ret None.

(** An artifact that imports a sibling named like its own copy. *)
Definition clash_files : filesystem :=
  fun p =>
    if str_eqb p "proj/main.py" then Some (File "import main_original
" true)
    else if str_eqb p "proj/main_original.py" then Some (File "x = 1
" true)
    else None.

Definition clash_world : world := mkWorld clash_files "/home/user" [].

(** An artifact that exists but may not be read. *)
Definition locked_files : filesystem :=
  fun p => if str_eqb p "proj/main.py" then Some Locked else None.

Definition locked_world : world := mkWorld locked_files "/home/user" [].

(** An artifact without imports, and a [pyobfuscate] whose output does not
    decode as text. *)
Definition plain_files : filesystem :=
  fun p =>
    if str_eqb p "proj/main.py" then Some (File "print(1)
" true)
    else if str_eqb p temp_dir then Some Directory
    else None.

Definition plain_world : world := mkWorld plain_files "/home/user" [].

Definition raw_output : node := File "raw obfuscated bytes" false.

(** A host for the sampler: the workspace and the caller's directory
    exist. *)
Definition sampler_files : filesystem :=
  fun p =>
    if str_eqb p temp_dir then Some Directory
    else if str_eqb p "/home/user" then Some Directory
    else if str_eqb p "proj/main.py" then Some (File "print(1)
" true)
    else None.

Definition sampler_world : world := mkWorld sampler_files "/home/user" [].

Definition fresh_sampler : sampler_state :=
  mkSampler sampler_world empty_samples None.

(** A launch that fails: [Popen] raises. *)
Definition failed_launch : process_run :=
  mkRun None (Attached []) None None.

(** A launch after which [communicate] raises: the handle came after 10 ms
    and two memory readings (20 MB, 30 MB) were taken. *)
Definition crashed_run : process_run :=
  mkRun (Some (1 # 100)) (Attached [20971520; 31457280]%Z) None (Some 2048%Z).

(** A launch that completes: 10 ms to the handle, 150 ms in all, exit
    status 0, an artifact of 2048 bytes. *)
Definition clean_run : process_run :=
  mkRun (Some (1 # 100)) (Attached [20971520; 31457280]%Z)
    (Some (15 # 100, 0%Z, true)) (Some 2048%Z).

(** A registry with every tool switched off, an installer that changes
    nothing, and a serialiser that lists the test files. *)
Definition all_disabled : registry :=
  map (fun entry => (fst entry, with_enabled false (snd entry))) TOOLS.

Definition no_install : registry -> M registry := fun tools => ret tools.

Definition keys_only_dumps : results_map -> string :=
  fun results => String.concat "," (map fst results).

Definition undecodable_pyobfuscate : string -> M completed :=
  fun cmd w =>
    (Ok (Exit0 ""),
     mkWorld (fs_set (temp_dir ++ "/main.obf.py.temp") (Some raw_output) (files w))
       (cwd w) (log w)).

End Examples.

(* ===================================================================== *)
(** * Part I, continued: the rest of the orchestrator                    *)
(* ===================================================================== *)

(** ** Notions for the dependency resolver *)

(** [q] is reached from [p] through one or more local imports. *)
Inductive reachable (fs : filesystem) : string -> string -> Prop :=
| reach_direct p q : In q (local_imports fs p) -> reachable fs p q
| reach_via p r q :
    In r (local_imports fs p) -> reachable fs r q -> reachable fs p q.

(** Characters a module name taken by either pattern can hold. *)
Definition name_char : ascii -> bool := Scan.from_name_char.

(** ** Notions for the driver *)

(** What [format] produces, as a value: [None] is the [KeyError]. *)
Fixpoint render (t : template) (kwargs : list (string * string)) : option string :=
  match t with
  | [] => Some ""
  | Lit s :: rest => option_map (append s) (render rest kwargs)
  | Field name :: rest =>
      match assoc name kwargs, render rest kwargs with
      | Some v, Some tail => Some (v ++ tail)
      | _, _ => None
      end
  end.

(** The replacement fields of a template. *)
Fixpoint fields (t : template) : list string :=
  match t with
  | [] => []
  | Lit _ :: rest => fields rest
  | Field name :: rest => name :: fields rest
  end.

(** The keywords the driver passes when it formats an output template and
    a command template. *)
Definition output_keywords : list string :=
  ["output_dir"; "input_name"; "input_dir"].
Definition command_keywords : list string :=
  ["input_file"; "output_file"; "output_temp"; "input_name"; "input_dir";
   "output_dir"].

Definition output_kwargs (temp_dir input_file name : string)
  : list (string * string) :=
  [("output_dir", temp_dir); ("input_name", name);
   ("input_dir", Path.parent input_file)].

Definition command_kwargs (temp_dir input_file source output_file output_temp
  name : string) : list (string * string) :=
  [("input_file", source); ("output_file", output_file);
   ("output_temp", output_temp); ("input_name", name);
   ("input_dir", Path.parent input_file); ("output_dir", temp_dir)].

(** A command that does not end with exit status 0: a non-zero status or a
    failure to launch. *)
Definition failed {A} (r : result completed * A) : Prop :=
  match fst r with
  | Ok (Exit0 _) => False
  | Ok (ExitNonZero _ _) => True
  | Raised _ => True
  | Diverged => False
  end.

(** ** Notions for the sampler *)

(** A launch that goes through: the handle comes, the process can be
    watched, [communicate] returns (with output that decodes if the exit
    status is not 0) and the artifact's size can be read. *)
Definition clean_launch (run : process_run) : Prop :=
  exists t l elapsed returncode decodes size,
    popen run = Some t /\
    monitoring run = Attached l /\
    communicate run = Some (elapsed, returncode, decodes) /\
    (returncode = 0%Z \/ decodes = true) /\
    getsize run = Some size.

(** The sample that a launch which goes through adds to a metric. *)
Definition sample (m : metric) (run : process_run) : Q :=
  match m with
  | startup_time =>
      match popen run with Some t => t * 1000 | None => 0 end
  | memory_usage =>
      match monitoring run with
      | Attached l => peak_from 0 l
      | AttachFailed _ => 0
      end
  | execution_time =>
      match communicate run with Some (elapsed, _, _) => elapsed | None => 0 end
  | code_size =>
      match getsize run with Some size => inject_Z size / 1024 | None => 0 end
  end%Q.

(** ** Installation: [_check_command_exists], [_check_module_installed],
    [install_tools] *)

Definition nl : string := String (ascii_of_nat 10) EmptyString.

(** [command.split()[0]]: the first run of characters that are not white
    space; [None] is the [IndexError] on a blank command. *)
Definition first_word (command : string) : option string :=
  let (_, r) := Scan.span Scan.is_space command in
  let (word, _) := Scan.span (fun c => negb (Scan.is_space c)) r in
  if str_eqb word "" then None else Some word.

Section Installer.

Variable shell : string -> M completed.

(** [distutils.spawn.find_executable(name) is not None] and
    [importlib.util.find_spec(name) is not None]: what the host finds on
    its search paths. *)
Variable find_executable : string -> M bool.
Variable find_spec : string -> M bool.

(** [_check_command_exists(self, command)]. *)
Definition _check_command_exists (command : string) : M bool :=
  match first_word command with
  | Some name => find_executable name
  | None => raise IndexError
  end.

(** [_check_module_installed(self, module_name)]. *)
Definition _check_module_installed (module_name : string) : M bool :=
  find_spec module_name.

(** The [if tool_name == ... and ...: continue] chain: each test names one
    tool, so at most one probe runs. *)
Definition already_installed (tool_name : string) : M bool :=
  if str_eqb tool_name "pyarmor7" then _check_command_exists "pyarmor-7"
  else if str_eqb tool_name "pyarmor_gen" then _check_command_exists "pyarmor"
  else if str_eqb tool_name "pyminifier" then
    found <- _check_module_installed "pyminifier" ;;
    if found then ret true else _check_module_installed "pyminifier3"
  else if str_eqb tool_name "opy" then _check_module_installed "opy"
  else if str_eqb tool_name "pyobfuscate" then _check_command_exists "pyobfuscate"
  else if str_eqb tool_name "cython" then _check_module_installed "cython"
  else if str_eqb tool_name "pyinstaller" then _check_module_installed "PyInstaller"
  else ret false.

(** The body of [for tool_name, tool_info in TOOLS.items()]; [tool_info] is
    the entry of the registry itself, so switching it off changes the
    registry. *)
Definition install_tool (tools : registry) (entry : string * tool_info)
  : M registry :=
  let (tool_name, tool_info) := entry in
  if negb (get_default (enabled tool_info) true) then
    logger INFO ("Ferramenta " ++ tool_name
                 ++ " está desativada, pulando instalação.") ;;
    ret tools
  else if str_eqb tool_name "original" then ret tools
  else
    present <- already_installed tool_name ;;
    if present then
      logger INFO (tool_name ++ " já está instalado.") ;;
      ret tools
    else
      match install tool_info with
      | Some install_command =>
          logger INFO ("Instalando " ++ tool_name ++ "...") ;;
          try_except
            (r <- _execute_command shell install_command ;;
             if fst r then
               logger INFO (tool_name ++ " instalado com sucesso.") ;;
               ret tools
             else
               logger ERROR ("Erro ao instalar " ++ tool_name) ;;
               logger WARNING ("O benchmark continuará, mas " ++ tool_name
                               ++ " será ignorado.") ;;
               ret (set_enabled tool_name false tools))
            (fun e =>
               logger ERROR ("Erro ao instalar " ++ tool_name) ;;
               logger WARNING ("O benchmark continuará, mas " ++ tool_name
                               ++ " será ignorado.") ;;
               ret (set_enabled tool_name false tools))
      | None => ret tools
      end.

(** [install_tools(self)], on the registry [tools]; returns the registry
    as it is at the end. *)
Definition install_tools (tools : registry) : M registry :=
  logger INFO "Instalando ferramentas de ofuscação..." ;;
  for_each tools tools install_tool.

End Installer.

(** One entry after a pass that can only switch tools off: the same key,
    and the same record or the record with [enabled] set to [False]; the
    entry of ['original'] is the same record. *)
Definition switched_off_or_same (before after : string * tool_info) : Prop :=
  fst after = fst before /\
  (snd after = snd before \/
   fst before <> "original" /\ snd after = with_enabled false (snd before)).

(** A probe or command that does not raise. *)
Definition never_raises {A} (c : M A) : Prop :=
  forall w e, fst (c w) <> Raised e.

(** ** The [--disable-tools] option of [main] *)

(** [for tool_name in args.disable_tools: if tool_name in TOOLS: ...]. *)
Definition disable_tools (names : list string) (tools : registry) : M registry :=
  for_each names tools
    (fun tools tool_name =>
       match assoc tool_name tools with
       | Some _ =>
           logger INFO ("Desativando ferramenta: " ++ tool_name) ;;
           ret (set_enabled tool_name false tools)
       | None => ret tools
       end).

(** ** The Cython handler *)

Section Cython.

Variable shell : string -> M completed.

(** [list(self.temp_dir.glob(pattern))], as strings: what the host lists. *)
Variable glob : string -> string -> M (list string).

(** [sys.platform == "win32"]. *)
Variable win32 : bool.

Variable temp_dir : string.
Variable depth : nat.

(** The text of [setup.py] once [format] has put the file name in. *)
Definition setup_content (pyx_name : string) : string :=
  "from setuptools import setup" ++ nl
  ++ "from Cython.Build import cythonize" ++ nl ++ nl
  ++ "setup(" ++ nl
  ++ "    ext_modules = cythonize(" ++ dquote ++ pyx_name ++ dquote
  ++ ", compiler_directives={" ++ dquote ++ "language_level" ++ dquote ++ ": "
  ++ dquote ++ "3" ++ dquote ++ "})," ++ nl
  ++ ")" ++ nl.

(** The text of the wrapper script. *)
Definition wrapper_content (input_name : string) (dependencies : list string)
  : string :=
  let dependency_imports :=
    String.concat "" (map (fun dep => "import " ++ dep ++ nl) dependencies) in
  "import sys" ++ nl
  ++ "import os" ++ nl
  ++ "sys.path.insert(0, os.path.dirname(os.path.abspath(__file__)))" ++ nl
  ++ (if negb (str_eqb dependency_imports "") then dependency_imports ++ nl
      else "")
  ++ "import " ++ input_name ++ nl
  ++ "if __name__ == " ++ dquote ++ "__main__" ++ dquote ++ ":" ++ nl
  ++ "    if hasattr(" ++ input_name ++ ", " ++ dquote ++ "main" ++ dquote
  ++ "):" ++ nl
  ++ "        " ++ input_name ++ ".main()" ++ nl.

(** [_apply_cython(self, input_file)]. *)
Definition _apply_cython (input_file : string) : M (option string) :=
  let input_name := Path.stem input_file in
  let cython_file := Path.child temp_dir (input_name ++ ".pyx") in
  shutil.copy2 input_file cython_file ;;
  let setup_file := Path.child temp_dir "setup.py" in
  write_text setup_file (setup_content (Path.name cython_file)) ;;
  logger INFO ("Compilando com Cython: " ++ cython_file) ;;
  try_except
    (r <- _execute_command shell
            ("cd " ++ temp_dir ++ " && python setup.py build_ext --inplace") ;;
     if negb (fst r) then
       logger ERROR "Erro ao compilar com Cython" ;;
       ret None
     else
       let extension := if win32 then ".pyd" else ".so" in
       compiled_files <- glob temp_dir (input_name ++ "*" ++ extension) ;;
       match compiled_files with
       | [] =>
           logger ERROR ("Nenhum arquivo compilado encontrado para "
                         ++ input_name) ;;
           ret None
       | compiled_file :: _ =>
           logger INFO ("Compilação com Cython concluída: " ++ compiled_file) ;;
           found <- detect_dependencies depth input_file ;;
           let dependencies := map Path.stem found in
           let wrapper_file :=
             Path.child temp_dir (input_name ++ "_cython_wrapper.py") in
           write_text wrapper_file (wrapper_content input_name dependencies) ;;
           ret (Some wrapper_file)
       end)
    (fun e =>
       logger ERROR "Erro ao compilar com Cython" ;;
       ret None).

End Cython.

(** ** The environment check: [_check_opy_path], [check_environment] *)

(** [sub in s] on text. *)
Fixpoint contains (sub s : string) : bool :=
  prefix sub s
  || match s with
     | EmptyString => false
     | String _ r => contains sub r
     end.

(** [s.lower()] on code points below 256. *)
Definition lower_char (c : ascii) : ascii :=
  let n := nat_of_ascii c in
  if ((65 <=? n) && (n <=? 90)
      || (192 <=? n) && (n <=? 222) && negb (n =? 215))%nat
  then ascii_of_nat (n + 32) else c.

Fixpoint lower (s : string) : string :=
  match s with
  | EmptyString => EmptyString
  | String c r => String (lower_char c) (lower r)
  end.

(** [tools[tool_name]['command'] = t] and [tools[tool_name]['output'] = t]
    on one entry, and an assignment to a key of one entry of the
    registry. *)
Definition with_command (t : template) (info : tool_info) : tool_info :=
  mkTool (description info) (install info) (Some t) (output info)
    (enabled info) (check_version info) (post_process info)
    (custom_handler info) (needs_execution info) (check_env info).

Definition with_output (t : template) (info : tool_info) : tool_info :=
  mkTool (description info) (install info) (command info) (Some t)
    (enabled info) (check_version info) (post_process info)
    (custom_handler info) (needs_execution info) (check_env info).

Fixpoint update_tool (tool_name : string) (f : tool_info -> tool_info)
  (tools : registry) : registry :=
  match tools with
  | [] => []
  | (k, info) :: rest =>
      if str_eqb tool_name k then (k, f info) :: rest
      else (k, info) :: update_tool tool_name f rest
  end.

(** What an import or a [find_spec] gives: [ImportError], or a value. *)
Inductive probe (A : Type) : Type :=
| ImportFailed
| Found (a : A).

Arguments ImportFailed {A}.
Arguments Found {A} a.

(** The commands that [check_environment] writes into the registry. *)
Definition opy_command (opy_tool : string) : template :=
  [Lit ("python -c " ++ dquote ++ "from opy." ++ opy_tool
        ++ " import main; import sys; sys.argv = ["
        ++ squote ++ squote ++ ", " ++ squote ++ "-o" ++ squote
        ++ ", " ++ squote);
   Field "output_file";
   Lit (squote ++ ", " ++ squote);
   Field "input_file";
   Lit (squote ++ "]; main()" ++ dquote)].

Definition pyarmor_gen_command : template :=
  [Lit "pyarmor gen -O "; Field "output_dir"; Lit "/dist "; Field "input_file"].
Definition pyarmor_gen_output : template :=
  [Field "output_dir"; Lit "/dist/"; Field "input_name"; Lit ".py"].
Definition pyminifier_no_obfuscate : template :=
  [Lit "python -m pyminifier --no-obfuscate "; Field "input_file"; Lit " > ";
   Field "output_file"].
Definition pyminifier_basic : template :=
  [Lit "python -m pyminifier "; Field "input_file"; Lit " > ";
   Field "output_file"].
Definition pyobfuscate_keep : template :=
  [Lit "pyobfuscate -k -i "; Field "input_file"; Lit " > ";
   Field "output_temp"].

(** Truth value of [opy_tool]: a non-empty name. *)
Definition truthy (o : option string) : bool :=
  match o with
  | Some s => negb (str_eqb s "")
  | None => false
  end.

Section Environment.

(** [sys.version_info.major], [.minor], [sys.version], [sys.executable]. *)
Variable python_major python_minor : nat.
Variable sys_version sys_executable : string.

(** [importlib.util.find_spec('pathlib')]: [None] for no spec, else
    [str(spec.origin)]. *)
Variable find_pathlib_origin : M (option string).

(** [import opy]: [ImportError], or the module with its [__file__]
    ([None] when the attribute is missing or null). *)
Variable import_opy : M (probe (option string)).

(** [importlib.util.find_spec('opy')]: [ImportError], or the origin of the
    spec ([None] when there is no spec or no origin). *)
Variable opy_spec : M (probe (option string)).

(** [subprocess.run(argv, capture_output=True, text=True)]: the captured
    [stdout] and [stderr]. *)
Variable run_argv : list string -> M (string * string).

Variable shell : string -> M completed.

(** [for path in possible_tool_paths: if os.path.exists(path): ...]. *)
Fixpoint first_existing (paths : list string) : M (option string) :=
  match paths with
  | [] => ret None
  | path :: rest =>
      found <- os.path_exists path ;;
      if found then ret (Some path) else first_existing rest
  end.

(** The tail of [_check_opy_path], once [opy_path] is known. *)
Definition opy_tool_in (opy_path : string) : M (option string) :=
  let possible_tool_paths :=
    [os_path.join opy_path "opy_tool.py"; os_path.join opy_path "tool.py"] in
  hit <- first_existing possible_tool_paths ;;
  match hit with
  | Some path =>
      let tool_name := hd "" (split_on "."%char (os_path.basename path)) in
      logger INFO ("Ferramenta opy encontrada: " ++ tool_name) ;;
      ret (Some tool_name)
  | None =>
      logger WARNING ("Nenhuma ferramenta opy encontrada em: " ++ opy_path) ;;
      ret None
  end.

(** [_check_opy_path(self)]; only [ImportError] is handled. *)
Definition _check_opy_path : M (option string) :=
  imported <- import_opy ;;
  match imported with
  | ImportFailed =>
      logger WARNING "Módulo opy não pôde ser importado" ;;
      ret None
  | Found (Some file) =>
      logger INFO ("Módulo opy encontrado em: " ++ file) ;;
      opy_tool_in (os_path.dirname file)
  | Found None =>
      logger WARNING "Módulo opy encontrado, mas __file__ é None" ;;
      spec <- opy_spec ;;
      match spec with
      | ImportFailed =>
          logger WARNING "Módulo opy não pôde ser importado" ;;
          ret None
      | Found (Some origin) =>
          let opy_path := os_path.dirname origin in
          logger INFO ("Módulo opy localizado via spec: " ++ opy_path) ;;
          opy_tool_in opy_path
      | Found None =>
          logger WARNING "Não foi possível determinar o caminho do módulo opy" ;;
          ret None
      end
  end.

Definition in_anaconda : bool :=
  contains "Anaconda" sys_version || contains "conda" sys_version
  || contains "anaconda" (lower sys_executable).

(** ['name' in TOOLS and TOOLS['name']['enabled']]: the subscript raises
    [KeyError] on an entry without the key. *)
Definition tool_enabled (name : string) (tools : registry) : M bool :=
  match assoc name tools with
  | None => ret false
  | Some info => required (enabled info)
  end.

(** The blocks of [check_environment], in order; each works on the
    registry and returns it as it then is. *)
Definition check_pyinstaller (tools : registry) : M registry :=
  if in_anaconda then
    logger INFO "Ambiente Anaconda detectado" ;;
    on <- tool_enabled "pyinstaller" tools ;;
    if on then
      try_except
        (origin <- find_pathlib_origin ;;
         match origin with
         | Some o =>
             if contains "site-packages" o then
               logger WARNING "Backport de pathlib detectado, que é incompatível com PyInstaller no Anaconda" ;;
               logger WARNING "Desativando PyInstaller. Para usar, execute: conda remove pathlib" ;;
               ret (set_enabled "pyinstaller" false tools)
             else ret tools
         | None => ret tools
         end)
        (fun e => ret tools)
    else ret tools
  else ret tools.

Definition check_pyarmor7 (tools : registry) : M registry :=
  if ((python_major =? 3) && (11 <=? python_minor))%nat then
    on <- tool_enabled "pyarmor7" tools ;;
    if on then
      logger WARNING "Python 3.11+ não é suportado pelo PyArmor 7, desativando" ;;
      ret (set_enabled "pyarmor7" false tools)
    else ret tools
  else ret tools.

Definition check_opy (tools : registry) : M registry :=
  on <- tool_enabled "opy" tools ;;
  if on then
    opy_tool <- _check_opy_path ;;
    if truthy opy_tool then
      ret (update_tool "opy"
             (with_command (opy_command (get_default opy_tool ""))) tools)
    else
      logger WARNING "Módulo opy não encontrado ou ferramentas não identificadas, tentando instalação" ;;
      try_except
        (_ <- subprocess_run_checked shell
                "pip install -U https://github.com/QQuick/Opy/archive/master.zip" ;;
         opy_tool <- _check_opy_path ;;
         if truthy opy_tool then
           ret (update_tool "opy"
                  (with_command (opy_command (get_default opy_tool ""))) tools)
         else
           logger WARNING "Falha ao identificar ferramentas opy, desativando" ;;
           ret (set_enabled "opy" false tools))
        (fun e =>
           logger WARNING "Falha ao instalar opy, desativando" ;;
           ret (set_enabled "opy" false tools))
  else ret tools.

Definition check_pyarmor_gen (tools : registry) : M registry :=
  on <- tool_enabled "pyarmor_gen" tools ;;
  if on then
    try_except
      (result <- run_argv ["pyarmor"; "--version"] ;;
       let version_output :=
         if negb (str_eqb (fst result) "") then fst result else snd result in
       logger INFO "PyArmor version" ;;
       if contains "8." version_output || contains "9." version_output then
         ret (update_tool "pyarmor_gen"
                (fun info =>
                   with_output pyarmor_gen_output
                     (with_command pyarmor_gen_command info))
                tools)
       else
         logger WARNING "PyArmor 8+ não detectado, desativando pyarmor_gen" ;;
         ret (set_enabled "pyarmor_gen" false tools))
      (fun e =>
         logger WARNING "Erro ao verificar versão do PyArmor, desativando pyarmor_gen" ;;
         ret (set_enabled "pyarmor_gen" false tools))
  else ret tools.

Definition check_pyminifier (tools : registry) : M registry :=
  on <- tool_enabled "pyminifier" tools ;;
  if on then
    try_except
      (result <- run_argv ["python"; "-m"; "pyminifier"; "--help"] ;;
       let help_output := fst result in
       if contains "--no-obfuscate" help_output then
         logger INFO "pyminifier suporta --no-obfuscate, ajustando comando" ;;
         ret (update_tool "pyminifier" (with_command pyminifier_no_obfuscate)
                tools)
       else if contains "-O" help_output || contains "--obfuscate" help_output
       then
         logger INFO "pyminifier suporta opção de ofuscação, usando sem ela" ;;
         ret (update_tool "pyminifier" (with_command pyminifier_basic) tools)
       else
         logger INFO "Usando comando básico para pyminifier" ;;
         ret (update_tool "pyminifier" (with_command pyminifier_basic) tools))
      (fun e =>
         logger WARNING "Erro ao verificar opções do pyminifier, usando comando básico" ;;
         ret (update_tool "pyminifier" (with_command pyminifier_basic) tools))
  else ret tools.

Definition check_pyobfuscate (tools : registry) : M registry :=
  on <- tool_enabled "pyobfuscate" tools ;;
  if on then
    try_except
      (help_output <- run_argv ["pyobfuscate"; "--help"] ;;
       if contains "-k" (fst help_output)
          || contains "--preserve-keywords" (fst help_output)
       then
         logger INFO "pyobfuscate suporta preservação de keywords, ativando" ;;
         ret (update_tool "pyobfuscate" (with_command pyobfuscate_keep) tools)
       else ret tools)
      (fun e =>
         logger WARNING "Erro ao verificar opções do pyobfuscate, prosseguindo com configuração padrão" ;;
         ret tools)
  else ret tools.

(** [check_environment(self)], on the registry [tools]. *)
Definition check_environment (tools : registry) : M registry :=
  logger INFO "Python versão" ;;
  tools <- check_pyinstaller tools ;;
  tools <- check_pyarmor7 tools ;;
  tools <- check_opy tools ;;
  tools <- check_pyarmor_gen tools ;;
  tools <- check_pyminifier tools ;;
  check_pyobfuscate tools.

End Environment.

(** The changes [check_environment] makes to an entry: switching it off,
    or writing a command (and output) template. *)
Inductive adjustment : (tool_info -> tool_info) -> Prop :=
| adjust_off : adjustment (with_enabled false)
| adjust_command t :
    incl (fields t) command_keywords -> adjustment (with_command t)
| adjust_both t o :
    incl (fields t) command_keywords -> incl (fields o) output_keywords ->
    adjustment (fun info => with_output o (with_command t info)).

(** One entry after the check: the same key; [enabled] as it was or
    [False]; the entry of ['original'] is the same record. *)
Definition off_or_retuned (before after : string * tool_info) : Prop :=
  fst after = fst before /\
  (enabled (snd after) = enabled (snd before)
   \/ enabled (snd after) = Some false) /\
  (fst before = "original" -> snd after = snd before).

(** Every template of the registry uses only the keywords that the driver
    passes to [format]. *)
Definition well_templated (tools : registry) : Prop :=
  forall name info, In (name, info) tools ->
    (forall t, output info = Some t -> incl (fields t) output_keywords) /\
    (forall t, command info = Some t -> incl (fields t) command_keywords).

(** What one block of the check can do to the registry: nothing, or one
    adjustment of the entry the block is about. *)
Definition block (name : string) (tools tools' : registry) : Prop :=
  tools' = tools \/ exists f, adjustment f /\ tools' = update_tool name f tools.

(** Every entry that can be looked up has the key ['enabled']. *)
Definition keyed (tools : registry) : Prop :=
  forall k info, assoc k tools = Some info -> enabled info <> None.

(** ** The entry point: [__init__], [cleanup], [generate_reports], [main] *)

(** [try: body finally: final]: [final] runs after [body] has returned or
    raised, and its own exception replaces the pending one.  A body that
    does not come back never reaches it. *)
Definition try_finally {A} (body : M A) (final : M unit) : M A :=
  fun w =>
    match body w with
    | (Diverged, w') => (Diverged, w')
    | (r, w') =>
        match final w' with
        | (Ok _, w'') => (r, w'')
        | (Raised e, w'') => (Raised e, w'')
        | (Diverged, w'') => (Diverged, w'')
        end
    end.

(** The parsed command line. *)
Module Args.

Record namespace : Type := Namespace {
  test_files : list string;
  output_dir : string;
    (** as [Path(output_dir)] spells it *)
  iterations : nat;
    (** [range(iterations)] is empty for a count below 1 *)
  disable_tools : option (list string)
}.

End Args.

Section Main.

(** The host. *)
Variable shell : string -> M completed.
Variable name_var_match : string -> option string.
Variable apply_repairs : string -> string.
Variable glob : string -> string -> M (list string).
Variable win32 : bool.
Variable sqrt : Q -> Q.
Variable find_executable find_spec : string -> M bool.
Variable runs : string -> string -> nat -> process_run.
Variable json_dumps : results_map -> string.
Variable depth : nat.
Variable python_major python_minor : nat.
Variable sys_version sys_executable : string.
Variable find_pathlib_origin : M (option string).
Variable import_opy opy_spec : M (probe (option string)).
Variable run_argv : list string -> M (string * string).

(** [os.path.isfile] on an entry that refuses access. *)
Variable locked_isfile : string -> bool.

(** [tempfile.mkdtemp(prefix="obfuscation_benchmark_")]. *)
Variable mkdtemp : M string.

(** [shutil.rmtree]. *)
Variable rmtree : string -> M unit.

(** [generate_system_info_csv], and the writers behind
    [generate_reports]: the chart of one metric, the Markdown report, the
    HTML report. *)
Variable generate_system_info_csv : string -> M bool.
Variable _generate_metric_chart : string -> results_map -> metric -> M unit.
Variable _generate_markdown_report : string -> results_map -> M unit.
Variable generate_html_report : string -> results_map -> M unit.

(** Is the entry at [p] a regular file? *)
Definition regular (fs : filesystem) (p : string) : bool :=
  match fs p with
  | Some (File _ _) => true
  | Some Locked => locked_isfile p
  | Some Directory | None => false
  end.

(** [os.path.isfile]. *)
Definition path_isfile (p : string) : M bool :=
  fs <- get_files ;;
  ret (regular fs p).

(** [ObfuscationBenchmark.__init__]: returns [self.temp_dir] and the
    registry as the environment check leaves it. *)
Definition init (output_dir : string) (tools : registry)
  : M (string * registry) :=
  os.makedirs output_dir ;;
  temp_dir <- mkdtemp ;;
  logger INFO ("Usando diretório temporário: " ++ temp_dir) ;;
  tools <- check_environment python_major python_minor sys_version
             sys_executable find_pathlib_origin import_opy opy_spec run_argv
             shell tools ;;
  ret (temp_dir, tools).

(** [cleanup(self)]. *)
Definition cleanup (temp_dir : string) : M unit :=
  try_except
    (rmtree temp_dir ;;
     logger INFO ("Diretório temporário removido: " ++ temp_dir))
    (fun e => logger WARNING "Erro ao remover diretório temporário").

(** [generate_reports(self)]. *)
Definition generate_reports (output_dir : string) (results : results_map)
  : M unit :=
  if dict_empty results then
    logger ERROR "Nenhum resultado para gerar relatórios." ;;
    ret tt
  else
    logger INFO "Gerando relatórios..." ;;
    for_each METRICS tt
      (fun _ metric_name =>
         _generate_metric_chart output_dir results metric_name) ;;
    _generate_markdown_report output_dir results ;;
    generate_html_report output_dir results ;;
    logger INFO ("Relatórios gerados em " ++ output_dir).

(** The first test file that is not a regular file, if any. *)
Fixpoint first_missing (test_files : list string) : M (option string) :=
  match test_files with
  | [] => ret None
  | test_file :: rest =>
      isfile <- path_isfile test_file ;;
      if negb isfile then ret (Some test_file) else first_missing rest
  end.

(** [main()], after [parse_args], on the registry [tools]: the exit status
    of the process, 1 for [sys.exit(1)] and 0 for a return. *)
Definition main (args : Args.namespace) (tools : registry) : M nat :=
  missing <- first_missing (Args.test_files args) ;;
  match missing with
  | Some test_file =>
      logger ERROR ("Arquivo de teste não encontrado: " ++ test_file) ;;
      ret 1%nat
  | None =>
      tools <- match Args.disable_tools args with
               | Some (name :: names) => disable_tools (name :: names) tools
               | Some [] | None => ret tools
               end ;;
      benchmark <- init (Args.output_dir args) tools ;;
      let (temp_dir, tools) := benchmark in
      try_finally
        (try_except
           (_ <- generate_system_info_csv (Args.output_dir args) ;;
            results <-
              run_benchmark shell name_var_match apply_repairs
                (_apply_cython shell glob win32 temp_dir depth) sqrt
                (install_tools shell find_executable find_spec)
                runs json_dumps temp_dir (Args.output_dir args)
                (Args.test_files args) (Args.iterations args) depth tools [] ;;
            generate_reports (Args.output_dir args) results ;;
            logger INFO "Benchmark concluído com sucesso!")
           (fun e =>
              logger ERROR "Erro durante o benchmark" ;;
              logger ERROR "Traceback"))
        (cleanup temp_dir) ;;
      ret 0%nat
  end.

End Main.

(** Further concrete inputs. *)
Module MoreExamples.

(** A host on which every command ends with a non-zero status. *)
Definition failing_shell : string -> M completed :=
  fun _ => ret (ExitNonZero "" "command not found").

(** The output path and command line of [pyminifier] for [proj/main.py]. *)
Definition minified : string := Examples.temp_dir ++ "/main.min.py".
Definition minify_main : string :=
  "python -m pyminifier proj/main.py > " ++ minified.

(** A [pyminifier] that handles the artifact and fails on everything
    else. *)
Definition main_only_shell : string -> M completed :=
  fun cmd w =>
    if str_eqb cmd minify_main then
      (Ok (Exit0 ""),
       mkWorld (fs_set minified (Some (File "minified" true)) (files w))
         (cwd w) (log w))
    else (Ok (ExitNonZero "" "syntax error"), w).

(** The registry entry of [pyminifier]. *)
Definition pyminifier_command : template :=
  [Lit "python -m pyminifier "; Field "input_file"; Lit " > ";
   Field "output_file"].
Definition pyminifier_output : template :=
  [Field "output_dir"; Lit "/"; Field "input_name"; Lit ".min.py"].
Definition pyminifier_info : tool_info :=
  mkTool "Minificação e ofuscação básica" (Some "pip install pyminifier")
    (Some pyminifier_command) (Some pyminifier_output)
    (Some true) None None None None None.

(** A host on which no tool is present, and the shipped registry with
    every tool but ['original'] switched off. *)
Definition no_probe : string -> M bool := fun _ => ret false.

Definition only_original : registry :=
  map (fun entry =>
         if str_eqb (fst entry) "original" then entry
         else (fst entry, with_enabled false (snd entry)))
      TOOLS.

(** A host whose workspace listing shows one compiled module, and the
    wrapper that the Cython handler writes for [proj/main.py]. *)
Definition one_module : string -> string -> M (list string) :=
  fun dir pattern => ret [dir ++ "/main.cpython-311-x86_64-linux-gnu.so"].

Definition main_wrapper : string :=
  Examples.temp_dir ++ "/main_cython_wrapper.py".

(** A host with Python 3.12 outside Anaconda, on which [opy] cannot be
    imported and no tool can be launched; the registry after the check
    there. *)
Definition python_3_12 : string := "3.12.1 (main, Jan  8 2024) [GCC 13.2.0]".
Definition usr_bin_python : string := "/usr/bin/python3".
Definition stock_pathlib : M (option string) :=
  ret (Some "/usr/lib/python3.12/pathlib.py").
Definition no_opy : M (probe (option string)) := ret ImportFailed.
Definition no_argv : list string -> M (string * string) :=
  fun _ => raise FileNotFoundError.

Definition checked_tools : registry :=
  set_enabled "pyarmor_gen" false (set_enabled "pyarmor7" false TOOLS).

(** A host for [main]: a workspace that can always be made and removed,
    writers that do nothing.  [blocked_world] has a regular file where the
    output directory should go. *)
Definition workspace_maker : M string :=
  fun w =>
    (Ok Examples.temp_dir,
     mkWorld (fs_set Examples.temp_dir (Some Directory) (files w))
       (cwd w) (log w)).
Definition workspace_remover : string -> M unit :=
  fun dir w => (Ok tt, mkWorld (fs_set dir None (files w)) (cwd w) (log w)).

Definition blocked_files : filesystem :=
  fun p =>
    if str_eqb p "proj/main.py" then Some (File "print(1)" true)
    else if str_eqb p "results" then Some (File "" true)
    else None.

Definition blocked_world : world := mkWorld blocked_files "/home/user" [].

Definition main_on_idle_host : Args.namespace -> registry -> M nat :=
  main failing_shell Examples.no_name_var Examples.no_repairs one_module false
    (fun x => x) no_probe no_probe (fun _ _ _ => Examples.failed_launch)
    Examples.keys_only_dumps 5 3 12 python_3_12 usr_bin_python stock_pathlib
    no_opy no_opy no_argv (fun _ => true) workspace_maker workspace_remover
    (fun _ => ret true) (fun _ _ _ => ret tt) (fun _ _ => ret tt)
    (fun _ _ => ret tt).

Definition init_on_idle_host : string -> registry -> M (string * registry) :=
  init failing_shell 3 12 python_3_12 usr_bin_python stock_pathlib no_opy
    no_opy no_argv workspace_maker.

End MoreExamples.
(* ===================================================================== *)
(** * Part II: properties                                                *)
(* ===================================================================== *)

Unset Implicit Arguments.

(** ** Statistics aggregator *)

Module StatsFacts.

Import builtins.

Lemma len_cons (x : Q) (xs : list Q) :
  (statistics.len (x :: xs) == statistics.len xs + 1)%Q.
Proof.
  unfold statistics.len. cbn [List.length].
  rewrite Nat2Z.inj_succ, <- Z.add_1_r, inject_Z_plus. reflexivity.
Qed.

Lemma len_nonneg (xs : list Q) : (0 <= statistics.len xs)%Q.
Proof.
  unfold statistics.len. change 0%Q with (inject_Z 0).
  rewrite <- Zle_Qle. lia.
Qed.

Lemma insert_sorted_length x xs :
  List.length (insert_sorted x xs) = S (List.length xs).
Proof.
  induction xs as [|y ys IH]; simpl; [reflexivity|].
  destruct (Qlt_le_dec x y); simpl; [reflexivity | now rewrite IH].
Qed.

Lemma insert_sorted_In x xs z :
  In z (insert_sorted x xs) <-> z = x \/ In z xs.
Proof.
  induction xs as [|y ys IH]; simpl.
  - intuition.
  - destruct (Qlt_le_dec x y); simpl; [intuition|].
    rewrite IH. intuition.
Qed.

Lemma sorted_acc_length xs : forall acc,
  List.length (fold_left (fun a x => insert_sorted x a) xs acc)
  = (List.length xs + List.length acc)%nat.
Proof.
  induction xs as [|x xs IH]; intros acc; simpl; [reflexivity|].
  rewrite IH, insert_sorted_length. lia.
Qed.

Lemma sorted_length xs : List.length (sorted xs) = List.length xs.
Proof. unfold sorted. rewrite sorted_acc_length. simpl. lia. Qed.

Lemma sorted_acc_In xs : forall acc z,
  In z (fold_left (fun a x => insert_sorted x a) xs acc) <-> In z xs \/ In z acc.
Proof.
  induction xs as [|x xs IH]; intros acc z; simpl; [intuition|].
  rewrite IH, insert_sorted_In. intuition.
Qed.

Lemma sorted_In xs z : In z (sorted xs) <-> In z xs.
Proof. unfold sorted. rewrite sorted_acc_In. simpl. intuition. Qed.

(** [min] returns a member that is below every member. *)
Lemma min_fold_spec rest : forall x,
  let m := fold_left (fun m y => if Qlt_le_dec y m then y else m) rest x in
  In m (x :: rest) /\ (forall z, In z (x :: rest) -> m <= z)%Q.
Proof.
  induction rest as [|y ys IH]; intros x; cbn zeta.
  - simpl. split; [now left|]. intros z [<-|[]]. apply Qle_refl.
  - cbn [fold_left]. destruct (Qlt_le_dec y x) as [Hlt|Hle].
    + destruct (IH y) as [Hin Hlow]. split.
      * destruct Hin as [<-|Hin]; [right; now left | right; now right].
      * intros z [<-|[<-|Hz]].
        -- apply Qle_trans with y; [apply Hlow; now left | now apply Qlt_le_weak].
        -- apply Hlow; now left.
        -- apply Hlow; now right.
    + destruct (IH x) as [Hin Hlow]. split.
      * destruct Hin as [<-|Hin]; [now left | right; now right].
      * intros z [<-|[<-|Hz]].
        -- apply Hlow; now left.
        -- apply Qle_trans with x; [apply Hlow; now left | exact Hle].
        -- apply Hlow; now right.
Qed.

Lemma max_fold_spec rest : forall x,
  let m := fold_left (fun m y => if Qlt_le_dec m y then y else m) rest x in
  In m (x :: rest) /\ (forall z, In z (x :: rest) -> z <= m)%Q.
Proof.
  induction rest as [|y ys IH]; intros x; cbn zeta.
  - simpl. split; [now left|]. intros z [<-|[]]. apply Qle_refl.
  - cbn [fold_left]. destruct (Qlt_le_dec x y) as [Hlt|Hle].
    + destruct (IH y) as [Hin Hup]. split.
      * destruct Hin as [<-|Hin]; [right; now left | right; now right].
      * intros z [<-|[<-|Hz]].
        -- apply Qle_trans with y; [now apply Qlt_le_weak | apply Hup; now left].
        -- apply Hup; now left.
        -- apply Hup; now right.
    + destruct (IH x) as [Hin Hup]. split.
      * destruct Hin as [<-|Hin]; [now left | right; now right].
      * intros z [<-|[<-|Hz]].
        -- apply Hup; now left.
        -- apply Qle_trans with x; [exact Hle | apply Hup; now left].
        -- apply Hup; now right.
Qed.

Lemma min_spec xs m :
  min xs = Some m -> In m xs /\ (forall z, In z xs -> m <= z)%Q.
Proof.
  destruct xs as [|x rest]; [discriminate|].
  intros [= <-]. apply (min_fold_spec rest x).
Qed.

Lemma max_spec xs m :
  max xs = Some m -> In m xs /\ (forall z, In z xs -> z <= m)%Q.
Proof.
  destruct xs as [|x rest]; [discriminate|].
  intros [= <-]. apply (max_fold_spec rest x).
Qed.

(** Bounds on every sample carry over to the running sum. *)
Lemma sum_acc_lower (a : Q) xs : forall acc,
  (forall z, In z xs -> a <= z)%Q ->
  (acc + a * statistics.len xs <= fold_left Qplus xs acc)%Q.
Proof.
  induction xs as [|x xs IH]; intros acc H.
  - simpl. unfold statistics.len, inject_Z. simpl. lra.
  - cbn [fold_left]. rewrite len_cons.
    specialize (IH (acc + x)%Q (fun z Hz => H z (or_intror Hz))).
    assert (a <= x)%Q by (apply H; now left). lra.
Qed.

Lemma sum_acc_upper (b : Q) xs : forall acc,
  (forall z, In z xs -> z <= b)%Q ->
  (fold_left Qplus xs acc <= acc + b * statistics.len xs)%Q.
Proof.
  induction xs as [|x xs IH]; intros acc H.
  - simpl. unfold statistics.len, inject_Z. simpl. lra.
  - cbn [fold_left]. rewrite len_cons.
    specialize (IH (acc + x)%Q (fun z Hz => H z (or_intror Hz))).
    assert (x <= b)%Q by (apply H; now left). lra.
Qed.

Lemma len_pos x xs : (0 < statistics.len (x :: xs))%Q.
Proof. rewrite len_cons. pose proof (len_nonneg xs). lra. Qed.

Lemma mean_bounds (a b : Q) xs m :
  (forall z, In z xs -> a <= z <= b)%Q ->
  statistics.mean xs = Some m -> (a <= m <= b)%Q.
Proof.
  intros H. destruct xs as [|x xs]; [discriminate|]. intros [= <-].
  pose proof (len_pos x xs) as Hpos.
  pose proof (@sum_acc_lower a (x :: xs) 0 (fun z Hz => proj1 (H z Hz))) as Hlo.
  pose proof (@sum_acc_upper b (x :: xs) 0 (fun z Hz => proj2 (H z Hz))) as Hup.
  fold (sum (x :: xs)) in Hlo, Hup.
  split.
  - apply Qle_shift_div_l; [exact Hpos | lra].
  - apply Qle_shift_div_r; [exact Hpos | lra].
Qed.

Lemma median_total xs :
  xs <> [] -> exists m, statistics.median xs = Some m.
Proof.
  intros Hne. unfold statistics.median. cbn zeta.
  rewrite sorted_length.
  destruct (List.length xs) as [|n] eqn:Hlen.
  - destruct xs; [contradiction | discriminate].
  - assert (Hn: (S n / 2 < S n)%nat) by (apply Nat.div_lt; lia).
    destruct (Nat.odd (S n)).
    + destruct (nth_error (sorted xs) (S n / 2)) eqn:E; [eauto|].
      apply nth_error_None in E. rewrite sorted_length in E. lia.
    + destruct (nth_error (sorted xs) (S n / 2 - 1)) eqn:E1.
      * destruct (nth_error (sorted xs) (S n / 2)) eqn:E2; [eauto|].
        apply nth_error_None in E2. rewrite sorted_length in E2. lia.
      * apply nth_error_None in E1. rewrite sorted_length in E1. lia.
Qed.

Lemma median_bounds (a b : Q) xs m :
  (forall z, In z xs -> a <= z <= b)%Q ->
  statistics.median xs = Some m -> (a <= m <= b)%Q.
Proof.
  intros H. unfold statistics.median. cbn zeta.
  destruct (List.length (sorted xs)) as [|n]; [discriminate|].
  destruct (Nat.odd (S n)).
  - intros E. apply nth_error_In in E. apply (proj1 (sorted_In _ _)) in E. exact (H _ E).
  - destruct (nth_error (sorted xs) (S n / 2 - 1)) as [u|] eqn:E1; [|discriminate].
    destruct (nth_error (sorted xs) (S n / 2)) as [v|] eqn:E2; [|discriminate].
    intros [= <-].
    apply nth_error_In in E1. apply (proj1 (sorted_In _ _)) in E1. apply H in E1.
    apply nth_error_In in E2. apply (proj1 (sorted_In _ _)) in E2. apply H in E2.
    split.
    + apply Qle_shift_div_l; lra.
    + apply Qle_shift_div_r; lra.
Qed.

(** No library call of the statistics tail raises. *)
Lemma summarize_total sqrt xs : exists s, summarize sqrt xs = Some s.
Proof.
  destruct xs as [|x rest]; [eexists; reflexivity|].
  unfold summarize.
  destruct (@median_total (x :: rest)) as [md Hmd]; [discriminate|].
  rewrite Hmd.
  cbn [statistics.mean min max].
  destruct (1 <? List.length (x :: rest))%nat eqn:Hlen; [|eauto].
  unfold statistics.stdev, statistics.variance.
  cbn [statistics.mean].
  apply Nat.ltb_lt in Hlen.
  destruct (List.length (x :: rest) <? 2)%nat eqn:H2.
  - apply Nat.ltb_lt in H2. lia.
  - cbn [option_map]. eauto.
Qed.

Lemma compute_statistics_loop_total sqrt metrics todo :
  exists r, compute_statistics_loop sqrt metrics todo = Some r.
Proof.
  induction todo as [|m rest [r IH]]; simpl; [eauto|].
  destruct (summarize_total sqrt (metrics m)) as [s ->].
  rewrite IH. eauto.
Qed.

Lemma compute_statistics_lookup sqrt metrics r m :
  compute_statistics sqrt metrics = Some r ->
  lookup_metric m r = summarize sqrt (metrics m).
Proof.
  unfold compute_statistics, METRICS. cbn [compute_statistics_loop].
  destruct (summarize sqrt (metrics execution_time)) as [s1|] eqn:E1; [|discriminate].
  destruct (summarize sqrt (metrics memory_usage)) as [s2|] eqn:E2; [|discriminate].
  destruct (summarize sqrt (metrics code_size)) as [s3|] eqn:E3; [|discriminate].
  destruct (summarize sqrt (metrics startup_time)) as [s4|] eqn:E4; [|discriminate].
  intros [= <-]. destruct m; cbn; congruence.
Qed.

(** C1. Summarising an empty sample list gives exactly the all-zero
    summary and is not an error; summarising a one-sample list gives
    [stdev = 0] and [mean == median == min == max == sample[0]].  This
    holds for every metric of the result of [measure_performance]: the
    statistics tail never raises and maps each metric to the summary of its
    own sample list. *)
Theorem C1_empty_and_single_sample (sqrt : Q -> Q) :
  summarize sqrt [] = Some (Summary.mk 0 0 0 0 0) /\
  (forall x : Q, exists s,
      summarize sqrt [x] = Some s /\
      Summary.stdev s = 0%Q /\
      (Summary.mean s == x)%Q /\ (Summary.median s == x)%Q /\
      (Summary.min s == x)%Q /\ (Summary.max s == x)%Q) /\
  (forall metrics : sample_sets, exists r,
      compute_statistics sqrt metrics = Some r /\
      forall m, lookup_metric m r = summarize sqrt (metrics m)).
Proof.
  split; [reflexivity|]. split.
  - intros x. eexists. split; [reflexivity|]. cbn.
    repeat split; try reflexivity.
    unfold statistics.len, sum. cbn. field.
  - intros metrics.
    destruct (compute_statistics_loop_total sqrt metrics METRICS) as [r Hr].
    exists r. split; [exact Hr|]. intros m.
    now apply compute_statistics_lookup.
Qed.

(** C2. For every sample list of length at least 2 the summary exists and
    satisfies [min <= median <= max] and [min <= mean <= max]. *)
Theorem C2_summary_order (sqrt : Q -> Q) (samples : list Q) :
  (2 <= List.length samples)%nat ->
  exists s, summarize sqrt samples = Some s /\
    (Summary.min s <= Summary.median s <= Summary.max s)%Q /\
    (Summary.min s <= Summary.mean s <= Summary.max s)%Q.
Proof.
  intros Hlen.
  destruct (summarize_total sqrt samples) as [s Hs].
  exists s. split; [exact Hs|].
  destruct samples as [|x rest]; [simpl in Hlen; lia|].
  unfold summarize in Hs.
  destruct (statistics.mean (x :: rest)) as [mn|] eqn:Emean; [|discriminate].
  destruct (statistics.median (x :: rest)) as [md|] eqn:Emed; [|discriminate].
  destruct (min (x :: rest)) as [lo|] eqn:Emin; [|discriminate].
  destruct (max (x :: rest)) as [hi|] eqn:Emax; [|discriminate].
  apply min_spec in Emin. apply max_spec in Emax.
  assert (Hrange : forall z, In z (x :: rest) -> (lo <= z <= hi)%Q).
  { intros z Hz. split; [now apply Emin | now apply Emax]. }
  pose proof (mean_bounds _ _ _ _ Hrange Emean) as Hmean.
  pose proof (median_bounds _ _ _ _ Hrange Emed) as Hmed.
  destruct (1 <? List.length (x :: rest))%nat.
  - destruct (statistics.stdev sqrt (x :: rest)); [|discriminate].
    injection Hs as <-. cbn. split; assumption.
  - injection Hs as <-. cbn. split; assumption.
Qed.

(** Witness of C2 on the two samples 0.10 s and 0.20 s. *)
Lemma C2_summary_order_witness :
  exists s, summarize (fun q => q) [1 # 10; 2 # 10]%Q = Some s /\
    (Summary.min s <= Summary.median s <= Summary.max s)%Q /\
    (Summary.min s <= Summary.mean s <= Summary.max s)%Q.
Proof. apply (@C2_summary_order (fun q => q) [1 # 10; 2 # 10]%Q). simpl. lia. Defined.

End StatsFacts.

(** ** Dependency resolver *)

Module DepsFacts.

Lemma extends_refl w : extends w w.
Proof. repeat split. exists []. now rewrite app_nil_r. Qed.

Lemma extends_trans w1 w2 w3 : extends w1 w2 -> extends w2 w3 -> extends w1 w3.
Proof.
  intros (F1 & C1 & l1 & L1) (F2 & C2 & l2 & L2). repeat split; try congruence.
  exists (l1 ++ l2)%list. rewrite L2, L1. now rewrite app_assoc.
Qed.

Lemma logger_extends lv msg w : extends w (snd (logger lv msg w)).
Proof. repeat split. now exists [(lv, msg)]. Qed.

(** Run equations of the monad and of the host primitives. *)
Lemma bind_run {S A B} (c : St S A) (k : A -> St S B) w :
  bind c k w =
  match c w with
  | (Ok a, w') => k a w'
  | (Raised e, w') => (Raised e, w')
  | (Diverged, w') => (Diverged, w')
  end.
Proof. reflexivity. Qed.

Lemma ret_run {S A} (a : A) (w : S) : ret a w = (Ok a, w).
Proof. reflexivity. Qed.

Lemma logger_run lv msg w :
  logger lv msg w = (Ok tt, mkWorld (files w) (cwd w) (log w ++ [(lv, msg)])).
Proof. reflexivity. Qed.

Lemma path_exists_run p w :
  os.path_exists p w = (Ok (fs_exists (files w) p), w).
Proof. reflexivity. Qed.

(** The loop of [detect_dependencies] against [resolve_loop]. *)
Lemma loop_resolve (rec : string -> M (list string))
  (rec' : string -> option (list string)) (fs : filesystem) (test_file : string) :
  (forall q w, files w = fs ->
     fst (rec q w) = result_of_option (rec' q) /\ extends w (snd (rec q w))) ->
  forall mods acc w, files w = fs ->
    fst (for_each mods acc (loop_body rec test_file) w) =
      result_of_option
        (resolve_loop rec'
           (filter (fs_exists fs)
              (map (module_file test_file)
                 (filter (fun m => negb (in_list m excluded_modules)) mods)))
           acc)
    /\ extends w (snd (for_each mods acc (loop_body rec test_file) w)).
Proof.
  intros Hrec mods. induction mods as [|m rest IH]; intros acc w Hw.
  - cbn. split; [reflexivity | apply extends_refl].
  - cbn [for_each filter map]. rewrite bind_run. unfold loop_body at 1 3.
    destruct (negb (in_list m excluded_modules)) eqn:Hex; cbn [filter map].
    + cbn zeta. rewrite bind_run, path_exists_run, Hw.
      destruct (fs_exists fs (module_file test_file m)) eqn:Hn.
      * rewrite bind_run, logger_run, bind_run.
        set (w1 := mkWorld (files w) (cwd w) _).
        assert (H1 : files w1 = fs) by exact Hw.
        assert (Hw1 : extends w w1) by (repeat split; now eexists).
        destruct (Hrec (module_file test_file m) w1 H1) as [Hres Hext].
        destruct (rec (module_file test_file m) w1) as [r w2] eqn:Er.
        cbn [fst snd] in Hres, Hext.
        cbn [resolve_loop].
        destruct (rec' (module_file test_file m)) as [sub|]; cbn in Hres; subst r.
        -- rewrite ret_run.
           assert (H2 : files w2 = fs) by (destruct Hext as [-> _]; exact H1).
           destruct (IH (acc ++ [module_file test_file m] ++ sub)%list w2 H2) as [Hr He].
           split; [exact Hr|].
           eapply extends_trans; [|exact He]. eapply extends_trans; eassumption.
        -- cbn. split; [reflexivity|]. eapply extends_trans; eassumption.
      * rewrite ret_run. apply IH. exact Hw.
    + rewrite ret_run. apply IH. exact Hw.
Qed.

Lemma detect_dependencies_unfold depth test_file :
  detect_dependencies (S depth) test_file =
  (logger INFO ("Detectando dependências para " ++ test_file ++ "...") ;;
   try_except
     (content <- read_text test_file ;;
      dependencies <-
        for_each (Scan.potential_modules content) []
          (loop_body (detect_dependencies depth) test_file) ;;
      ret (py_set dependencies))
     (fun e => logger ERROR "Erro ao detectar dependências" ;; ret [])).
Proof. reflexivity. Qed.

(** The embedding agrees with the state-free reading and only appends to the
    log. *)
Lemma detect_dependencies_resolve depth : forall test_file w,
  fst (detect_dependencies depth test_file w)
    = result_of_option (resolve depth (files w) test_file)
  /\ extends w (snd (detect_dependencies depth test_file w)).
Proof.
  induction depth as [|d IH]; intros test_file w.
  - cbn. split; [reflexivity | apply extends_refl].
  - rewrite detect_dependencies_unfold. cbn [resolve].
    rewrite bind_run, logger_run.
    set (w1 := mkWorld (files w) (cwd w) _).
    assert (Hw1 : extends w w1) by (repeat split; now eexists).
    unfold try_except, local_imports.
    rewrite bind_run. unfold read_text. rewrite bind_run.
    unfold get_files. change (files w1) with (files w).
    destruct (files w test_file) as [[data [|]| |]|] eqn:Hf;
      try (cbn; split; [reflexivity|];
           eapply extends_trans; [exact Hw1|]; repeat split; now eexists).
    rewrite ret_run, bind_run.
    assert (Hrec : forall q w', files w' = files w ->
              fst (detect_dependencies d q w')
                = result_of_option (resolve d (files w) q)
              /\ extends w' (snd (detect_dependencies d q w'))).
    { intros q w' Hw'. rewrite <- Hw'. apply IH. }
    destruct (loop_resolve (detect_dependencies d) (resolve d (files w))
                (files w) test_file Hrec (Scan.potential_modules data) [] w1 eq_refl)
      as [Lr Le].
    destruct (for_each _ _ _ w1) as [r w2] eqn:Er.
    cbn [fst snd] in Lr, Le.
    destruct (resolve_loop _ _ _) as [deps|]; cbn in Lr; subst r.
    + cbn. split; [reflexivity|]. eapply extends_trans; eassumption.
    + cbn. split; [reflexivity|]. eapply extends_trans; eassumption.
Qed.

(** *** Facts about the state-free reading *)

Lemma resolve_loop_In rec todo : forall acc out,
  resolve_loop rec todo acc = Some out ->
  (forall q, In q todo -> exists sub, rec q = Some sub) /\
  (forall x, In x out <->
     In x acc \/ exists q, In q todo /\
                   (x = q \/ exists sub, rec q = Some sub /\ In x sub)).
Proof.
  induction todo as [|q rest IH]; intros acc out H; cbn [resolve_loop] in H.
  - injection H as <-. split; [intros q []|].
    intros x. split; [now left | intros [Hx | (q & [] & _)]; exact Hx].
  - destruct (rec q) as [sub|] eqn:Eq; [|discriminate].
    destruct (IH _ _ H) as [Hall Hin]. split.
    + intros q' [<-|Hq']; [eauto | now apply Hall].
    + intros x. rewrite Hin. rewrite !in_app_iff. cbn [In]. split.
      * intros [[Hx|[[<-|[]]|Hx]] | (q' & Hq' & Hx)].
        -- now left.
        -- right. exists q. split; [now left | now left].
        -- right. exists q. split; [now left | right; eauto].
        -- right. exists q'. split; [now right | exact Hx].
      * intros [Hx | (q' & [<-|Hq'] & [->|(sub' & Hs & Hx)])].
        -- left. now left.
        -- left. right. left. now left.
        -- left. right. right. congruence.
        -- right. exists q'. split; [exact Hq' | now left].
        -- right. exists q'. split; [exact Hq' | right; eauto].
Qed.

Lemma resolve_loop_mono (rec rec' : string -> option (list string)) todo :
  (forall q l, rec q = Some l -> rec' q = Some l) ->
  forall acc out, resolve_loop rec todo acc = Some out ->
                  resolve_loop rec' todo acc = Some out.
Proof.
  intros Hsub. induction todo as [|q rest IH]; intros acc out H; cbn in *.
  - exact H.
  - destruct (rec q) as [sub|] eqn:Eq; [|discriminate].
    rewrite (Hsub _ _ Eq). now apply IH.
Qed.

Lemma resolve_S fs d test_file :
  resolve (S d) fs test_file =
  option_map py_set (resolve_loop (resolve d fs) (local_imports fs test_file) []).
Proof. reflexivity. Qed.

(** A deeper budget never changes a result that was reached. *)
Lemma resolve_mono fs depth : forall test_file l,
  resolve depth fs test_file = Some l -> resolve (S depth) fs test_file = Some l.
Proof.
  induction depth as [|d IH]; intros f l H; [discriminate|].
  rewrite resolve_S in H. rewrite (resolve_S fs (S d)).
  destruct (resolve_loop (resolve d fs) (local_imports fs f) []) as [out|] eqn:E;
    [|discriminate].
  rewrite (resolve_loop_mono _ (resolve (S d) fs) _ IH _ _ E). exact H.
Qed.

Lemma resolve_mono_le fs d d' test_file l :
  (d <= d')%nat -> resolve d fs test_file = Some l ->
  resolve d' fs test_file = Some l.
Proof.
  induction 1 as [|d' _ IH]; intros H; [exact H|].
  apply resolve_mono. now apply IH.
Qed.

Lemma py_set_In xs x : In x (py_set xs) <-> In x xs.
Proof. unfold py_set. apply nodup_In. Qed.

Lemma resolve_S_inv fs d test_file l :
  resolve (S d) fs test_file = Some l ->
  exists out, resolve_loop (resolve d fs) (local_imports fs test_file) [] = Some out
              /\ l = py_set out.
Proof.
  rewrite resolve_S. destruct (resolve_loop _ _ _) as [out|]; [|discriminate].
  intros [= <-]. eauto.
Qed.

(** Every entry of a result was itself resolved, one level down, to a part
    of that result. *)
Lemma resolve_reach fs d : forall test_file l q,
  resolve (S d) fs test_file = Some l -> In q l ->
  exists l', resolve d fs q = Some l' /\ incl l' l.
Proof.
  induction d as [|d IH]; intros f l q H Hq.
  - apply resolve_S_inv in H. destruct H as (out & Hloop & ->).
    apply (proj1 (py_set_In _ _)) in Hq.
    destruct (resolve_loop_In _ _ _ _ Hloop) as [Hall Hin].
    apply (proj1 (Hin _)) in Hq. destruct Hq as [[]|(q' & Hq' & _)].
    destruct (Hall _ Hq') as [sub Hsub]. discriminate.
  - apply resolve_S_inv in H. destruct H as (out & Hloop & ->).
    apply (proj1 (py_set_In _ _)) in Hq.
    destruct (resolve_loop_In _ _ _ _ Hloop) as [Hall Hin].
    apply (proj1 (Hin _)) in Hq. destruct Hq as [[]|(q' & Hq' & [->|(sub & Hsub & Hx)])].
    + destruct (Hall _ Hq') as [sub Hsub]. exists sub. split; [exact Hsub|].
      intros x Hx. apply py_set_In, Hin. right. exists q'. split; [exact Hq'|].
      right. eauto.
    + destruct (IH _ _ _ Hsub Hx) as (l' & Hl' & Hincl).
      exists l'. split; [now apply resolve_mono|].
      intros x Hx'. apply py_set_In, Hin. right. exists q'. split; [exact Hq'|].
      right. exists sub. split; [exact Hsub | now apply Hincl].
Qed.

(** A returned set never holds the path it was computed for. *)
Lemma resolve_not_self fs d : forall test_file l,
  resolve d fs test_file = Some l -> ~ In test_file l.
Proof.
  induction d as [|d IH]; intros f l H Hin; [discriminate|].
  destruct (resolve_reach _ _ _ _ _ H Hin) as (l' & Hl' & Hincl).
  pose proof (resolve_mono _ _ _ _ Hl') as H'.
  assert (l' = l) by congruence. subst l'.
  exact (IH _ _ Hl' Hin).
Qed.

Lemma resolve_NoDup fs d test_file l :
  resolve d fs test_file = Some l -> NoDup l.
Proof.
  destruct d as [|d]; [discriminate|]. intros H.
  apply resolve_S_inv in H. destruct H as (out & _ & ->).
  apply NoDup_nodup.
Qed.

(** Every entry is a local import of the artifact or of another entry. *)
Lemma resolve_provenance fs d : forall test_file l q,
  resolve d fs test_file = Some l -> In q l ->
  exists p, (p = test_file \/ In p l) /\ In q (local_imports fs p).
Proof.
  induction d as [|d IH]; intros f l q H Hq; [discriminate|].
  apply resolve_S_inv in H. destruct H as (out & Hloop & ->).
  apply (proj1 (py_set_In _ _)) in Hq.
  destruct (resolve_loop_In _ _ _ _ Hloop) as [Hall Hin].
  pose proof Hq as Hq0.
  apply (proj1 (Hin _)) in Hq. destruct Hq as [[]|(q' & Hq' & [->|(sub & Hsub & Hx)])].
  - exists f. split; [now left | exact Hq'].
  - destruct (IH _ _ _ Hsub Hx) as (p & [->|Hp] & Hloc).
    + exists q'. split; [|exact Hloc]. right. apply py_set_In, Hin.
      right. exists q'. split; [exact Hq' | now left].
    + exists p. split; [|exact Hloc]. right. apply py_set_In, Hin.
      right. exists q'. split; [exact Hq' | right; eauto].
Qed.

(** Conversely every local import of the artifact is an entry (the direct
    dependencies are never lost). *)
Lemma resolve_direct fs d test_file l q :
  resolve d fs test_file = Some l -> In q (local_imports fs test_file) -> In q l.
Proof.
  destruct d as [|d]; [discriminate|]. intros H Hq.
  apply resolve_S_inv in H. destruct H as (out & Hloop & ->).
  destruct (resolve_loop_In _ _ _ _ Hloop) as [_ Hin].
  apply py_set_In, Hin. right. exists q. split; [exact Hq | now left].
Qed.

Lemma resolve_loop_total rec todo : forall acc,
  (forall q, In q todo -> exists sub, rec q = Some sub) ->
  exists out, resolve_loop rec todo acc = Some out.
Proof.
  induction todo as [|q rest IH]; intros acc H; cbn; [eauto|].
  destruct (H q (or_introl eq_refl)) as [sub ->].
  apply IH. intros q' Hq'. apply H. now right.
Qed.

Lemma resolve_terminates fs rank :
  rank_decreases fs rank ->
  forall d test_file, (rank test_file < d)%nat ->
    exists l, resolve d fs test_file = Some l.
Proof.
  intros Hacyc. induction d as [|d IH]; intros f Hlt; [lia|].
  rewrite resolve_S.
  destruct (@resolve_loop_total (resolve d fs) (local_imports fs f) []) as [out ->].
  - intros q Hq. apply IH. specialize (Hacyc _ _ Hq). lia.
  - cbn. eauto.
Qed.


Lemma in_list_spec x xs : in_list x xs = true <-> In x xs.
Proof.
  unfold in_list, str_eqb. rewrite existsb_exists. split.
  - intros (y & Hy & E). apply String.eqb_eq in E. now subst.
  - intros H. exists x. split; [exact H | apply String.eqb_refl].
Qed.

Lemma local_imports_spec fs p q :
  In q (local_imports fs p) ->
  exists content m,
    fs p = Some (File content true) /\
    In m (Scan.potential_modules content) /\
    ~ In m excluded_modules /\
    q = module_file p m /\ fs q <> None.
Proof.
  unfold local_imports.
  destruct (fs p) as [[content [|]| |]|] eqn:Hp; try (intros []).
  intros H. apply filter_In in H. destruct H as [H Hex].
  apply in_map_iff in H. destruct H as (m & <- & Hm).
  apply filter_In in Hm. destruct Hm as [Hm Hnot].
  exists content, m. repeat split; try assumption.
  - intros Hin. apply in_list_spec in Hin. rewrite Hin in Hnot. discriminate.
  - unfold fs_exists in Hex. destruct (fs (module_file p m)); [discriminate|discriminate].
Qed.

Lemma ends_py_app pre : ends_py (pre ++ ".py") = true.
Proof.
  induction pre as [|c pre IH]; [reflexivity|].
  cbn [append ends_py]. rewrite IH. apply orb_true_r.
Qed.

Lemma str_append_assoc (a b c : string) : (a ++ b) ++ c = a ++ b ++ c.
Proof. induction a as [|x a IH]; cbn; [reflexivity | now rewrite IH]. Qed.

Lemma module_file_ends_py test_file m : ends_py (module_file test_file m) = true.
Proof.
  unfold module_file, os_path.join.
  destruct (prefix "/" (m ++ ".py")); [apply ends_py_app|].
  destruct (str_eqb _ "" || endswith_char _ _).
  - rewrite <- str_append_assoc. apply ends_py_app.
  - rewrite <- !str_append_assoc. apply ends_py_app.
Qed.

Lemma excluded_modules_not_py :
  forallb (fun e => negb (ends_py e)) excluded_modules = true.
Proof. vm_compute. reflexivity. Qed.

Lemma ends_py_not_excluded q : ends_py q = true -> ~ In q excluded_modules.
Proof.
  intros Hq Hin.
  pose proof (proj1 (forallb_forall _ _) excluded_modules_not_py q Hin) as H.
  cbn beta in H. rewrite Hq in H. discriminate.
Qed.

(** Resolution bottoms out whenever the sibling imports have no cycle, and
    what it returns has no duplicates. *)
Lemma detect_dependencies_returns_when_acyclic (rank : string -> nat) w test_file :
  rank_decreases (files w) rank ->
  exists l w',
    detect_dependencies (S (rank test_file)) test_file w = (Ok l, w') /\
    NoDup l /\ extends w w'.
Proof.
  intros Hacyc.
  destruct (resolve_terminates _ _ Hacyc (S (rank test_file)) test_file) as [l Hl];
    [lia|].
  destruct (detect_dependencies_resolve (S (rank test_file)) test_file w) as [Hr He].
  rewrite Hl in Hr. cbn [result_of_option] in Hr.
  destruct (detect_dependencies _ _ w) as [r w'] eqn:E.
  cbn [fst snd] in Hr, He. subst r.
  exists l, w'. repeat split; try apply He.
  eapply resolve_NoDup; exact Hl.
Qed.

Lemma cyclic_resolve depth :
  resolve depth Examples.cyclic_files "proj/a.py" = None /\
  resolve depth Examples.cyclic_files "proj/b.py" = None.
Proof.
  induction depth as [|d [IHa IHb]]; [split; reflexivity|].
  rewrite !resolve_S.
  change (local_imports Examples.cyclic_files "proj/a.py") with ["proj/b.py"].
  change (local_imports Examples.cyclic_files "proj/b.py") with ["proj/a.py"].
  cbn [resolve_loop]. rewrite IHa, IHb. split; reflexivity.
Qed.




End DepsFacts.

(** ** Obfuscation driver *)

Module DriverFacts.

Import DepsFacts.

Lemma str_eqb_refl s : str_eqb s s = true.
Proof. apply String.eqb_refl. Qed.

Lemma str_eqb_neq a b : a <> b -> str_eqb a b = false.
Proof. intros H. now apply String.eqb_neq. Qed.

Lemma str_eqb_eq a b : str_eqb a b = true -> a = b.
Proof. apply String.eqb_eq. Qed.

Lemma fs_set_same p n fs : fs_set p n fs p = n.
Proof. unfold fs_set. now rewrite str_eqb_refl. Qed.

Lemma fs_set_other p q n fs : p <> q -> fs_set p n fs q = fs q.
Proof. intros H. unfold fs_set. now rewrite (str_eqb_neq _ _ H). Qed.

Lemma append_inj_l (a b c : string) : a ++ b = a ++ c -> b = c.
Proof.
  induction a as [|x a IH]; cbn; intros H; [exact H|].
  injection H as H. now apply IH.
Qed.

Lemma child_inj dir a b : Path.child dir a = Path.child dir b -> a = b.
Proof.
  unfold Path.child. intros H.
  apply append_inj_l in H. now apply (append_inj_l "/") in H.
Qed.

Lemma copy2_run src dst w data text :
  files w src = Some (File data text) ->
  src <> dst ->
  writable (files w) dst ->
  shutil.copy2 src dst w =
  (Ok tt, mkWorld (fs_set dst (Some (File data text)) (files w)) (cwd w) (log w)).
Proof.
  intros Hsrc Hne Hdst. unfold shutil.copy2, os.path_isdir.
  rewrite !bind_run. unfold get_files at 1. rewrite ret_run.
  assert (Hdir : match files w dst with Some Directory => true | _ => false end = false).
  { destruct Hdst as [->|(d & t & ->)]; reflexivity. }
  rewrite Hdir. rewrite (str_eqb_neq _ _ Hne).
  rewrite bind_run. unfold get_files. rewrite Hsrc.
  destruct Hdst as [->|(d & t & ->)]; reflexivity.
Qed.

Section Original.

Variable shell : string -> M completed.
Variable name_var_match : string -> option string.
Variable apply_repairs : string -> string.
Variable _apply_cython : string -> M (option string).
Variable temp_dir : string.
Variable depth : nat.

Lemma copy_dependencies_keep (out data : string) (text : bool) (w0 : world) deps :
  forall w,
    (forall p, (forall nm, p <> Path.child temp_dir nm) -> files w p = files w0 p) ->
    (forall dep, In dep deps ->
       writable (files w) (Path.child temp_dir (Path.name dep))) ->
    files w out = Some (File data text) ->
    (forall dep nm, In dep deps -> dep <> Path.child temp_dir nm) ->
    (forall dep, In dep deps -> exists d t, files w0 dep = Some (File d t)) ->
    (forall dep, In dep deps -> Path.child temp_dir (Path.name dep) <> out) ->
    exists w',
      for_each deps tt
        (fun _ dep => shutil.copy2 dep (Path.child temp_dir (Path.name dep))) w
      = (Ok tt, w')
      /\ files w' out = Some (File data text)
      /\ (forall p, (forall nm, p <> Path.child temp_dir nm) ->
                    files w' p = files w0 p).
Proof.
  induction deps as [|dep rest IH]; intros w Hsame Hfree Hout Hoff Hfiles Hclash.
  - exists w. cbn. auto.
  - cbn [for_each]. rewrite bind_run.
    destruct (Hfiles dep (or_introl eq_refl)) as (d & t & Hd).
    assert (Hdw : files w dep = Some (File d t)).
    { rewrite Hsame; [exact Hd|]. intros nm. apply Hoff. now left. }
    rewrite (copy2_run dep (Path.child temp_dir (Path.name dep)) w d t Hdw
               (Hoff dep _ (or_introl eq_refl)) (Hfree dep (or_introl eq_refl))).
    apply IH; cbn [files].
    + intros p Hp. rewrite fs_set_other; [now apply Hsame|].
      intros E. exact (Hp _ (eq_sym E)).
    + intros dep' Hdep'. unfold writable, fs_set.
      destruct (str_eqb _ _); [right; eauto | apply Hfree; now right].
    + rewrite fs_set_other; [exact Hout|]. apply Hclash. now left.
    + intros dep' nm H. apply Hoff. now right.
    + intros dep' H. apply Hfiles. now right.
    + intros dep' H. apply Hclash. now right.
Qed.

(** The identity branch: whatever the registry says, a copyable artifact is
    copied byte for byte and its path in the workspace is returned. *)
Lemma original_copies (tools : registry) (input_file : string) (w w1 : world)
  (deps : list string) (data : string) (text : bool) :
  detect_dependencies depth input_file w = (Ok deps, w1) ->
  copyable temp_dir w input_file deps data text ->
  exists w',
    apply_obfuscation shell name_var_match apply_repairs _apply_cython
      temp_dir tools depth "original" input_file w
    = (Ok (Some (original_output temp_dir input_file)), w')
    /\ files w' (original_output temp_dir input_file) = Some (File data text)
    /\ files w' input_file = Some (File data text).
Proof.
  intros Hdet [Hart Hout Hdout Hdfiles Hfree Hdfree Hclash].
  destruct (detect_dependencies_resolve depth input_file w) as [_ Hext].
  rewrite Hdet in Hext. cbn [snd] in Hext. destruct Hext as (Hf1 & _ & _).
  unfold apply_obfuscation. rewrite bind_run, Hdet, bind_run, logger_run.
  change (str_eqb "original" "original") with true. cbn iota.
  fold (original_output temp_dir input_file).
  set (w2 := mkWorld (files w1) (cwd w1) _).
  assert (Hf2 : files w2 = files w) by exact Hf1.
  rewrite bind_run.
  rewrite (copy2_run input_file (original_output temp_dir input_file) w2 data text).
  2:{ rewrite Hf2. exact Hart. }
  2:{ apply Hout. }
  2:{ rewrite Hf2. exact Hfree. }
  rewrite bind_run.
  set (w3 := mkWorld _ (cwd w2) (log w2)).
  destruct (copy_dependencies_keep (original_output temp_dir input_file)
              data text w deps w3)
    as (w' & Hrun & Hcopy & Hsame).
  - intros p Hp. unfold w3. cbn [files]. rewrite fs_set_other, Hf2; [reflexivity|].
    intros E. exact (Hp _ (eq_sym E)).
  - intros dep Hdep. unfold w3, writable, fs_set. cbn [files].
    destruct (str_eqb _ _); [right; eauto | rewrite Hf2; now apply Hdfree].
  - unfold w3. cbn [files]. apply fs_set_same.
  - exact Hdout.
  - exact Hdfiles.
  - intros dep Hdep E. apply child_inj in E. exact (Hclash dep Hdep E).
  - rewrite Hrun. exists w'. rewrite ret_run. repeat split.
    + exact Hcopy.
    + rewrite Hsame; [exact Hart | exact Hout].
Qed.

End Original.


Lemma chain_copyable :
  copyable Examples.temp_dir Examples.chain_world "proj/main.py"
    ["proj/helper.py"; "proj/util.py"]
    "import os
import helper
from util import f
" true.
Proof.
  split.
  - reflexivity.
  - intros nm H. discriminate H.
  - intros dep nm [<-|[<-|[]]] H; discriminate H.
  - intros dep [<-|[<-|[]]]; eexists; eexists; reflexivity.
  - left. reflexivity.
  - intros dep [<-|[<-|[]]]; left; reflexivity.
  - intros dep [<-|[<-|[]]] H; vm_compute in H; discriminate H.
Qed.



(** A disabled tool other than the identity tool is skipped. *)
Lemma disabled_tool_skipped
  (shell : string -> M completed) (name_var_match : string -> option string)
  (apply_repairs : string -> string) (_apply_cython : string -> M (option string))
  (temp_dir : string) (tools : registry) (depth : nat)
  (tool_name input_file : string) (info : tool_info) (w w1 : world)
  (deps : list string) :
  detect_dependencies depth input_file w = (Ok deps, w1) ->
  tool_name <> "original" ->
  assoc tool_name tools = Some info ->
  enabled info = Some false ->
  fst (apply_obfuscation shell name_var_match apply_repairs _apply_cython
         temp_dir tools depth tool_name input_file w) = Ok None.
Proof.
  intros Hdet Hname Hinfo Hoff.
  unfold apply_obfuscation. rewrite bind_run, Hdet, bind_run, logger_run.
  rewrite (str_eqb_neq _ _ Hname). cbn iota.
  rewrite bind_run. unfold lookup_tool. rewrite Hinfo, ret_run, Hoff.
  reflexivity.
Qed.



(** C8, at the failing input.  [pyobfuscate] exits with status 0 and leaves
    an output that does not decode as text.  The repair pass fails on it (it
    logs its error and returns [False]), yet [apply_obfuscation] returns the
    output path, not null: the trial goes on as a success.  The raw output is
    left where the driver moved it. *)
Theorem C8_failed_repair_still_returns_output :
  let out := (Examples.temp_dir ++ "/main.obf.py")%string in
  let run :=
    apply_obfuscation Examples.undecodable_pyobfuscate Examples.no_name_var
      Examples.no_repairs Examples.no_cython Examples.temp_dir TOOLS 3
      "pyobfuscate" "proj/main.py" Examples.plain_world in
  fst run = Ok (Some out) /\
  In (ERROR, "Erro ao corrigir arquivo pyobfuscate") (log (snd run)) /\
  fst (_fix_pyobfuscate_output Examples.no_name_var Examples.no_repairs out
         (snd run)) = Ok false /\
  files (snd run) out = Some Examples.raw_output.
Proof.
  cbv zeta. split; [|split; [|split]].
  - vm_compute. reflexivity.
  - vm_compute. intuition.
  - vm_compute. reflexivity.
  - vm_compute. reflexivity.
Qed.

End DriverFacts.

(** ** Performance sampler *)

Module SamplerFacts.

Import DepsFacts.

Ltac run_bind :=
  match goal with
  | |- context [@bind ?S ?A ?B ?c ?k ?w] => rewrite (@bind_run S A B c k w)
  end.

Ltac run_prim :=
  cbn [lift logger host metrics memory_usage_var files cwd log os.getcwd
       os.chdir of_option append_metric assign_memory_usage read_memory_usage
       popen monitoring communicate getsize ret raise negb fst snd].

Lemma poll_run l : forall w ms x,
  for_each l tt
    (fun _ rss =>
       let current_memory := (inject_Z rss / (1024 * 1024))%Q in
       peak <- read_memory_usage ;;
       assign_memory_usage (max2 peak current_memory))
    (mkSampler w ms (Some x))
  = (Ok tt, mkSampler w ms (Some (peak_from x l))).
Proof.
  induction l as [|r l IH]; intros w ms x; [reflexivity|].
  cbn [for_each]. run_bind. cbn beta zeta. run_bind. run_prim.
  apply IH.
Qed.

Lemma monitor_memory_run run w ms mv :
  monitor_memory run (mkSampler w ms mv) =
  match monitoring run with
  | Attached l =>
      (Ok tt, mkSampler w (append_sample memory_usage (peak_from 0 l) ms)
                (Some (peak_from 0 l)))
  | AttachFailed e =>
      if caught e
      then (Ok tt, mkSampler (mkWorld (files w) (cwd w)
                                (log w ++ [(WARNING, "Erro ao medir memória")]))
                     ms mv)
      else (Raised e, mkSampler w ms mv)
  end.
Proof.
  unfold monitor_memory, try_except_only.
  destruct (monitoring run) as [l|e].
  - run_bind. run_prim. run_bind. rewrite poll_run. run_bind. run_prim.
    reflexivity.
  - destruct e; reflexivity.
Qed.

(** Symbolic execution of an iteration: find what the outermost [match]
    waits for and split on it. *)
Ltac head_scrut t :=
  lazymatch t with
  | match ?x with _ => _ end => head_scrut x
  | (match ?x with _ => _ end) _ => head_scrut x
  | _ => t
  end.

Ltac split_head t :=
  let h := head_scrut t in
  first
  [ is_var h; destruct h
  | lazymatch h with
    | monitor_memory _ _ => rewrite monitor_memory_run
    | _ => destruct h eqn:?
    end ].

Ltac unfold_iteration :=
  unfold iteration, try_except, bind, lift, of_option, ret, raise,
    os.chdir, os.getcwd, logger, append_metric, read_memory_usage.

Ltac finish_grow :=
  unfold grows; split; [reflexivity|];
  let m := fresh "m" in
  intros m; destruct m; unfold append_sample; cbn [snd metrics metric_eqb];
  first [ exists []; split; [symmetry; apply app_nil_r | cbn; lia]
        | eexists; split; [reflexivity | cbn; lia] ].

Ltac explore :=
  cbn beta iota zeta;
  run_prim;
  lazymatch goal with
  | |- grows _ (_, _) => finish_grow
  | |- grows _ ?t => split_head t; explore
  end.

Lemma iteration_grows temp_dir run s : grows s (iteration temp_dir run s).
Proof.
  destruct run as [po mo co gs]. destruct s as [[fs cw lg] ms mv].
  unfold_iteration. explore.
Qed.

Lemma sampling_loop_step temp_dir runs i count s :
  sampling_loop temp_dir runs i (S count) s
  = sampling_loop temp_dir runs (S i) count (snd (iteration temp_dir (runs i) s)).
Proof.
  cbn [sampling_loop]. rewrite bind_run.
  destruct (iteration_grows temp_dir (runs i) s) as [Hok _].
  destruct (iteration temp_dir (runs i) s) as [r s']. cbn [fst snd] in *.
  subst r. reflexivity.
Qed.

Lemma sampling_loop_ok temp_dir runs count : forall i s,
  fst (sampling_loop temp_dir runs i count s) = Ok tt.
Proof.
  induction count as [|n IH]; intros i s; [reflexivity|].
  rewrite sampling_loop_step. apply IH.
Qed.

(** An iteration whose launch succeeds but whose [communicate] raises. *)
Lemma iteration_crash temp_dir run s t l :
  files (host s) temp_dir = Some Directory ->
  popen run = Some t ->
  monitoring run = Attached l ->
  communicate run = None ->
  let s' := snd (iteration temp_dir run s) in
  In (ERROR, "Erro na iteração") (log (host s')) /\
  metrics s' startup_time = (metrics s startup_time ++ [t * 1000]%Q)%list /\
  metrics s' memory_usage = (metrics s memory_usage ++ [peak_from 0 l])%list /\
  metrics s' execution_time = metrics s execution_time /\
  metrics s' code_size = metrics s code_size /\
  cwd (host s') = temp_dir.
Proof.
  destruct run as [po mo co gs]. destruct s as [[fs cw lg] ms mv].
  cbn [host files popen monitoring communicate]. intros Hdir -> -> ->.
  unfold_iteration. cbn beta iota zeta. run_prim. rewrite Hdir.
  cbn beta iota zeta. run_prim. rewrite monitor_memory_run.
  cbn beta iota zeta. run_prim.
  repeat split; try reflexivity.
  apply in_or_app. right. now left.
Qed.

(** An iteration whose launch fails. *)
Lemma iteration_failed_launch temp_dir run s :
  files (host s) temp_dir = Some Directory ->
  popen run = None ->
  let s' := snd (iteration temp_dir run s) in
  (forall m, metrics s' m = metrics s m) /\ cwd (host s') = temp_dir.
Proof.
  destruct run as [po mo co gs]. destruct s as [[fs cw lg] ms mv].
  cbn [host files popen]. intros Hdir ->.
  unfold_iteration. cbn beta iota zeta. run_prim. rewrite Hdir.
  cbn beta iota zeta. run_prim. split; reflexivity.
Qed.

(** An iteration that completes puts the working directory back. *)
Lemma iteration_completes temp_dir run s t l elapsed size :
  files (host s) temp_dir = Some Directory ->
  files (host s) (cwd (host s)) = Some Directory ->
  popen run = Some t ->
  monitoring run = Attached l ->
  communicate run = Some (elapsed, 0%Z, true) ->
  getsize run = Some size ->
  let s' := snd (iteration temp_dir run s) in
  cwd (host s') = cwd (host s) /\
  metrics s' startup_time = (metrics s startup_time ++ [t * 1000]%Q)%list /\
  metrics s' memory_usage = (metrics s memory_usage ++ [peak_from 0 l])%list /\
  metrics s' execution_time = (metrics s execution_time ++ [elapsed])%list /\
  metrics s' code_size = (metrics s code_size ++ [inject_Z size / 1024]%Q)%list.
Proof.
  destruct run as [po mo co gs]. destruct s as [[fs cw lg] ms mv].
  cbn [host files cwd popen monitoring communicate getsize].
  intros Hdir Hcw -> -> -> ->.
  unfold_iteration. cbn beta iota zeta. run_prim. rewrite Hdir.
  cbn beta iota zeta. run_prim. rewrite monitor_memory_run.
  cbn beta iota zeta. run_prim. rewrite Hcw.
  cbn. repeat split; reflexivity.
Qed.

(** C6, as amended.  An exception inside a sampling iteration never leaves
    the iteration, so the loop goes on with the next one; no sample is ever
    removed, and each iteration extends each metric's list by at most one
    sample.  The samples appended before the failure point stay: when
    [communicate] raises after a successful launch, the iteration has
    contributed its start-up time and its memory peak, and nothing to
    execution time and code size; when the launch itself fails, it has
    contributed nothing. *)
Theorem C6_failed_iteration_keeps_earlier_samples (temp_dir : string) :
  (forall run s,
     fst (iteration temp_dir run s) = Ok tt /\
     forall m, exists extra,
       metrics (snd (iteration temp_dir run s)) m = (metrics s m ++ extra)%list
       /\ (List.length extra <= 1)%nat) /\
  (forall runs i count s,
     sampling_loop temp_dir runs i (S count) s
     = sampling_loop temp_dir runs (S i) count
         (snd (iteration temp_dir (runs i) s))) /\
  (forall run s t l,
     files (host s) temp_dir = Some Directory ->
     popen run = Some t ->
     monitoring run = Attached l ->
     communicate run = None ->
     let s' := snd (iteration temp_dir run s) in
     In (ERROR, "Erro na iteração") (log (host s')) /\
     metrics s' startup_time = (metrics s startup_time ++ [t * 1000]%Q)%list /\
     metrics s' memory_usage = (metrics s memory_usage ++ [peak_from 0 l])%list /\
     metrics s' execution_time = metrics s execution_time /\
     metrics s' code_size = metrics s code_size) /\
  (forall run s,
     files (host s) temp_dir = Some Directory ->
     popen run = None ->
     forall m, metrics (snd (iteration temp_dir run s)) m = metrics s m).
Proof.
  split; [|split; [|split]].
  - intros run s. apply iteration_grows.
  - intros. apply sampling_loop_step.
  - intros run s t l Hdir Hp Hm Hc.
    destruct (iteration_crash temp_dir run s t l Hdir Hp Hm Hc)
      as (H1 & H2 & H3 & H4 & H5 & _).
    cbv zeta. repeat split; assumption.
  - intros run s Hdir Hp.
    apply (iteration_failed_launch temp_dir run s Hdir Hp).
Qed.

(** Witness of C6 (amended): the launch whose [communicate] raises. *)
Lemma C6_failed_iteration_keeps_earlier_samples_witness :
  let s' := snd (iteration Examples.temp_dir Examples.crashed_run
                   Examples.fresh_sampler) in
  In (ERROR, "Erro na iteração") (log (host s')) /\
  metrics s' startup_time = ([] ++ [(1 # 100) * 1000]%Q)%list /\
  metrics s' memory_usage
    = ([] ++ [peak_from 0 [20971520; 31457280]%Z])%list /\
  metrics s' execution_time = [] /\
  metrics s' code_size = [].
Proof.
  apply (proj1 (proj2 (proj2
           (C6_failed_iteration_keeps_earlier_samples Examples.temp_dir)))
           Examples.crashed_run Examples.fresh_sampler
           (1 # 100)%Q [20971520; 31457280]%Z);
    reflexivity.
Defined.

(** C6, counterexample to the claim as stated: an iteration in which
    [communicate] raises is logged as failed, and still the sample list of
    the start-up time, empty before, holds a sample afterwards. *)
Lemma C6_failed_iteration_contributes_a_sample :
  let s := Examples.fresh_sampler in
  let s' := snd (iteration Examples.temp_dir Examples.crashed_run s) in
  In (ERROR, "Erro na iteração") (log (host s')) /\
  metrics s startup_time = [] /\
  metrics s' startup_time = [(1 # 100) * 1000]%Q /\
  ~ (forall m, metrics s' m = metrics s m).
Proof.
  cbv zeta.
  destruct (iteration_crash Examples.temp_dir Examples.crashed_run
              Examples.fresh_sampler (1 # 100)%Q [20971520; 31457280]%Z
              eq_refl eq_refl eq_refl eq_refl) as (Hlog & Hst & _).
  cbv zeta in Hlog, Hst.
  split; [exact Hlog|]. split; [reflexivity|]. split; [exact Hst|].
  intros H. specialize (H startup_time). rewrite Hst in H. discriminate H.
Qed.

(** C7, at the failing input.  The orchestrator starts in [/home/user].
    When the launch fails ([Popen] raises), the iteration ends with the
    working directory still set to the workspace, and it stays there
    through the remaining iterations.  The same happens when [communicate]
    raises; iterations that complete afterwards "restore" the workspace, not
    the directory the run started in. *)
Theorem C7_cwd_left_in_workspace_after_exception :
  let s := Examples.fresh_sampler in
  cwd (host s) = "/home/user" /\
  cwd (host (snd (iteration Examples.temp_dir Examples.failed_launch s)))
    = Examples.temp_dir /\
  cwd (host (snd (sampling_loop Examples.temp_dir
                    (fun _ => Examples.failed_launch) 0 5 s)))
    = Examples.temp_dir /\
  cwd (host (snd (sampling_loop Examples.temp_dir
                    (fun i => if (i =? 0)%nat then Examples.crashed_run
                              else Examples.clean_run) 0 5 s)))
    = Examples.temp_dir.
Proof.
  cbv zeta. split; [reflexivity|]. split; [|split].
  - apply (iteration_failed_launch Examples.temp_dir Examples.failed_launch
             Examples.fresh_sampler eq_refl eq_refl).
  - vm_compute. reflexivity.
  - vm_compute. reflexivity.
Qed.

End SamplerFacts.

(** ** The run and its persisted results *)

Module BenchmarkFacts.

Import DepsFacts DriverFacts.

Lemma assoc_dict_set_same {V} k (v : V) d : assoc k (dict_set k v d) = Some v.
Proof.
  induction d as [|[k' v'] rest IH]; cbn.
  - now rewrite str_eqb_refl.
  - destruct (str_eqb k k') eqn:E; cbn; rewrite ?str_eqb_refl, ?E; auto.
Qed.

Lemma assoc_dict_set_keeps {V} k (v : V) d t :
  assoc t d <> None -> assoc t (dict_set k v d) <> None.
Proof.
  induction d as [|[k' v'] rest IH]; cbn; [congruence|].
  destruct (str_eqb k k') eqn:E; cbn.
  - apply str_eqb_eq in E. subst k'.
    destruct (str_eqb t k); [discriminate | auto].
  - destruct (str_eqb t k'); [discriminate | auto].
Qed.

(** A loop keeps what each pass of its body keeps. *)
Lemma for_each_keeps {S A B} (P : B -> Prop) (body : B -> A -> St S B) xs :
  (forall acc x s r s', P acc -> body acc x s = (Ok r, s') -> P r) ->
  forall acc s r s', P acc -> for_each xs acc body s = (Ok r, s') -> P r.
Proof.
  intros Hbody. induction xs as [|x rest IH]; intros acc s r s' Hacc Hrun.
  - cbn in Hrun. injection Hrun as <- _. exact Hacc.
  - cbn [for_each] in Hrun. rewrite bind_run in Hrun.
    destruct (body acc x s) as [[acc'| |] s1] eqn:Eb; try discriminate.
    eapply IH; [|exact Hrun]. eapply Hbody; eassumption.
Qed.

Section Run.

Variable shell : string -> M completed.
Variable name_var_match : string -> option string.
Variable apply_repairs : string -> string.
Variable _apply_cython : string -> M (option string).
Variable sqrt : Q -> Q.
Variable install_tools : registry -> M registry.
Variable runs : string -> string -> nat -> process_run.
Variable json_dumps : results_map -> string.
Variable temp_dir output_dir : string.
Variable test_files : list string.
Variable iterations depth : nat.

Lemma save_results_empty w :
  save_results json_dumps output_dir [] w
  = (Ok tt, mkWorld (files w) (cwd w)
              (log w ++ [(ERROR, "Nenhum resultado para salvar.")])).
Proof. reflexivity. Qed.

Lemma save_results_writes results w :
  results <> [] ->
  writable (files w) (results_file output_dir) ->
  fst (save_results json_dumps output_dir results w) = Ok tt /\
  files (snd (save_results json_dumps output_dir results w))
    (results_file output_dir)
    = Some (File (json_dumps results) true).
Proof.
  intros Hne Hw. unfold save_results.
  destruct results as [|entry rest]; [contradiction|]. cbn [dict_empty].
  rewrite bind_run, logger_run. unfold try_except.
  rewrite bind_run. unfold write_text. rewrite bind_run.
  unfold get_files. cbn [files].
  destruct Hw as [Hw|(d & t & Hw)]; rewrite Hw; cbn;
    (split; [reflexivity | apply fs_set_same]).
Qed.

(** A pass over one tool never drops a test file from the results. *)
Lemma run_tool_keeps_keys tools test_file results entry w r w' t :
  run_tool shell name_var_match apply_repairs _apply_cython sqrt runs
    temp_dir test_files iterations depth tools test_file results entry w
  = (Ok r, w') ->
  assoc t results <> None -> assoc t r <> None.
Proof.
  unfold run_tool. destruct entry as [tool_name info].
  destruct (negb (get_default (enabled info) true)).
  - rewrite bind_run, logger_run, ret_run. intros [= <- _]. auto.
  - rewrite bind_run, logger_run. unfold try_except.
    rewrite bind_run.
    destruct (apply_obfuscation _ _ _ _ _ _ _ _ _ _) as [[[path|]|e|] w1].
    + destruct (str_eqb path "").
      * rewrite bind_run, logger_run, ret_run. intros [= <- _]. auto.
      * rewrite bind_run.
        destruct (measure_performance _ _ _ _ _ _ _ _ _)
          as [[[summary|]|e|] w2].
        -- rewrite bind_run. unfold of_option.
           destruct (assoc test_file results) as [of_file|].
           ++ rewrite ret_run, bind_run, logger_run, ret_run.
              intros [= <- _]. apply assoc_dict_set_keeps.
           ++ cbn. intros [= <- _]. auto.
        -- rewrite bind_run, logger_run, ret_run. intros [= <- _]. auto.
        -- rewrite bind_run, logger_run, ret_run. intros [= <- _]. auto.
        -- discriminate.
    + rewrite bind_run, logger_run, ret_run. intros [= <- _]. auto.
    + rewrite bind_run, logger_run, ret_run. intros [= <- _]. auto.
    + discriminate.
Qed.

Lemma test_file_pass_keeps tools results f w r w' t :
  test_file_pass shell name_var_match apply_repairs _apply_cython sqrt runs
    temp_dir test_files iterations depth tools results f w = (Ok r, w') ->
  assoc t results <> None \/ t = f -> assoc t r <> None.
Proof.
  unfold test_file_pass. rewrite bind_run, logger_run. intros Hrun Ht.
  eapply (for_each_keeps (fun d => assoc t d <> None)); [| |exact Hrun].
  - intros a x s r' s' Ha Hr. eapply run_tool_keeps_keys; eassumption.
  - destruct Ht as [Ht| ->].
    + now apply assoc_dict_set_keeps.
    + rewrite assoc_dict_set_same. discriminate.
Qed.

Lemma test_files_loop_keys tools xs : forall results w r w',
  for_each xs results
    (test_file_pass shell name_var_match apply_repairs _apply_cython sqrt runs
       temp_dir test_files iterations depth tools) w = (Ok r, w') ->
  forall t, In t xs -> assoc t r <> None.
Proof.
  induction xs as [|f rest IH]; intros results w r w' Hrun t Ht; [destruct Ht|].
  cbn [for_each] in Hrun. rewrite bind_run in Hrun.
  destruct (test_file_pass _ _ _ _ _ _ _ _ _ _ tools results f w)
    as [[acc| |] wa] eqn:Eb;
    try discriminate.
  destruct Ht as [<-|Ht].
  - eapply (for_each_keeps (fun d => assoc f d <> None)); [| |exact Hrun].
    + intros a x s r' s' Ha Hr.
      eapply test_file_pass_keeps; [exact Hr | now left].
    + eapply test_file_pass_keeps; [exact Eb | now right].
  - eapply IH; eassumption.
Qed.

(** When [run_benchmark] returns, the results map has an entry for every
    test file, whether or not any trial produced a summary. *)
Lemma run_benchmark_keys tools results w r w' :
  run_benchmark shell name_var_match apply_repairs _apply_cython sqrt
    install_tools runs json_dumps temp_dir output_dir test_files iterations
    depth tools results w = (Ok r, w') ->
  forall t, In t test_files -> assoc t r <> None.
Proof.
  unfold run_benchmark. rewrite bind_run.
  destruct (install_tools tools w) as [[tools'| |] w1]; try discriminate.
  rewrite bind_run.
  destruct (for_each test_files results _ w1)
    as [[r1| |] w2] eqn:Eloop; try discriminate.
  rewrite bind_run.
  destruct (save_results json_dumps output_dir r1 w2) as [[[]| |] w3];
    try discriminate.
  rewrite ret_run. intros [= <- _].
  eapply test_files_loop_keys. exact Eloop.
Qed.

End Run.




End BenchmarkFacts.

(* ===================================================================== *)
(** * Part III: further properties of the code                           *)
(* ===================================================================== *)

(** ** Import scanning and dependency resolution *)

Module ResolverFacts.

Import DepsFacts.

Lemma span_all p s : all_chars p (fst (Scan.span p s)) = true.
Proof.
  induction s as [|c r IH]; cbn; [reflexivity|].
  destruct (p c) eqn:Hc; [|reflexivity].
  destruct (Scan.span p r) as [a b]. cbn in *. now rewrite Hc, IH.
Qed.

Lemma all_chars_weaken (p q : ascii -> bool) s :
  (forall c, p c = true -> q c = true) ->
  all_chars p s = true -> all_chars q s = true.
Proof.
  intros Hpq. induction s as [|c r IH]; cbn; [reflexivity|].
  intros H. apply andb_true_iff in H. destruct H as [Hc Hr].
  now rewrite (Hpq _ Hc), IH.
Qed.

Lemma findall_In match_at s : forall skip g,
  In g (Scan.findall match_at skip s) ->
  exists s' n, match_at s' = Some (g, n).
Proof.
  induction s as [|c r IH]; intros skip g H; cbn in H; [destruct H|].
  destruct skip as [|k]; [|eauto].
  destruct (match_at (String c r)) as [[g' n]|] eqn:E; [|eauto].
  destruct H as [<-|H]; eauto.
Qed.

Lemma match_from_name s g n :
  Scan.match_from s = Some (g, n) ->
  g <> "" /\ all_chars name_char g = true.
Proof.
  unfold Scan.match_from. destruct (prefix "from" s); [|discriminate].
  destruct (Scan.span Scan.is_space (str_drop 4 s)) as [ws1 r1].
  pose proof (span_all Scan.from_name_char r1) as Hall.
  destruct (Scan.span Scan.from_name_char r1) as [g' r2].
  destruct (Scan.span Scan.is_space r2) as [ws2 r3].
  destruct (negb (str_eqb ws1 "")); cbn [andb]; [|discriminate].
  destruct (str_eqb g' "") eqn:Hg; cbn [negb andb]; [discriminate|].
  destruct (negb (str_eqb ws2 "") && prefix "import" r3); [|discriminate].
  intros [= <- _]. split; [|exact Hall].
  intros ->. discriminate Hg.
Qed.

Lemma match_import_name s g n :
  Scan.match_import s = Some (g, n) ->
  g <> "" /\ all_chars name_char g = true.
Proof.
  unfold Scan.match_import. destruct (prefix "import" s); [|discriminate].
  destruct (Scan.span Scan.is_space (str_drop 6 s)) as [ws r1].
  pose proof (span_all Scan.import_name_char r1) as Hall.
  destruct (Scan.span Scan.import_name_char r1) as [g' r2].
  destruct (negb (str_eqb ws "")); cbn [andb]; [|discriminate].
  destruct (str_eqb g' "") eqn:Hg; cbn [negb]; [discriminate|].
  intros [= <- _]. split.
  - intros ->. discriminate Hg.
  - eapply all_chars_weaken; [|exact Hall].
    intros c Hc. unfold Scan.import_name_char in Hc. unfold name_char.
    apply andb_true_iff in Hc. apply Hc.
Qed.

(** X1. Every module name that the two import patterns extract from a text
    is non-empty and holds no white space and no dot. *)
Theorem scanned_module_names_are_plain (content m : string) :
  In m (Scan.potential_modules content) ->
  m <> "" /\
  all_chars (fun c => negb (Scan.is_space c) && negb (Ascii.eqb c "."%char)) m
  = true.
Proof.
  intros H. apply (proj1 (py_set_In _ _)) in H.
  apply in_app_or in H. destruct H as [H|H].
  - apply findall_In in H. destruct H as (s' & n & H).
    exact (match_from_name _ _ _ H).
  - apply findall_In in H. destruct H as (s' & n & H).
    exact (match_import_name _ _ _ H).
Qed.

Lemma scanned_module_names_are_plain_witness :
  "helper" <> "" /\
  all_chars (fun c => negb (Scan.is_space c) && negb (Ascii.eqb c "."%char))
    "helper" = true.
Proof.
  apply (scanned_module_names_are_plain "import os
import helper
from util import f
" "helper").
  vm_compute. tauto.
Defined.

(** X2. [detect_dependencies] never raises.  For a file that is missing or
    cannot be read as text it logs an error and returns the empty list,
    leaving the file system as it is. *)
Theorem detect_dependencies_never_raises
  (depth : nat) (test_file : string) (w : world) :
  (forall e, fst (detect_dependencies depth test_file w) <> Raised e) /\
  ((forall data, files w test_file <> Some (File data true)) ->
   fst (detect_dependencies (S depth) test_file w) = Ok [] /\
   files (snd (detect_dependencies (S depth) test_file w)) = files w /\
   In (ERROR, "Erro ao detectar dependências")
      (log (snd (detect_dependencies (S depth) test_file w)))).
Proof.
  split.
  - intros e. destruct (detect_dependencies_resolve depth test_file w) as [-> _].
    destruct (resolve depth (files w) test_file); discriminate.
  - intros Hbad. rewrite detect_dependencies_unfold.
    rewrite bind_run, logger_run. unfold try_except.
    rewrite bind_run. unfold read_text. rewrite bind_run.
    unfold get_files. cbn [files].
    destruct (files w test_file) as [[data [|]| |]|] eqn:Hf;
      try (exfalso; exact (Hbad _ eq_refl));
      cbn; (split; [reflexivity|]; split; [reflexivity|]);
      apply in_or_app; right; now left.
Qed.

Lemma detect_dependencies_never_raises_witness :
  fst (detect_dependencies 1 "proj/main.py" Examples.locked_world) = Ok [] /\
  files (snd (detect_dependencies 1 "proj/main.py" Examples.locked_world))
    = files Examples.locked_world /\
  In (ERROR, "Erro ao detectar dependências")
     (log (snd (detect_dependencies 1 "proj/main.py" Examples.locked_world))).
Proof.
  apply (proj2 (detect_dependencies_never_raises 0 "proj/main.py"
                  Examples.locked_world)).
  intros data H. vm_compute in H. discriminate H.
Defined.

Lemma resolve_sound fs d : forall test_file l q,
  resolve d fs test_file = Some l -> In q l -> reachable fs test_file q.
Proof.
  induction d as [|d IH]; intros f l q H Hq; [discriminate|].
  apply resolve_S_inv in H. destruct H as (out & Hloop & ->).
  apply (proj1 (py_set_In _ _)) in Hq.
  destruct (resolve_loop_In _ _ _ _ Hloop) as [_ Hin].
  apply (proj1 (Hin _)) in Hq.
  destruct Hq as [[]|(q' & Hq' & [->|(sub & Hsub & Hx)])].
  - now apply reach_direct.
  - eapply reach_via; [exact Hq'|]. eapply IH; eassumption.
Qed.

Lemma resolve_complete fs test_file q :
  reachable fs test_file q ->
  forall d l, resolve d fs test_file = Some l -> In q l.
Proof.
  induction 1 as [p q Hq|p r q Hr _ IH]; intros d l Hl.
  - eapply resolve_direct; eassumption.
  - destruct d as [|d]; [discriminate|].
    pose proof (resolve_direct _ _ _ _ _ Hl Hr) as Hrl.
    destruct (resolve_reach _ _ _ _ _ Hl Hrl) as (l' & Hl' & Hincl).
    apply Hincl. eapply IH. exact Hl'.
Qed.

(** X3. When [detect_dependencies] returns, the list holds exactly the
    sibling files reached from the artifact through one or more local
    imports: the direct ones and, transitively, theirs. *)
Theorem detect_dependencies_is_transitive_closure
  (depth : nat) (test_file : string) (w w' : world) (l : list string) :
  detect_dependencies depth test_file w = (Ok l, w') ->
  forall q, In q l <-> reachable (files w) test_file q.
Proof.
  intros H q.
  destruct (detect_dependencies_resolve depth test_file w) as [Hr _].
  rewrite H in Hr. cbn [fst] in Hr.
  destruct (resolve depth (files w) test_file) as [l0|] eqn:Hl; [|discriminate].
  injection Hr as ->. split.
  - eapply resolve_sound; exact Hl.
  - intros Hq. eapply resolve_complete; eassumption.
Qed.

Lemma detect_dependencies_is_transitive_closure_witness :
  In "proj/util.py" ["proj/helper.py"; "proj/util.py"] <->
  reachable (files Examples.chain_world) "proj/main.py" "proj/util.py".
Proof.
  apply (detect_dependencies_is_transitive_closure 3 "proj/main.py"
           Examples.chain_world
           (snd (detect_dependencies 3 "proj/main.py" Examples.chain_world))
           ["proj/helper.py"; "proj/util.py"]).
  apply injective_projections; [vm_compute; reflexivity | reflexivity].
Defined.

End ResolverFacts.

(** ** Template-driven tools *)

Module TemplateFacts.

Import DepsFacts DriverFacts.

Ltac step_bind :=
  match goal with
  | |- context [@bind ?S ?A ?B ?c ?k ?w] => rewrite (@bind_run S A B c k w)
  end.

Lemma format_render t kwargs w :
  format t kwargs w =
  (match render t kwargs with Some s => Ok s | None => Raised KeyError end, w).
Proof.
  induction t as [|[s|name] rest IH]; cbn [format render].
  - reflexivity.
  - rewrite bind_run, IH. destruct (render rest kwargs); reflexivity.
  - destruct (assoc name kwargs) as [v|]; [|reflexivity].
    rewrite bind_run, IH. destruct (render rest kwargs); reflexivity.
Qed.

Lemma assoc_in_keys {V} k (kvs : list (string * V)) :
  In k (map fst kvs) -> assoc k kvs <> None.
Proof.
  induction kvs as [|[k' v] rest IH]; cbn; [tauto|].
  intros [->|H].
  - rewrite str_eqb_refl. discriminate.
  - destruct (str_eqb k k'); [discriminate | auto].
Qed.

Lemma render_some_iff t kwargs :
  (exists s, render t kwargs = Some s) <->
  (forall name, In name (fields t) -> assoc name kwargs <> None).
Proof.
  induction t as [|[s|name] rest IH]; cbn [render fields].
  - split; [intros _ name [] | eauto].
  - rewrite <- IH. split; intros [x H].
    + destruct (render rest kwargs); [eauto | discriminate].
    + rewrite H. cbn. eauto.
  - split.
    + intros [x H] name' [<-|Hin].
      * destruct (assoc name kwargs); [discriminate | discriminate].
      * apply (proj1 IH); [|exact Hin].
        destruct (assoc name kwargs); [|discriminate].
        destruct (render rest kwargs); [eauto | discriminate].
    + intros H.
      destruct (assoc name kwargs) as [v|] eqn:E;
        [|exfalso; now apply (H name (or_introl eq_refl))].
      destruct (proj2 IH (fun n Hn => H n (or_intror Hn))) as [tail ->]. eauto.
Qed.

(** X4. Formatting a template never touches the host; it raises [KeyError]
    exactly when the template has a field for which no keyword is given, and
    otherwise returns the rendered text.  Every command and output template
    of the registry [TOOLS] only uses keywords the driver supplies, so
    formatting them cannot raise. *)
Theorem format_fails_only_on_missing_keyword :
  (forall t kwargs w,
     snd (format t kwargs w) = w /\
     (fst (format t kwargs w) = Raised KeyError <->
      exists name, In name (fields t) /\ assoc name kwargs = None) /\
     ((forall name, In name (fields t) -> assoc name kwargs <> None) ->
      exists s, fst (format t kwargs w) = Ok s)) /\
  (forall tool_name info,
     In (tool_name, info) TOOLS ->
     (forall t, output info = Some t -> incl (fields t) output_keywords) /\
     (forall t, command info = Some t -> incl (fields t) command_keywords)).
Proof.
  split.
  - intros t kwargs w. rewrite format_render. cbn [fst snd].
    split; [reflexivity|]. split.
    + split.
      * intros H. destruct (render t kwargs) as [s|] eqn:E; [discriminate|].
        clear H. induction t as [|[s|name] rest IH]; cbn [render fields] in *.
        -- discriminate.
        -- destruct (render rest kwargs); [discriminate | auto].
        -- destruct (assoc name kwargs) as [v|] eqn:Ea.
           ++ destruct (render rest kwargs); [discriminate|].
              destruct (IH eq_refl) as (n & Hn & Hnone).
              exists n. split; [now right | exact Hnone].
           ++ exists name. split; [now left | exact Ea].
      * intros (name & Hin & Hnone).
        destruct (render t kwargs) as [s|] eqn:E; [|reflexivity].
        exfalso. apply (proj1 (render_some_iff t kwargs) (ex_intro _ s E) name Hin).
        exact Hnone.
    + intros H. destruct (proj2 (render_some_iff t kwargs) H) as [s ->]. eauto.
  - intros tool_name info Hin. cbn in Hin.
    repeat (destruct Hin as [Hin|Hin]; [injection Hin as <- <-; split; intros t [= <-];
      intros x Hx; cbn in Hx |- *; tauto |]).
    destruct Hin.
Qed.

Lemma format_fails_only_on_missing_keyword_witness :
  exists s,
    fst (format [Field "output_dir"; Lit "/"; Field "input_name"; Lit ".min.py"]
           (output_kwargs Examples.temp_dir "proj/main.py" "main")
           Examples.plain_world) = Ok s.
Proof.
  apply (proj2 (proj2 (proj1 format_fails_only_on_missing_keyword
           [Field "output_dir"; Lit "/"; Field "input_name"; Lit ".min.py"]
           (output_kwargs Examples.temp_dir "proj/main.py" "main")
           Examples.plain_world))).
  intros name [<-|[<-|[]]]; discriminate.
Defined.

Section TemplatedTool.

Variable shell : string -> M completed.
Variable name_var_match : string -> option string.
Variable apply_repairs : string -> string.
Variable _apply_cython : string -> M (option string).
Variable temp_dir : string.
Variable tools : registry.
Variable depth : nat.
Variable tool_name input_file : string.
Variable info : tool_info.
Variable command_template output_template : template.
Variable w w1 : world.
Variable deps : list string.
Variable output_file command_line : string.

(** The temporary output: [output_file + '.temp'] for [pyobfuscate]. *)
Let output_temp : string :=
  if str_eqb tool_name "pyobfuscate" then output_file ++ ".temp" else output_file.

Hypothesis resolved : detect_dependencies depth input_file w = (Ok deps, w1).
Hypothesis not_identity : tool_name <> "original".
Hypothesis not_cython : tool_name <> "cython".
Hypothesis registered : assoc tool_name tools = Some info.
Hypothesis switched_on : get_default (enabled info) true = true.
Hypothesis has_command : command info = Some command_template.
Hypothesis has_output : output info = Some output_template.
Hypothesis output_rendered :
  render output_template
    (output_kwargs temp_dir input_file (Path.stem input_file)) = Some output_file.
Hypothesis output_dir_usable :
  os_path.dirname output_file <> "" /\
  (files w (os_path.dirname output_file) = None \/
   files w (os_path.dirname output_file) = Some Directory).
Hypothesis command_rendered :
  render command_template
    (command_kwargs temp_dir input_file input_file output_file output_temp
       (Path.stem input_file)) = Some command_line.

(** What is left of [apply_obfuscation] once the command line is built:
    the [try] block around the tool run. *)
Lemma templated_call_enters_try :
  exists w3 body handler,
    apply_obfuscation shell name_var_match apply_repairs _apply_cython
      temp_dir tools depth tool_name input_file w
    = try_except
        (r <- _execute_command shell command_line ;; body r) handler w3
    /\ (forall e w', fst (handler e w') = Ok None)
    /\ body =
       (fun r : bool * string =>
          if negb (fst r) then
            logger ERROR ("Erro ao executar comando para " ++ tool_name) ;;
            ret None
          else
            post_process_step name_var_match apply_repairs tool_name info
              output_temp output_file ;;
            found <- os.path_exists output_file ;;
            if negb found then
              logger ERROR ("Arquivo de saída não foi criado: " ++ output_file) ;;
              ret None
            else
              for_each deps tt
                (fun _ dep =>
                   let dep_name := Path.stem dep in
                   dep_output_file <-
                     format output_template
                       (output_kwargs temp_dir input_file dep_name) ;;
                   let dep_output_temp :=
                     if str_eqb tool_name "pyobfuscate"
                     then dep_output_file ++ ".temp" else dep_output_file in
                   dep_command <-
                     format command_template
                       (command_kwargs temp_dir input_file dep dep_output_file
                          dep_output_temp dep_name) ;;
                   r <- _execute_command shell dep_command ;;
                   (if negb (fst r) then
                      logger WARNING
                        ("Erro ao processar dependência " ++ dep ++ " com "
                         ++ tool_name ++ ", continuando...")
                    else ret tt) ;;
                   post_process_step name_var_match apply_repairs tool_name
                     info dep_output_temp dep_output_file) ;;
              logger INFO ("Ofuscação concluída: " ++ output_file) ;;
              ret (Some output_file))
    /\ (forall q, q <> os_path.dirname output_file -> files w3 q = files w q).
Proof.
  unfold apply_obfuscation.
  rewrite bind_run, resolved, bind_run, logger_run.
  rewrite (str_eqb_neq _ _ not_identity). cbn iota.
  rewrite bind_run. unfold lookup_tool. rewrite registered, ret_run.
  rewrite switched_on. cbn [negb]. cbn zeta.
  rewrite (str_eqb_neq _ _ not_cython). rewrite has_command.
  rewrite bind_run. unfold required. rewrite has_output, ret_run.
  rewrite bind_run, format_render.
  unfold output_kwargs in output_rendered. rewrite output_rendered.
  rewrite bind_run. unfold os.makedirs. rewrite bind_run.
  unfold get_files. cbn [files].
  destruct output_dir_usable as [Hne Hdir].
  rewrite (str_eqb_neq _ _ Hne).
  assert (Hf1 : files w1 = files w).
  { destruct (detect_dependencies_resolve depth input_file w) as [_ He].
    rewrite resolved in He. apply He. }
  rewrite Hf1.
  unfold command_kwargs, output_temp in command_rendered.
  destruct Hdir as [Hdir|Hdir]; rewrite Hdir.
  - unfold set_files. rewrite bind_run, format_render, command_rendered.
    eexists; eexists; eexists. split; [reflexivity|].
    split; [intros e w'; reflexivity |].
    split; [reflexivity|].
    intros q Hq. cbn [files]. unfold fs_set.
    rewrite str_eqb_neq; [reflexivity | congruence].
  - rewrite ret_run, bind_run, format_render, command_rendered.
    eexists; eexists; eexists. split; [reflexivity|].
    split; [intros e w'; reflexivity |].
    split; [reflexivity|].
    intros q _. cbn [files]. first [reflexivity | now rewrite Hf1].
Qed.

Lemma execute_command_failed w' :
  (forall w0, failed (shell command_line w0)) ->
  (exists w'' s, _execute_command shell command_line w' = (Ok (false, s), w''))
  \/ (exists w'' e, _execute_command shell command_line w' = (Raised e, w'')).
Proof.
  unfold _execute_command. intros Hfail.
  rewrite bind_run, logger_run. unfold try_except_only.
  rewrite bind_run. unfold subprocess_run_checked. rewrite bind_run.
  match goal with |- context [shell command_line ?w0] =>
    pose proof (Hfail w0) as H; unfold failed in H;
    destruct (shell command_line w0) as [[[out|out err]|e|] w2]
  end; cbn [fst] in H; try contradiction.
  - left. eexists; eexists. reflexivity.
  - destruct e;
      first [left; eexists; eexists; reflexivity
            | right; eexists; eexists; reflexivity].
Qed.

(** X5. Invocation failure: when the tool's command ends with a non-zero
    status, or cannot be launched at all, [apply_obfuscation] returns null
    instead of raising. *)
Theorem failed_command_yields_null :
  (forall w', failed (shell command_line w')) ->
  fst (apply_obfuscation shell name_var_match apply_repairs _apply_cython
         temp_dir tools depth tool_name input_file w) = Ok None.
Proof.
  intros Hfail.
  destruct templated_call_enters_try as (w3 & body & handler & -> & Hh & -> & Hfs).
  unfold try_except. rewrite bind_run.
  destruct (execute_command_failed w3 Hfail) as [(w4 & s & E)|(w4 & e & E)];
    rewrite E.
  - cbn [fst negb]. rewrite bind_run, logger_run. reflexivity.
  - apply Hh.
Qed.

(** X6. A command that ends with status 0 but leaves neither the output
    file nor the temporary output is a failure: [apply_obfuscation] returns
    null.  The command runs on the caller's files, with the output directory
    created if it was missing. *)
Theorem missing_output_yields_null :
  (forall w',
     (forall q, q <> os_path.dirname output_file -> files w' q = files w q) ->
     exists out w'',
       shell command_line w' = (Ok (Exit0 out), w'') /\
       files w'' output_file = None /\ files w'' output_temp = None) ->
  fst (apply_obfuscation shell name_var_match apply_repairs _apply_cython
         temp_dir tools depth tool_name input_file w) = Ok None.
Proof.
  intros Hshell.
  destruct templated_call_enters_try as (w3 & body & handler & -> & Hh & -> & Hfs).
  unfold try_except. rewrite bind_run.
  unfold _execute_command. rewrite bind_run, logger_run.
  unfold try_except_only. rewrite bind_run.
  unfold subprocess_run_checked. rewrite bind_run.
  destruct (Hshell (mkWorld (files w3) (cwd w3)
                      (log w3 ++ [(INFO, "Executando comando: " ++ command_line)]))
              Hfs)
    as (out & w4 & -> & Hnone & Htemp).
  rewrite ret_run, bind_run.
  destruct (negb (str_eqb out "")); [rewrite logger_run | rewrite ret_run];
    rewrite ret_run; cbn [fst negb]; step_bind;
    unfold post_process_step;
    (destruct (str_eqb tool_name "pyobfuscate"
               && get_default (post_process info) false);
     [ step_bind; rewrite path_exists_run; unfold fs_exists; cbn [files];
       rewrite Htemp; rewrite ret_run
     | rewrite ret_run ]);
    step_bind; rewrite path_exists_run; unfold fs_exists; cbn [files];
    rewrite Hnone; cbn [negb]; step_bind; rewrite logger_run; reflexivity.
Qed.

Lemma render_total t kwargs keys :
  incl (fields t) keys -> incl keys (map fst kwargs) ->
  exists s, render t kwargs = Some s.
Proof.
  intros H1 H2. apply (proj2 (render_some_iff t kwargs)).
  intros name Hn. apply assoc_in_keys. auto.
Qed.

Lemma execute_command_total c w' :
  (forall c0 w0, exists st w2, shell c0 w0 = (Ok st, w2)) ->
  exists b s w'', _execute_command shell c w' = (Ok (b, s), w'').
Proof.
  intros Htotal. unfold _execute_command.
  rewrite bind_run, logger_run. unfold try_except_only.
  rewrite bind_run. unfold subprocess_run_checked. rewrite bind_run.
  match goal with |- context [shell c ?w0] =>
    destruct (Htotal c w0) as ([out|out err] & w2 & ->) end.
  - rewrite ret_run, bind_run.
    destruct (negb (str_eqb out "")); [rewrite logger_run | rewrite ret_run];
      rewrite ret_run; do 3 eexists; reflexivity.
  - do 3 eexists. reflexivity.
Qed.

(** X7. Partial dependency failure: for a tool without post-processing
    whose command for the artifact succeeds and leaves the output file, a
    dependency whose command ends with a non-zero status only logs a
    warning; [apply_obfuscation] still returns the artifact's output path. *)
Theorem dependency_failure_is_not_fatal :
  str_eqb tool_name "pyobfuscate" && get_default (post_process info) false
    = false ->
  incl (fields output_template) output_keywords ->
  incl (fields command_template) command_keywords ->
  (forall w', exists out w'',
     shell command_line w' = (Ok (Exit0 out), w'') /\
     files w'' output_file <> None) ->
  (forall c w', exists st w'', shell c w' = (Ok st, w'')) ->
  fst (apply_obfuscation shell name_var_match apply_repairs _apply_cython
         temp_dir tools depth tool_name input_file w) = Ok (Some output_file).
Proof.
  intros Hnopost Hof Hcf Hmain Htotal.
  assert (Hskip : forall a b w0,
            post_process_step name_var_match apply_repairs tool_name info a b w0
            = (Ok tt, w0)).
  { intros a b w0. unfold post_process_step. now rewrite Hnopost. }
  destruct templated_call_enters_try as (w3 & body & handler & -> & Hh & -> & Hfs).
  unfold try_except. rewrite bind_run.
  unfold _execute_command. rewrite bind_run, logger_run.
  unfold try_except_only. rewrite bind_run.
  unfold subprocess_run_checked. rewrite bind_run.
  match goal with |- context [shell command_line ?w0] =>
    destruct (Hmain w0) as (out & w4 & -> & Hsome) end.
  rewrite ret_run, bind_run.
  assert (Hloop : forall ds wa, exists wb,
    for_each ds tt
      (fun _ dep =>
         let dep_name := Path.stem dep in
         dep_output_file <-
           format output_template
             (output_kwargs temp_dir input_file dep_name) ;;
         let dep_output_temp :=
           if str_eqb tool_name "pyobfuscate"
           then dep_output_file ++ ".temp" else dep_output_file in
         dep_command <-
           format command_template
             (command_kwargs temp_dir input_file dep dep_output_file
                dep_output_temp dep_name) ;;
         r <- _execute_command shell dep_command ;;
         (if negb (fst r) then
            logger WARNING
              ("Erro ao processar dependência " ++ dep ++ " com "
               ++ tool_name ++ ", continuando...")
          else ret tt) ;;
         post_process_step name_var_match apply_repairs tool_name
           info dep_output_temp dep_output_file) wa = (Ok tt, wb)).
  { induction ds as [|dep rest IH]; intros wa; [eexists; reflexivity|].
    cbn [for_each]. step_bind. cbn zeta. step_bind. rewrite format_render.
    destruct (render_total output_template
                (output_kwargs temp_dir input_file (Path.stem dep))
                output_keywords Hof) as [dout ->].
    { intros k Hk. exact Hk. }
    step_bind. rewrite format_render.
    match goal with |- context [render command_template ?kw] =>
      destruct (render_total command_template kw command_keywords Hcf)
        as [dcmd ->] end.
    { intros k Hk. exact Hk. }
    step_bind.
    destruct (execute_command_total dcmd wa Htotal) as (b & s & wc & ->).
    step_bind. cbn [fst].
    destruct (negb b); [rewrite logger_run | rewrite ret_run];
      rewrite Hskip; apply IH. }
  destruct (negb (str_eqb out "")); [rewrite logger_run | rewrite ret_run];
    rewrite ret_run; cbn [fst negb]; step_bind;
    rewrite Hskip;
    step_bind; rewrite path_exists_run; unfold fs_exists; cbn [files];
    (destruct (files w4 output_file); [|contradiction]); cbn [negb];
    step_bind;
    match goal with |- context [for_each deps tt ?b ?wa] =>
      destruct (Hloop deps wa) as [wb Hb];
      assert (Hb' : for_each deps tt b wa = (Ok tt, wb)) by exact Hb
    end;
    rewrite Hb'; step_bind; rewrite logger_run; reflexivity.
Qed.

End TemplatedTool.

Lemma failed_command_yields_null_witness :
  fst (apply_obfuscation MoreExamples.failing_shell Examples.no_name_var
         Examples.no_repairs Examples.no_cython Examples.temp_dir TOOLS 5
         "pyminifier" "proj/main.py" Examples.plain_world) = Ok None.
Proof.
  apply (failed_command_yields_null MoreExamples.failing_shell
           Examples.no_name_var Examples.no_repairs Examples.no_cython
           Examples.temp_dir TOOLS 5 "pyminifier" "proj/main.py"
           MoreExamples.pyminifier_info MoreExamples.pyminifier_command
           MoreExamples.pyminifier_output
           Examples.plain_world
           (snd (detect_dependencies 5 "proj/main.py" Examples.plain_world))
           [] MoreExamples.minified MoreExamples.minify_main).
  - apply injective_projections; [vm_compute; reflexivity | reflexivity].
  - discriminate.
  - discriminate.
  - reflexivity.
  - reflexivity.
  - reflexivity.
  - reflexivity.
  - vm_compute; reflexivity.
  - split; [vm_compute; discriminate | right; vm_compute; reflexivity].
  - vm_compute; reflexivity.
  - intros w'. exact I.
Defined.

Lemma missing_output_yields_null_witness :
  fst (apply_obfuscation Examples.idle_shell Examples.no_name_var
         Examples.no_repairs Examples.no_cython Examples.temp_dir TOOLS 5
         "pyminifier" "proj/main.py" Examples.plain_world) = Ok None.
Proof.
  apply (missing_output_yields_null Examples.idle_shell
           Examples.no_name_var Examples.no_repairs Examples.no_cython
           Examples.temp_dir TOOLS 5 "pyminifier" "proj/main.py"
           MoreExamples.pyminifier_info MoreExamples.pyminifier_command
           MoreExamples.pyminifier_output
           Examples.plain_world
           (snd (detect_dependencies 5 "proj/main.py" Examples.plain_world))
           [] MoreExamples.minified MoreExamples.minify_main).
  - apply injective_projections; [vm_compute; reflexivity | reflexivity].
  - discriminate.
  - discriminate.
  - reflexivity.
  - reflexivity.
  - reflexivity.
  - reflexivity.
  - vm_compute; reflexivity.
  - split; [vm_compute; discriminate | right; vm_compute; reflexivity].
  - vm_compute; reflexivity.
  - intros w' Hsame. exists "", w'.
    split; [reflexivity|].
    split; (rewrite Hsame; [reflexivity | vm_compute; discriminate]).
Defined.

Lemma dependency_failure_is_not_fatal_witness :
  fst (apply_obfuscation MoreExamples.main_only_shell Examples.no_name_var
         Examples.no_repairs Examples.no_cython Examples.temp_dir TOOLS 5
         "pyminifier" "proj/main.py" Examples.chain_world)
  = Ok (Some MoreExamples.minified).
Proof.
  apply (dependency_failure_is_not_fatal MoreExamples.main_only_shell
           Examples.no_name_var Examples.no_repairs Examples.no_cython
           Examples.temp_dir TOOLS 5 "pyminifier" "proj/main.py"
           MoreExamples.pyminifier_info MoreExamples.pyminifier_command
           MoreExamples.pyminifier_output
           Examples.chain_world
           (snd (detect_dependencies 5 "proj/main.py" Examples.chain_world))
           ["proj/helper.py"; "proj/util.py"]
           MoreExamples.minified MoreExamples.minify_main).
  - apply injective_projections; [vm_compute; reflexivity | reflexivity].
  - discriminate.
  - discriminate.
  - reflexivity.
  - reflexivity.
  - reflexivity.
  - reflexivity.
  - vm_compute; reflexivity.
  - split; [vm_compute; discriminate | left; vm_compute; reflexivity].
  - vm_compute; reflexivity.
  - reflexivity.
  - intros x Hx; cbn in Hx |- *; tauto.
  - intros x Hx; cbn in Hx |- *; tauto.
  - intros w'. do 2 eexists. unfold MoreExamples.main_only_shell.
    rewrite str_eqb_refl. split; [reflexivity|].
    cbn [files]. rewrite fs_set_same. discriminate.
  - intros c w'. unfold MoreExamples.main_only_shell.
    destruct (str_eqb c MoreExamples.minify_main); do 2 eexists; reflexivity.
Defined.

End TemplateFacts.

(* --------------------------------------------------------------------- *)
(** ** The repair pass and the results file                              *)
(* --------------------------------------------------------------------- *)


(* --------------------------------------------------------------------- *)
(** ** The repair pass and the results file                              *)
(* --------------------------------------------------------------------- *)

Module RepairFacts.

Import DepsFacts DriverFacts.

Ltac step_bind :=
  match goal with
  | |- context [@bind ?S ?A ?B ?c ?k ?w] => rewrite (@bind_run S A B c k w)
  end.

Lemma read_text_run p w :
  read_text p w =
  (match files w p with
   | Some (File data true) => Ok data
   | Some (File _ false) => Raised UnicodeDecodeError
   | Some Directory => Raised IsADirectoryError
   | Some Locked => Raised PermissionError
   | None => Raised FileNotFoundError
   end, w).
Proof.
  unfold read_text, bind, get_files.
  destruct (files w p) as [[d [|]| |]|]; reflexivity.
Qed.

Lemma write_text_run p content w :
  write_text p content w =
  match files w p with
  | Some Directory => (Raised IsADirectoryError, w)
  | Some Locked => (Raised PermissionError, w)
  | _ => (Ok tt, mkWorld (fs_set p (Some (File content true)) (files w))
                   (cwd w) (log w))
  end.
Proof.
  unfold write_text, bind, get_files.
  destruct (files w p) as [[d t| |]|]; reflexivity.
Qed.

(** The outcome of the repair pass, up to the log. *)
Lemma fix_pyobfuscate_output_run (name_var_match : string -> option string)
  (apply_repairs : string -> string) (output_file : string) (w : world) :
  exists lg,
    _fix_pyobfuscate_output name_var_match apply_repairs output_file w =
    match files w output_file with
    | Some (File data true) =>
        (Ok true,
         mkWorld
           (fs_set output_file
              (Some (File
                       (apply_repairs
                          match name_var_match data with
                          | Some var_name => var_name ++ " = __name__
" ++ data
                          | None => data
                          end) true))
              (files w)) (cwd w) lg)
    | _ => (Ok false, mkWorld (files w) (cwd w) lg)
    end.
Proof.
  unfold _fix_pyobfuscate_output, try_except. cbn beta.
  step_bind. rewrite path_exists_run. unfold fs_exists.
  destruct (files w output_file) as [[data [|]| |]|] eqn:E; cbn [negb].
  - step_bind. rewrite read_text_run, E. step_bind.
    destruct (name_var_match data) as [v|].
    + rewrite bind_run, logger_run, ret_run. step_bind.
      rewrite write_text_run. cbn [files]. rewrite E.
      rewrite ret_run. eexists; reflexivity.
    + rewrite ret_run. step_bind.
      rewrite write_text_run, E, ret_run. eexists; reflexivity.
  - step_bind. rewrite read_text_run, E. step_bind. rewrite logger_run, ret_run.
    eexists; reflexivity.
  - step_bind. rewrite read_text_run, E. step_bind. rewrite logger_run, ret_run.
    eexists; reflexivity.
  - step_bind. rewrite read_text_run, E. step_bind. rewrite logger_run, ret_run.
    eexists; reflexivity.
  - step_bind. rewrite logger_run, ret_run. eexists; reflexivity.
Qed.

(** X8. [_fix_pyobfuscate_output] never raises.  It returns true exactly
    when the file is readable text, and then the file holds the repaired
    text (with the restored [__name__] assignment put in front when the
    renamed test was found); in every other case it returns false and
    leaves the files as they were.  The working directory is not touched. *)
Theorem fix_pyobfuscate_output_outcomes
  (name_var_match : string -> option string) (apply_repairs : string -> string)
  (output_file : string) (w : world) :
  let r := _fix_pyobfuscate_output name_var_match apply_repairs output_file w in
  cwd (snd r) = cwd w /\
  match files w output_file with
  | Some (File data true) =>
      fst r = Ok true /\
      files (snd r)
      = fs_set output_file
          (Some (File
                   (apply_repairs
                      match name_var_match data with
                      | Some var_name => var_name ++ " = __name__
" ++ data
                      | None => data
                      end) true))
          (files w)
  | _ => fst r = Ok false /\ files (snd r) = files w
  end.
Proof.
  cbv zeta.
  destruct (fix_pyobfuscate_output_run name_var_match apply_repairs
              output_file w) as [lg ->].
  destruct (files w output_file) as [[data [|]| |]|];
    (split; [reflexivity | split; reflexivity]).
Qed.

(** X9. [save_results] never raises, leaves the working directory alone
    and changes no file other than [benchmark_results.json] in the output
    directory. *)
Theorem save_results_touches_only_the_results_file
  (json_dumps : results_map -> string) (output_dir : string)
  (results : results_map) (w : world) :
  let r := save_results json_dumps output_dir results w in
  fst r = Ok tt /\
  cwd (snd r) = cwd w /\
  forall p, p <> results_file output_dir -> files (snd r) p = files w p.
Proof.
  cbv zeta. unfold save_results.
  destruct (dict_empty results).
  - rewrite bind_run, logger_run, ret_run. cbn.
    split; [reflexivity | split; [reflexivity | reflexivity]].
  - rewrite bind_run, logger_run. unfold try_except.
    rewrite bind_run, write_text_run. cbn [files cwd log].
    destruct (files w (results_file output_dir)) as [[data text| |]|] eqn:E;
      rewrite logger_run; cbn [fst snd files cwd log];
      (split; [reflexivity | split; [reflexivity |]]);
      intros p Hp; try reflexivity;
      unfold fs_set; rewrite str_eqb_neq; congruence.
Qed.

End RepairFacts.

(* --------------------------------------------------------------------- *)
(** ** Measuring                                                         *)
(* --------------------------------------------------------------------- *)

Module MeasureFacts.

Import DepsFacts DriverFacts SamplerFacts StatsFacts.

Section Measure.

Variable temp_dir : string.
Variable tools : registry.
Variable test_files : list string.
Variable iterations : nat.
Variable sqrt : Q -> Q.
Variable runs : nat -> process_run.
Variable tool_name : string.

(** X10. The guard of [measure_performance]: for a null path, an empty
    path or a path at which nothing exists, it returns null after logging
    one error.  Nothing else happens: the registry is not consulted (an
    unknown tool name raises nothing), no resource is copied and nothing
    is launched. *)
Theorem unmeasurable_artifact_yields_null (obfuscated_file : option string)
  (w : world) :
  match obfuscated_file with
  | Some path => path = "" \/ files w path = None
  | None => True
  end ->
  measure_performance temp_dir tools test_files iterations sqrt runs
    tool_name obfuscated_file w
  = (Ok None,
     mkWorld (files w) (cwd w)
       (log w ++ [(ERROR, "Arquivo ofuscado não encontrado")])).
Proof.
  intros H. unfold measure_performance.
  rewrite bind_run.
  assert (E : match obfuscated_file with
              | Some path =>
                  if str_eqb path "" then ret false else os.path_exists path
              | None => ret false
              end w = (Ok false, w)).
  { destruct obfuscated_file as [path|]; [|reflexivity].
    destruct H as [->|H]; [reflexivity|].
    destruct (str_eqb path ""); [reflexivity|].
    rewrite path_exists_run. unfold fs_exists. now rewrite H. }
  rewrite E. cbn [negb]. rewrite bind_run, logger_run. reflexivity.
Qed.

Lemma iteration_keeps_files run s :
  files (host (snd (iteration temp_dir run s))) = files (host s).
Proof.
  destruct run as [po mo co gs]. destruct s as [[fs cw lg] ms mv].
  unfold_iteration. cbn beta iota zeta. run_prim.
  repeat
    (lazymatch goal with
     | |- files (host (snd (_, _))) = _ => fail
     | |- files (host (snd ?t)) = _ => split_head t
     end; cbn beta iota zeta; run_prim);
    reflexivity.
Qed.

Lemma iteration_clean run s :
  files (host s) temp_dir = Some Directory ->
  files (host s) (cwd (host s)) = Some Directory ->
  clean_launch run ->
  let s' := snd (iteration temp_dir run s) in
  cwd (host s') = cwd (host s) /\
  forall m, metrics s' m = (metrics s m ++ [sample m run])%list.
Proof.
  destruct run as [po mo co gs]. destruct s as [[fs cw lg] ms mv].
  unfold clean_launch, sample.
  cbn [host files cwd popen monitoring communicate getsize].
  intros Hdir Hcw (t & l & elapsed & rc & dec & size & -> & -> & -> & Hrc & ->).
  unfold_iteration. cbn beta iota zeta. run_prim. rewrite Hdir.
  cbn beta iota zeta. run_prim. rewrite monitor_memory_run.
  cbn beta iota zeta. run_prim. rewrite Hcw.
  destruct Hrc as [->| ->].
  - cbn. split; [reflexivity|]. intros []; reflexivity.
  - destruct (rc =? 0)%Z; cbn; (split; [reflexivity|]); intros []; reflexivity.
Qed.


Variable path first : string.
Variable rest : list string.
Variable info : tool_info.
Variable w : world.

Hypothesis artifact_exists : path <> "" /\ files w path <> None.
Hypothesis registered : assoc tool_name tools = Some info.
Hypothesis first_test_file : test_files = first :: rest.
Hypothesis no_resources :
  files w (os_path.join (os_path.dirname first) "dlib_shape_predictor") = None /\
  files w (os_path.join (os_path.dirname first) "video.mp4") = None.

(** Past the guard and with no resources to copy, what is left of
    [measure_performance] is the sampling loop and the statistics. *)
Lemma measure_performance_sampling :
  measure_performance temp_dir tools test_files iterations sqrt runs
    tool_name (Some path) w
  = (let (r, s) :=
       sampling_loop temp_dir runs 0 iterations
         (mkSampler
            (mkWorld (files w) (cwd w)
               (log w ++ [(INFO, "Medindo desempenho para " ++ tool_name)]))
            empty_samples None) in
     match r with
     | Ok _ =>
         match compute_statistics sqrt (metrics s) with
         | Some result => (Ok (Some result), host s)
         | None => (Raised OtherError, host s)
         end
     | Raised e => (Raised e, host s)
     | Diverged => (Diverged, host s)
     end).
Proof.
  destruct artifact_exists as [Hne Hex]. destruct no_resources as [Hd Hv].
  unfold measure_performance.
  rewrite bind_run, (str_eqb_neq _ _ Hne), path_exists_run.
  unfold fs_exists. destruct (files w path) as [n|] eqn:E; [|congruence].
  cbn [negb]. rewrite bind_run. unfold lookup_tool.
  rewrite registered, ret_run. cbn zeta.
  rewrite bind_run, first_test_file. cbn [nth_error of_option].
  rewrite ret_run, bind_run, path_exists_run. unfold fs_exists. rewrite Hd.
  rewrite bind_run, ret_run, bind_run, path_exists_run.
  unfold fs_exists. rewrite Hv.
  rewrite bind_run, ret_run, bind_run, logger_run. reflexivity.
Qed.

Lemma compute_statistics_shape ms :
  exists result,
    compute_statistics sqrt ms = Some result /\ map fst result = METRICS.
Proof.
  unfold compute_statistics, METRICS. cbn [compute_statistics_loop].
  destruct (summarize_total sqrt (ms execution_time)) as [s1 ->].
  destruct (summarize_total sqrt (ms memory_usage)) as [s2 ->].
  destruct (summarize_total sqrt (ms code_size)) as [s3 ->].
  destruct (summarize_total sqrt (ms startup_time)) as [s4 ->].
  eexists. split; reflexivity.
Qed.


Lemma iteration_without_launch run s :
  popen run = None ->
  forall m, metrics (snd (iteration temp_dir run s)) m = metrics s m.
Proof.
  destruct run as [po mo co gs]. destruct s as [[fs cw lg] ms mv].
  cbn [popen]. intros -> m.
  unfold_iteration. cbn beta iota zeta. run_prim.
  destruct (fs temp_dir) as [[d t| |]|]; cbn beta iota zeta; run_prim;
    reflexivity.
Qed.

Lemma sampling_without_launch count : forall i s,
  (forall j, popen (runs j) = None) ->
  forall m, metrics (snd (sampling_loop temp_dir runs i count s)) m = metrics s m.
Proof.
  induction count as [|n IH]; intros i s Hnone m; [reflexivity|].
  rewrite sampling_loop_step, IH by exact Hnone.
  apply iteration_without_launch, Hnone.
Qed.

(** X13. When no launch succeeds, the tool is still reported: every metric
    gets the all-zero summary. *)
Theorem failed_launches_are_reported_as_zeros :
  (forall i, popen (runs i) = None) ->
  fst (measure_performance temp_dir tools test_files iterations sqrt runs
         tool_name (Some path) w)
  = Ok (Some (map (fun m => (m, Summary.zero)) METRICS)).
Proof.
  intros Hnone. rewrite measure_performance_sampling.
  match goal with |- context [sampling_loop ?t ?r ?i ?c ?s] =>
    pose proof (sampling_loop_ok t r c i s) as Hok;
    pose proof (sampling_without_launch c i s Hnone) as Hms;
    destruct (sampling_loop t r i c s) as [res s'] end.
  cbn [fst snd metrics] in Hok, Hms. subst res.
  unfold compute_statistics, METRICS. cbn [compute_statistics_loop].
  rewrite !Hms. reflexivity.
Qed.

End Measure.

Lemma unmeasurable_artifact_yields_null_witness :
  measure_performance Examples.temp_dir TOOLS ["proj/main.py"] 5%nat
    (fun x => x) (fun _ => Examples.clean_run) "no such tool"
    (Some (Examples.temp_dir ++ "/main.min.py")) Examples.plain_world
  = (Ok None,
     mkWorld (files Examples.plain_world) (cwd Examples.plain_world)
       (log Examples.plain_world ++ [(ERROR, "Arquivo ofuscado não encontrado")])).
Proof.
  apply (unmeasurable_artifact_yields_null Examples.temp_dir TOOLS
           ["proj/main.py"] 5 (fun x => x) (fun _ => Examples.clean_run)
           "no such tool" (Some (Examples.temp_dir ++ "/main.min.py"))
           Examples.plain_world).
  right. vm_compute. reflexivity.
Defined.



Lemma failed_launches_are_reported_as_zeros_witness :
  fst (measure_performance Examples.temp_dir TOOLS ["proj/main.py"] 5%nat
         (fun x => x) (fun _ => Examples.failed_launch) "pyminifier"
         (Some "proj/main.py") Examples.sampler_world)
  = Ok (Some (map (fun m => (m, Summary.zero)) METRICS)).
Proof.
  apply (failed_launches_are_reported_as_zeros Examples.temp_dir TOOLS
           ["proj/main.py"] 5 (fun x => x) (fun _ => Examples.failed_launch)
           "pyminifier" "proj/main.py" "proj/main.py" []
           MoreExamples.pyminifier_info Examples.sampler_world).
  - split; [discriminate | vm_compute; discriminate].
  - reflexivity.
  - reflexivity.
  - split; vm_compute; reflexivity.
  - intros i. reflexivity.
Defined.

End MeasureFacts.

(* --------------------------------------------------------------------- *)
(** ** Summaries of constant samples                                     *)
(* --------------------------------------------------------------------- *)

Module SummaryFacts.

Import StatsFacts.

Lemma sum_acc_repeat (x : Q) n : forall acc,
  (fold_left Qplus (repeat x n) acc == acc + inject_Z (Z.of_nat n) * x)%Q.
Proof.
  induction n as [|n IH]; intros acc.
  - cbn [repeat fold_left Z.of_nat]. unfold inject_Z. ring.
  - cbn [repeat fold_left]. rewrite IH.
    rewrite Nat2Z.inj_succ. unfold Z.succ. rewrite inject_Z_plus.
    ring.
Qed.

Lemma insert_sorted_repeat (x : Q) n :
  builtins.insert_sorted x (repeat x n) = repeat x (S n).
Proof.
  induction n as [|n IH]; [reflexivity|].
  cbn [repeat builtins.insert_sorted].
  destruct (Qlt_le_dec x x) as [Hlt|_].
  - exfalso. exact (Qlt_irrefl x Hlt).
  - now rewrite IH.
Qed.

Lemma sorted_acc_repeat (x : Q) n : forall k,
  fold_left (fun acc y => builtins.insert_sorted y acc) (repeat x n) (repeat x k)
  = repeat x (n + k).
Proof.
  induction n as [|n IH]; intros k; [reflexivity|].
  cbn [repeat fold_left]. rewrite insert_sorted_repeat, (IH (S k)).
  f_equal. lia.
Qed.

Lemma sorted_repeat (x : Q) n : builtins.sorted (repeat x n) = repeat x n.
Proof.
  unfold builtins.sorted.
  pose proof (sorted_acc_repeat x n 0) as H.
  change (repeat x 0) with (@nil Q) in H. rewrite H. f_equal. lia.
Qed.

Lemma nth_error_repeat_lt (x : Q) n i :
  (i < n)%nat -> nth_error (repeat x n) i = Some x.
Proof.
  revert i. induction n as [|n IH]; intros i Hi; [lia|].
  destruct i as [|i]; [reflexivity|]. cbn. apply IH. lia.
Qed.

Lemma fold_same (x : Q) (f : Q -> Q -> Q) n :
  f x x = x -> fold_left f (repeat x n) x = x.
Proof.
  intros Hf. induction n as [|n IH]; [reflexivity|].
  cbn [repeat fold_left]. now rewrite Hf.
Qed.

(** X14. Samples that are all the same value [x] (as the code size is,
    the artifact being the same file at every launch): the summary has
    [mean == median == x], [min = max = x], and a standard deviation that
    is 0 for one sample and the root of a zero variance for more. *)
Theorem constant_samples_summary (sqrt : Q -> Q) (x : Q) (n : nat) :
  exists s,
    summarize sqrt (repeat x (S n)) = Some s /\
    (Summary.mean s == x)%Q /\
    (Summary.median s == x)%Q /\
    Summary.min s = x /\
    Summary.max s = x /\
    (n = O -> Summary.stdev s = 0%Q) /\
    (n <> O -> exists v, (v == 0)%Q /\ Summary.stdev s = sqrt v).
Proof.
  assert (Hlen : List.length (repeat x (S n)) = S n) by apply repeat_length.
  assert (Hmean : (builtins.sum (repeat x (S n)) / statistics.len (repeat x (S n))
                   == x)%Q).
  { unfold builtins.sum, statistics.len. rewrite sum_acc_repeat, Hlen.
    assert (Hpos : ~ (inject_Z (Z.of_nat (S n)) == 0)%Q).
    { unfold inject_Z, Qeq. cbn. lia. }
    field. exact Hpos. }
  assert (Hmed : exists md,
             statistics.median (repeat x (S n)) = Some md /\ (md == x)%Q).
  { unfold statistics.median. rewrite sorted_repeat, Hlen. cbv zeta.
    destruct (Nat.odd (S n)) eqn:Hodd.
    - rewrite nth_error_repeat_lt.
      + exists x. split; [reflexivity | reflexivity].
      + apply Nat.div_lt; lia.
    - destruct n as [|n]; [discriminate Hodd|].
      rewrite !nth_error_repeat_lt.
      + eexists. split; [reflexivity|]. field.
      + apply Nat.div_lt; lia.
      + assert (S (S n) / 2 < S (S n))%nat by (apply Nat.div_lt; lia). lia. }
  destruct Hmed as (md & Emd & Hmd).
  unfold summarize. cbn [repeat]. cbn [repeat] in Emd, Hmean, Hlen.
  rewrite Emd. cbn [statistics.mean builtins.min builtins.max].
  rewrite !fold_same.
  2:{ destruct (Qlt_le_dec x x); reflexivity. }
  2:{ destruct (Qlt_le_dec x x); reflexivity. }
  rewrite Hlen.
  destruct n as [|n].
  - cbn [Nat.ltb Nat.leb]. eexists. split; [reflexivity|].
    cbn [Summary.mean Summary.median Summary.min Summary.max Summary.stdev].
    split; [exact Hmean|]. split; [exact Hmd|].
    split; [reflexivity|]. split; [reflexivity|].
    split; [reflexivity | intros H; congruence].
  - replace (1 <? S (S n))%nat with true by (symmetry; apply Nat.ltb_lt; lia).
    unfold statistics.stdev, statistics.variance.
    cbn [statistics.mean]. rewrite Hlen.
    replace (S (S n) <? 2)%nat with false by (symmetry; apply Nat.ltb_ge; lia).
    cbn [option_map]. eexists. split; [reflexivity|].
    cbn [Summary.mean Summary.median Summary.min Summary.max Summary.stdev].
    split; [exact Hmean|]. split; [exact Hmd|].
    split; [reflexivity|]. split; [reflexivity|].
    split; [intros H; discriminate|]. intros _.
    eexists. split; [|reflexivity].
    change (x :: repeat x (S n)) with (repeat x (S (S n))) in *.
    rewrite map_repeat. unfold builtins.sum at 1. rewrite sum_acc_repeat.
    rewrite Hmean. unfold Qdiv. ring.
Qed.

End SummaryFacts.

(* --------------------------------------------------------------------- *)
(** ** Installation and the whole run                                    *)
(* --------------------------------------------------------------------- *)

Module InstallFacts.

Import DepsFacts DriverFacts BenchmarkFacts.

Lemma switched_refl tools : Forall2 switched_off_or_same tools tools.
Proof.
  induction tools as [|e rest IH]; constructor; [|exact IH].
  split; [reflexivity | now left].
Qed.

Lemma switched_trans a : forall b c,
  Forall2 switched_off_or_same a b -> Forall2 switched_off_or_same b c ->
  Forall2 switched_off_or_same a c.
Proof.
  induction a as [|x a IH]; intros b c Hab Hbc.
  - inversion Hab; subst. inversion Hbc; subst. constructor.
  - inversion Hab as [|? y ? b' [Hk1 H1] Hab']; subst.
    inversion Hbc as [|? z ? c' [Hk2 H2] Hbc']; subst.
    constructor; [|eapply IH; eassumption].
    split; [congruence|].
    destruct H1 as [H1|[Hn1 H1]], H2 as [H2|[Hn2 H2]].
    + left. congruence.
    + right. split; [congruence|]. rewrite H2, H1. reflexivity.
    + right. split; [exact Hn1|]. congruence.
    + right. split; [exact Hn1|]. rewrite H2, H1. reflexivity.
Qed.

Lemma set_enabled_switched name tools :
  name <> "original" ->
  Forall2 switched_off_or_same tools (set_enabled name false tools).
Proof.
  intros Hname. induction tools as [|[k info] rest IH]; [constructor|].
  cbn [set_enabled]. destruct (str_eqb name k) eqn:E.
  - apply str_eqb_eq in E. subst k. constructor; [|apply switched_refl].
    split; [reflexivity|]. right. split; [exact Hname | reflexivity].
  - constructor; [|exact IH]. split; [reflexivity | now left].
Qed.

Lemma switched_keys a b :
  Forall2 switched_off_or_same a b -> map fst b = map fst a.
Proof.
  induction 1 as [|x y a b [Hk _] _ IH]; [reflexivity|].
  cbn [map]. now rewrite Hk, IH.
Qed.

Lemma ret_never_raises {A} (a : A) : never_raises (ret a).
Proof. intros w e. discriminate. Qed.

Lemma logger_never_raises lv msg : never_raises (logger lv msg).
Proof. intros w e. discriminate. Qed.

Lemma bind_never_raises {A B} (c : M A) (k : A -> M B) :
  never_raises c -> (forall a, never_raises (k a)) -> never_raises (bind c k).
Proof.
  intros Hc Hk w e. rewrite bind_run.
  pose proof (Hc w) as Hcw.
  destruct (c w) as [[a|e'|] w1]; cbn [fst] in *.
  - apply Hk.
  - exfalso. exact (Hcw e' eq_refl).
  - discriminate.
Qed.

Lemma try_except_never_raises {A} (body : M A) (handler : exn -> M A) :
  (forall e, never_raises (handler e)) -> never_raises (try_except body handler).
Proof.
  intros Hh w e. unfold try_except.
  destruct (body w) as [[a|e'|] w1]; cbn [fst]; try discriminate.
  apply Hh.
Qed.

Lemma for_each_never_raises {A B} (body : B -> A -> M B) xs :
  (forall acc x, never_raises (body acc x)) ->
  forall acc, never_raises (for_each xs acc body).
Proof.
  intros Hbody. induction xs as [|x rest IH]; intros acc.
  - apply ret_never_raises.
  - cbn [for_each]. apply bind_never_raises; [apply Hbody | exact IH].
Qed.

Create HintDb no_raise.
#[local] Hint Resolve ret_never_raises logger_never_raises : no_raise.

Section Install.

Variable shell : string -> M completed.
Variable find_executable find_spec : string -> M bool.

Lemma install_tool_switched tools entry w tools' w' :
  install_tool shell find_executable find_spec tools entry w = (Ok tools', w') ->
  Forall2 switched_off_or_same tools tools'.
Proof.
  unfold install_tool. destruct entry as [tool_name info].
  destruct (negb (get_default (enabled info) true)).
  { rewrite bind_run, logger_run, ret_run. intros [= <- _]. apply switched_refl. }
  destruct (str_eqb tool_name "original") eqn:Eo.
  { rewrite ret_run. intros [= <- _]. apply switched_refl. }
  assert (Hname : tool_name <> "original").
  { intros ->. rewrite str_eqb_refl in Eo. discriminate. }
  rewrite bind_run.
  destruct (already_installed find_executable find_spec tool_name w)
    as [[[|]| |] w1]; try discriminate.
  { rewrite bind_run, logger_run, ret_run. intros [= <- _]. apply switched_refl. }
  destruct (install info) as [install_command|].
  2:{ rewrite ret_run. intros [= <- _]. apply switched_refl. }
  rewrite bind_run, logger_run. unfold try_except. rewrite bind_run.
  destruct (_execute_command shell install_command _) as [[[[|] out]|e|] w2];
    cbn [fst].
  - rewrite bind_run, logger_run, ret_run. intros [= <- _]. apply switched_refl.
  - rewrite bind_run, logger_run, bind_run, logger_run, ret_run.
    intros [= <- _]. now apply set_enabled_switched.
  - rewrite bind_run, logger_run, bind_run, logger_run, ret_run.
    intros [= <- _]. now apply set_enabled_switched.
  - discriminate.
Qed.

(** X15. [install_tools] can only switch tools off.  When it returns, the
    registry has the same keys in the same order, and each entry is the
    record it was or that record with [enabled] set to [False]; the entry
    of ['original'] is never changed.  So a tool that is enabled afterwards
    was enabled before. *)
Theorem install_tools_only_switches_off (tools tools' : registry) (w : world) :
  fst (install_tools shell find_executable find_spec tools w) = Ok tools' ->
  Forall2 switched_off_or_same tools tools' /\
  map fst tools' = map fst tools.
Proof.
  unfold install_tools. rewrite bind_run, logger_run. intros Hrun.
  assert (H : Forall2 switched_off_or_same tools tools').
  { destruct (for_each tools tools _ _) as [r w'] eqn:E. cbn [fst] in Hrun.
    subst r.
    refine (for_each_keeps (fun t => Forall2 switched_off_or_same tools t)
              _ tools _ tools _ _ _ (switched_refl tools) E).
    intros acc x s r s' Hacc Hbody.
    eapply switched_trans; [exact Hacc|].
    eapply install_tool_switched. exact Hbody. }
  split; [exact H | now apply switched_keys].
Qed.

Hypothesis find_executable_safe : forall name, never_raises (find_executable name).
Hypothesis find_spec_safe : forall name, never_raises (find_spec name).

Lemma already_installed_never_raises tool_name :
  never_raises (already_installed find_executable find_spec tool_name).
Proof.
  unfold already_installed, _check_command_exists, _check_module_installed.
  repeat
    (match goal with
     | |- never_raises (if ?b then _ else _) => destruct b
     end;
     [first [ apply find_executable_safe | apply find_spec_safe
            | apply bind_never_raises;
              [apply find_spec_safe
              | intros [|]; [apply ret_never_raises | apply find_spec_safe]] ]
     |]).
  apply ret_never_raises.
Qed.

Lemma install_tool_never_raises tools entry :
  never_raises (install_tool shell find_executable find_spec tools entry).
Proof.
  unfold install_tool. destruct entry as [tool_name info].
  destruct (negb (get_default (enabled info) true)).
  { apply bind_never_raises; auto with no_raise. }
  destruct (str_eqb tool_name "original"); [apply ret_never_raises|].
  apply bind_never_raises; [apply already_installed_never_raises|].
  intros [|]; [apply bind_never_raises; auto with no_raise|].
  destruct (install info) as [install_command|]; [|apply ret_never_raises].
  apply bind_never_raises; [apply logger_never_raises|]. intros _.
  apply try_except_never_raises. intros e.
  repeat (apply bind_never_raises; [apply logger_never_raises | intros _]).
  apply ret_never_raises.
Qed.

Lemma install_tools_safe (tools : registry) :
  never_raises (install_tools shell find_executable find_spec tools).
Proof.
  unfold install_tools.
  apply bind_never_raises; [apply logger_never_raises|]. intros _.
  apply for_each_never_raises. intros acc x. apply install_tool_never_raises.
Qed.


Variable name_var_match : string -> option string.
Variable apply_repairs : string -> string.
Variable _apply_cython : string -> M (option string).
Variable sqrt : Q -> Q.
Variable runs : string -> string -> nat -> process_run.
Variable json_dumps : results_map -> string.
Variable temp_dir output_dir : string.
Variable test_files : list string.
Variable iterations depth : nat.

Lemma run_tool_never_raises tools test_file results entry :
  never_raises
    (run_tool shell name_var_match apply_repairs _apply_cython sqrt runs
       temp_dir test_files iterations depth tools test_file results entry).
Proof.
  unfold run_tool. destruct entry as [tool_name info].
  destruct (negb (get_default (enabled info) true)).
  - apply bind_never_raises; auto with no_raise.
  - apply bind_never_raises; [apply logger_never_raises|]. intros _.
    apply try_except_never_raises. intros e.
    apply bind_never_raises; auto with no_raise.
Qed.

Lemma save_results_never_raises results :
  never_raises (save_results json_dumps output_dir results).
Proof.
  unfold save_results. destruct (dict_empty results).
  - apply bind_never_raises; auto with no_raise.
  - apply bind_never_raises; [apply logger_never_raises|]. intros _.
    apply try_except_never_raises. intros e. apply logger_never_raises.
Qed.

(** X16. With probes that do not raise, [install_tools] raises nothing: a
    tool whose installer fails, or cannot be launched, is switched off and
    the pass goes on.  Then the whole run raises nothing either, whatever
    the tools, the commands, the Cython handler and the launches do: every
    failure of a tool on a test file ends in the handler of that trial. *)
Theorem run_benchmark_never_raises (tools : registry) (results : results_map) :
  never_raises (install_tools shell find_executable find_spec tools) /\
  never_raises
    (run_benchmark shell name_var_match apply_repairs _apply_cython sqrt
       (install_tools shell find_executable find_spec) runs json_dumps
       temp_dir output_dir test_files iterations depth tools results).
Proof.
  split; [apply install_tools_safe|].
  unfold run_benchmark.
  apply bind_never_raises; [apply install_tools_safe|]. intros tools'.
  apply bind_never_raises.
  - apply for_each_never_raises. intros acc f. unfold test_file_pass.
    apply bind_never_raises; [apply logger_never_raises|]. intros _.
    apply for_each_never_raises. intros acc' entry.
    apply run_tool_never_raises.
  - intros r. apply bind_never_raises; [apply save_results_never_raises|].
    intros _. apply ret_never_raises.
Qed.

End Install.

Lemma install_tools_only_switches_off_witness :
  Forall2 switched_off_or_same TOOLS MoreExamples.only_original /\
  map fst MoreExamples.only_original = map fst TOOLS.
Proof.
  apply (install_tools_only_switches_off MoreExamples.failing_shell
           MoreExamples.no_probe MoreExamples.no_probe TOOLS
           MoreExamples.only_original Examples.plain_world).
  vm_compute. reflexivity.
Defined.

Lemma run_benchmark_never_raises_witness :
  never_raises
    (install_tools MoreExamples.failing_shell MoreExamples.no_probe
       MoreExamples.no_probe TOOLS) /\
  never_raises
    (run_benchmark MoreExamples.failing_shell Examples.no_name_var
       Examples.no_repairs Examples.no_cython (fun x => x)
       (install_tools MoreExamples.failing_shell MoreExamples.no_probe
          MoreExamples.no_probe)
       (fun _ _ _ => Examples.failed_launch) Examples.keys_only_dumps
       Examples.temp_dir "results" ["proj/main.py"] 5%nat 5%nat TOOLS []).
Proof.
  apply (run_benchmark_never_raises MoreExamples.failing_shell
           MoreExamples.no_probe MoreExamples.no_probe).
  - intros name w e. discriminate.
  - intros name w e. discriminate.
Defined.

End InstallFacts.

(* --------------------------------------------------------------------- *)
(** ** Switching tools off from the command line                         *)
(* --------------------------------------------------------------------- *)

Module SwitchFacts.

Import DepsFacts DriverFacts.

Lemma str_eqb_sym a b : str_eqb a b = str_eqb b a.
Proof. apply String.eqb_sym. Qed.

Lemma assoc_set_enabled name value tools k :
  assoc k (set_enabled name value tools)
  = if str_eqb name k then option_map (with_enabled value) (assoc k tools)
    else assoc k tools.
Proof.
  induction tools as [|[k' info] rest IH]; cbn [set_enabled assoc].
  - now destruct (str_eqb name k).
  - destruct (str_eqb name k') eqn:E.
    + apply str_eqb_eq in E. subst k'. cbn [assoc].
      rewrite (str_eqb_sym name k).
      destruct (str_eqb k name); reflexivity.
    + cbn [assoc]. destruct (str_eqb k k') eqn:E'.
      * apply str_eqb_eq in E'. subst k'. now rewrite E.
      * exact IH.
Qed.

Lemma set_enabled_keys name value tools :
  map fst (set_enabled name value tools) = map fst tools.
Proof.
  induction tools as [|[k info] rest IH]; [reflexivity|].
  cbn [set_enabled]. destruct (str_eqb name k); cbn [map fst]; congruence.
Qed.

Lemma disable_tools_returns (names : list string) :
  forall (tools : registry) (w : world),
  exists tools' w',
    disable_tools names tools w = (Ok tools', w') /\
    files w' = files w /\ cwd w' = cwd w.
Proof.
  unfold disable_tools.
  induction names as [|n names IH]; intros tools w.
  - exists tools, w. cbn. auto.
  - cbn [for_each]. rewrite bind_run.
    destruct (assoc n tools) as [info|].
    + rewrite bind_run, logger_run, ret_run.
      destruct (IH (set_enabled n false tools)
                  (mkWorld (files w) (cwd w)
                     (log w ++ [(INFO, "Desativando ferramenta: " ++ n)])))
        as (tools' & w' & -> & Hf & Hc).
      exists tools', w'. auto.
    + rewrite ret_run. apply IH.
Qed.

(** X17. The [--disable-tools] pass of [main] never fails and touches
    neither files nor working directory.  Afterwards the registry has the
    same keys; a tool that was named has [enabled] set to [False] and is
    otherwise the same record, a tool that was not named is unchanged, and
    a name that is not a key adds nothing.  Order and repetition of the
    names make no difference. *)
Theorem disable_tools_switches_off_the_named (names : list string) :
  forall (tools : registry) (w : world),
  exists tools' w',
    disable_tools names tools w = (Ok tools', w') /\
    files w' = files w /\ cwd w' = cwd w /\
    map fst tools' = map fst tools /\
    forall name,
      assoc name tools'
      = if in_list name names
        then option_map (with_enabled false) (assoc name tools)
        else assoc name tools.
Proof.
  unfold disable_tools.
  induction names as [|n names IH]; intros tools w.
  - exists tools, w. cbn. auto.
  - cbn [for_each]. rewrite bind_run.
    assert (Hstep : exists w1,
      match assoc n tools with
      | Some _ =>
          logger INFO ("Desativando ferramenta: " ++ n) ;;
          ret (set_enabled n false tools)
      | None => ret tools
      end w = (Ok (set_enabled n false tools), w1)
      /\ files w1 = files w /\ cwd w1 = cwd w).
    { destruct (assoc n tools) as [info|] eqn:E.
      - rewrite bind_run, logger_run, ret_run. eexists. split; [reflexivity|].
        split; reflexivity.
      - rewrite ret_run. exists w. split; [|split; reflexivity].
        f_equal. f_equal. clear IH.
        induction tools as [|[k info] rest IHt]; [reflexivity|].
        cbn [assoc set_enabled] in *.
        destruct (str_eqb n k); [discriminate|]. now rewrite <- IHt. }
    destruct Hstep as (w1 & -> & Hf & Hc).
    destruct (IH (set_enabled n false tools) w1)
      as (tools' & w' & Hrun & Hf' & Hc' & Hk & Ha).
    exists tools', w'. split; [exact Hrun|].
    split; [congruence|]. split; [congruence|].
    split; [now rewrite Hk, set_enabled_keys|].
    intros name. rewrite Ha, assoc_set_enabled.
    cbn [in_list existsb]. fold (in_list name names).
    rewrite (str_eqb_sym name n).
    destruct (str_eqb n name), (in_list name names); cbn [orb]; try reflexivity.
    destruct (assoc name tools); reflexivity.
Qed.

End SwitchFacts.

(* --------------------------------------------------------------------- *)
(** ** The Cython handler                                                *)
(* --------------------------------------------------------------------- *)

Module CythonFacts.

Import DepsFacts DriverFacts RepairFacts InstallFacts.

Section Handler.

Variable shell : string -> M completed.
Variable glob : string -> string -> M (list string).
Variable win32 : bool.
Variable temp_dir : string.
Variable depth : nat.
Variable input_file : string.

Let input_name : string := Path.stem input_file.
Let cython_file : string := Path.child temp_dir (input_name ++ ".pyx").
Let setup_file : string := Path.child temp_dir "setup.py".
Let wrapper_file : string :=
  Path.child temp_dir (input_name ++ "_cython_wrapper.py").
Let build : string :=
  "cd " ++ temp_dir ++ " && python setup.py build_ext --inplace".


Lemma execute_command_failed_at c w' :
  failed (shell c (mkWorld (files w') (cwd w')
                     (log w' ++ [(INFO, "Executando comando: " ++ c)]))) ->
  (exists w'' s, _execute_command shell c w' = (Ok (false, s), w''))
  \/ (exists w'' e, _execute_command shell c w' = (Raised e, w'')).
Proof.
  unfold _execute_command. intros Hfail.
  rewrite bind_run, logger_run. unfold try_except_only.
  rewrite bind_run. unfold subprocess_run_checked. rewrite bind_run.
  unfold failed in Hfail.
  destruct (shell c _) as [[[out|out err]|e|] w2]; cbn [fst] in Hfail;
    try contradiction.
  - left. eexists; eexists. reflexivity.
  - destruct e;
      first [left; eexists; eexists; reflexivity
            | right; eexists; eexists; reflexivity].
Qed.

Lemma copy2_missing src dst w :
  files w src = None ->
  exists e, shutil.copy2 src dst w = (Raised e, w).
Proof.
  intros Hsrc. unfold shutil.copy2, os.path_isdir.
  rewrite !bind_run. unfold get_files at 1. rewrite ret_run. cbv zeta.
  match goal with |- context [str_eqb src ?d] => destruct (str_eqb src d) end.
  - eexists. reflexivity.
  - rewrite bind_run. unfold get_files. rewrite Hsrc. eexists. reflexivity.
Qed.

(** X19. An artifact that is not there: [detect_dependencies] swallows the
    failed read, but the Cython handler copies before its [try], so
    [apply_obfuscation] with ['cython'] raises instead of returning null. *)
Theorem cython_missing_artifact_raises
  (name_var_match : string -> option string) (apply_repairs : string -> string)
  (tools : registry) (depth' : nat) (info : tool_info) (w : world) :
  files w input_file = None ->
  assoc "cython" tools = Some info ->
  get_default (enabled info) true = true ->
  exists e,
    fst (apply_obfuscation shell name_var_match apply_repairs
           (_apply_cython shell glob win32 temp_dir depth)
           temp_dir tools (S depth') "cython" input_file w) = Raised e.
Proof.
  intros Hnone Hreg Hon. unfold apply_obfuscation.
  rewrite bind_run, detect_dependencies_unfold, bind_run, logger_run.
  unfold try_except. rewrite bind_run, read_text_run. cbn [files].
  rewrite Hnone, bind_run, logger_run, ret_run, bind_run, logger_run.
  change (str_eqb "cython" "original") with false. cbn iota.
  rewrite bind_run. unfold lookup_tool. rewrite Hreg, ret_run, Hon.
  cbn [negb]. cbv zeta.
  change (str_eqb "cython" "cython") with true. cbn iota.
  rewrite bind_run. unfold _apply_cython. cbv zeta. rewrite bind_run.
  match goal with |- context [shutil.copy2 input_file ?d ?w0] =>
    destruct (copy2_missing input_file d w0 Hnone) as [e ->] end.
  exists e. reflexivity.
Qed.

Section Staged.

Variable w : world.
Variable data : string.
Variable text : bool.

Hypothesis artifact_is_file : files w input_file = Some (File data text).
Hypothesis artifact_elsewhere : input_file <> cython_file.
Hypothesis pyx_free : writable (files w) cython_file.
Hypothesis setup_free : writable (files w) setup_file.

(** The two staging steps: the copy [<stem>.pyx] and [setup.py]. *)
Lemma cython_staging :
  exists w2 rest,
    _apply_cython shell glob win32 temp_dir depth input_file w
    = try_except (r <- _execute_command shell build ;; rest r)
        (fun e => logger ERROR "Erro ao compilar com Cython" ;; ret None) w2
    /\ (forall r w', negb (fst r) = true -> fst (rest r w') = Ok None)
    /\ files w2
       = fs_set setup_file
           (Some (File (setup_content (Path.name cython_file)) true))
           (fs_set cython_file (Some (File data text)) (files w)).
Proof.
  unfold _apply_cython. cbv zeta. fold input_name cython_file setup_file build.
  rewrite bind_run.
  rewrite (copy2_run input_file cython_file w data text artifact_is_file
             artifact_elsewhere pyx_free).
  rewrite bind_run, write_text_run. cbn [files cwd log].
  assert (Hs : writable (fs_set cython_file (Some (File data text)) (files w))
                 setup_file).
  { unfold writable, fs_set. destruct (str_eqb cython_file setup_file).
    - right. do 2 eexists. reflexivity.
    - exact setup_free. }
  destruct Hs as [Hs|(d & t & Hs)]; rewrite Hs;
    rewrite bind_run, logger_run;
    (eexists; eexists; split; [reflexivity|]; split; [|reflexivity]);
    intros [b out] w' Hb; cbn [fst] in Hb |- *; rewrite Hb;
    rewrite bind_run, logger_run; reflexivity.
Qed.



End Staged.

End Handler.




Lemma cython_missing_artifact_raises_witness :
  exists e,
    fst (apply_obfuscation Examples.idle_shell Examples.no_name_var
           Examples.no_repairs
           (_apply_cython Examples.idle_shell MoreExamples.one_module false
              Examples.temp_dir 5)
           Examples.temp_dir TOOLS 5 "cython" "proj/gone.py"
           Examples.chain_world) = Raised e.
Proof.
  apply (cython_missing_artifact_raises Examples.idle_shell
           MoreExamples.one_module false Examples.temp_dir 5 "proj/gone.py"
           Examples.no_name_var Examples.no_repairs TOOLS 4
           (mkTool "Compilação para código C como ofuscação"
              (Some "pip install cython") None None (Some true) None None
              (Some true) None None)
           Examples.chain_world).
  - reflexivity.
  - reflexivity.
  - reflexivity.
Defined.

End CythonFacts.

(* --------------------------------------------------------------------- *)
(** ** The environment check                                             *)
(* --------------------------------------------------------------------- *)

Module EnvironmentFacts.

Import DepsFacts DriverFacts BenchmarkFacts InstallFacts SwitchFacts.

Lemma set_enabled_update name value tools :
  set_enabled name value tools = update_tool name (with_enabled value) tools.
Proof.
  induction tools as [|[k info] rest IH]; [reflexivity|].
  cbn [set_enabled update_tool]. now rewrite IH.
Qed.

Lemma assoc_update name f tools k :
  assoc k (update_tool name f tools)
  = if str_eqb name k then option_map f (assoc k tools) else assoc k tools.
Proof.
  induction tools as [|[k' info] rest IH]; cbn [update_tool assoc].
  - now destruct (str_eqb name k).
  - destruct (str_eqb name k') eqn:E.
    + apply str_eqb_eq in E. subst k'. cbn [assoc].
      rewrite (str_eqb_sym name k).
      destruct (str_eqb k name); reflexivity.
    + cbn [assoc]. destruct (str_eqb k k') eqn:E'.
      * apply str_eqb_eq in E'. subst k'. now rewrite E.
      * exact IH.
Qed.

Lemma retuned_refl tools : Forall2 off_or_retuned tools tools.
Proof.
  induction tools as [|e rest IH]; constructor; [|exact IH].
  split; [reflexivity|]. split; [now left | reflexivity].
Qed.

Lemma retuned_trans a : forall b c,
  Forall2 off_or_retuned a b -> Forall2 off_or_retuned b c ->
  Forall2 off_or_retuned a c.
Proof.
  induction a as [|x a IH]; intros b c Hab Hbc.
  - inversion Hab; subst. inversion Hbc; subst. constructor.
  - inversion Hab as [|? y ? b' (Hk1 & He1 & Ho1) Hab']; subst.
    inversion Hbc as [|? z ? c' (Hk2 & He2 & Ho2) Hbc']; subst.
    constructor; [|eapply IH; eassumption].
    split; [congruence|]. split.
    + destruct He2 as [He2|He2]; [|now right].
      rewrite He2. exact He1.
    + intros Ho. rewrite Ho2 by congruence. now apply Ho1.
Qed.

Lemma retuned_keys a b :
  Forall2 off_or_retuned a b -> map fst b = map fst a.
Proof.
  induction 1 as [|x y a b (Hk & _) _ IH]; [reflexivity|].
  cbn [map]. now rewrite Hk, IH.
Qed.

Lemma adjustment_enabled f info :
  adjustment f ->
  enabled (f info) = enabled info \/ enabled (f info) = Some false.
Proof. intros [| |]; cbn; auto. Qed.

Lemma update_retuned name f tools :
  name <> "original" -> adjustment f ->
  Forall2 off_or_retuned tools (update_tool name f tools).
Proof.
  intros Hname Hf. induction tools as [|[k info] rest IH]; [constructor|].
  cbn [update_tool]. destruct (str_eqb name k) eqn:E.
  - apply str_eqb_eq in E. subst k. constructor; [|apply retuned_refl].
    split; [reflexivity|]. split; [now apply adjustment_enabled|].
    cbn [fst]. intros Ho. contradiction.
  - constructor; [|exact IH].
    split; [reflexivity|]. split; [now left | reflexivity].
Qed.

Lemma update_well_templated name f tools :
  adjustment f -> well_templated tools ->
  well_templated (update_tool name f tools).
Proof.
  intros Hf. induction tools as [|[k info] rest IH]; intros Hwt; [exact Hwt|].
  cbn [update_tool]. destruct (str_eqb name k).
  - intros n i [Hin|Hin].
    + injection Hin as <- <-.
      destruct (Hwt k info (or_introl eq_refl)) as [Ho Hc].
      destruct Hf as [|t Ht|t o Ht Hout]; cbn [output command with_enabled
        with_command with_output]; split; try assumption.
      * intros t' [= <-]. exact Ht.
      * intros t' [= <-]. exact Hout.
      * intros t' [= <-]. exact Ht.
    + apply (Hwt n i). now right.
  - intros n i [Hin|Hin].
    + apply (Hwt n i). now left.
    + refine (IH _ n i Hin). intros n' i' Hin'. apply (Hwt n' i'). now right.
Qed.


Lemma block_same name tools : block name tools tools.
Proof. now left. Qed.

Lemma block_off name tools : block name tools (set_enabled name false tools).
Proof.
  right. exists (with_enabled false). split; [constructor|].
  apply set_enabled_update.
Qed.

Lemma block_command name t tools :
  incl (fields t) command_keywords ->
  block name tools (update_tool name (with_command t) tools).
Proof.
  intros Ht. right. exists (with_command t).
  split; [apply adjust_command; exact Ht | reflexivity].
Qed.

Lemma incl_dec_true (xs ys : list string) :
  forallb (fun x => in_list x ys) xs = true -> incl xs ys.
Proof.
  intros H x Hx. rewrite forallb_forall in H.
  apply (proj1 (in_list_spec x ys)). now apply H.
Qed.

Lemma opy_command_fields opy_tool :
  incl (fields (opy_command opy_tool)) command_keywords.
Proof. apply incl_dec_true. reflexivity. Qed.

Section Check.

Variable python_major python_minor : nat.
Variable sys_version sys_executable : string.
Variable find_pathlib_origin : M (option string).
Variable import_opy : M (probe (option string)).
Variable opy_spec : M (probe (option string)).
Variable run_argv : list string -> M (string * string).
Variable shell : string -> M completed.

Ltac run_step :=
  repeat first
    [ rewrite bind_run | rewrite logger_run | rewrite ret_run ].

Ltac close_block :=
  intros [= <- _];
  first [ apply block_same | apply block_off
        | apply block_command; apply incl_dec_true; reflexivity
        | apply block_command; apply opy_command_fields
        | right;
          exists (fun info =>
                    with_output pyarmor_gen_output
                      (with_command pyarmor_gen_command info));
          split;
          [apply adjust_both; apply incl_dec_true; reflexivity | reflexivity] ].

Lemma tool_enabled_run name tools w :
  tool_enabled name tools w
  = (match assoc name tools with
     | None => Ok false
     | Some info =>
         match enabled info with Some b => Ok b | None => Raised KeyError end
     end, w).
Proof.
  unfold tool_enabled, required.
  destruct (assoc name tools) as [info|]; [|reflexivity].
  destruct (enabled info); reflexivity.
Qed.

Lemma check_pyinstaller_block tools w tools' w' :
  check_pyinstaller sys_version sys_executable find_pathlib_origin tools w
    = (Ok tools', w') ->
  block "pyinstaller" tools tools'.
Proof.
  unfold check_pyinstaller.
  destruct (in_anaconda sys_version sys_executable); [|close_block].
  rewrite bind_run, logger_run, bind_run, tool_enabled_run.
  destruct (assoc "pyinstaller" tools) as [info|]; [|close_block].
  destruct (enabled info) as [[|]|]; try discriminate; [|close_block].
  unfold try_except. rewrite bind_run.
  destruct (find_pathlib_origin _) as [[[o|]|e|] w1]; try discriminate;
    try close_block.
  destruct (contains "site-packages" o); run_step; close_block.
Qed.

Lemma check_pyarmor7_block tools w tools' w' :
  check_pyarmor7 python_major python_minor tools w = (Ok tools', w') ->
  block "pyarmor7" tools tools'.
Proof.
  unfold check_pyarmor7.
  destruct ((python_major =? 3) && (11 <=? python_minor))%nat; [|close_block].
  rewrite bind_run, tool_enabled_run.
  destruct (assoc "pyarmor7" tools) as [info|]; [|close_block].
  destruct (enabled info) as [[|]|]; try discriminate; run_step; close_block.
Qed.

Lemma check_opy_block tools w tools' w' :
  check_opy import_opy opy_spec shell tools w = (Ok tools', w') ->
  block "opy" tools tools'.
Proof.
  unfold check_opy. rewrite bind_run, tool_enabled_run.
  destruct (assoc "opy" tools) as [info|]; [|close_block].
  destruct (enabled info) as [[|]|]; try discriminate; [|close_block].
  rewrite bind_run.
  destruct (_check_opy_path import_opy opy_spec _) as [[t| |] w1];
    try discriminate.
  destruct (truthy t); [close_block|].
  rewrite bind_run, logger_run. unfold try_except. rewrite bind_run.
  destruct (subprocess_run_checked shell _ _) as [[out|e|] w2];
    try discriminate.
  - rewrite bind_run.
    destruct (_check_opy_path import_opy opy_spec _) as [[t'|e| ] w3];
      try discriminate.
    + destruct (truthy t'); run_step; close_block.
    + run_step; close_block.
  - run_step; close_block.
Qed.

Lemma check_pyarmor_gen_block tools w tools' w' :
  check_pyarmor_gen run_argv tools w = (Ok tools', w') ->
  block "pyarmor_gen" tools tools'.
Proof.
  unfold check_pyarmor_gen. rewrite bind_run, tool_enabled_run.
  destruct (assoc "pyarmor_gen" tools) as [info|]; [|close_block].
  destruct (enabled info) as [[|]|]; try discriminate; [|close_block].
  unfold try_except. rewrite bind_run.
  destruct (run_argv _ _) as [[[out err]|e|] w1]; try discriminate.
  - cbv zeta. rewrite bind_run, logger_run.
    destruct (contains "8." _ || contains "9." _); run_step; close_block.
  - run_step; close_block.
Qed.

Lemma check_pyminifier_block tools w tools' w' :
  check_pyminifier run_argv tools w = (Ok tools', w') ->
  block "pyminifier" tools tools'.
Proof.
  unfold check_pyminifier. rewrite bind_run, tool_enabled_run.
  destruct (assoc "pyminifier" tools) as [info|]; [|close_block].
  destruct (enabled info) as [[|]|]; try discriminate; [|close_block].
  unfold try_except. rewrite bind_run.
  destruct (run_argv _ _) as [[[out err]|e|] w1]; try discriminate.
  - cbv zeta. cbn [fst].
    destruct (contains "--no-obfuscate" out); [run_step; close_block|].
    destruct (contains "-O" out || contains "--obfuscate" out);
      run_step; close_block.
  - run_step; close_block.
Qed.

Lemma check_pyobfuscate_block tools w tools' w' :
  check_pyobfuscate run_argv tools w = (Ok tools', w') ->
  block "pyobfuscate" tools tools'.
Proof.
  unfold check_pyobfuscate. rewrite bind_run, tool_enabled_run.
  destruct (assoc "pyobfuscate" tools) as [info|]; [|close_block].
  destruct (enabled info) as [[|]|]; try discriminate; [|close_block].
  unfold try_except. rewrite bind_run.
  destruct (run_argv _ _) as [[[out err]|e|] w1]; try discriminate.
  - cbn [fst].
    destruct (contains "-k" out || contains "--preserve-keywords" out);
      run_step; close_block.
  - run_step; close_block.
Qed.

(** The check as a chain of six blocks. *)
Lemma check_environment_chain tools w tools' :
  fst (check_environment python_major python_minor sys_version sys_executable
         find_pathlib_origin import_opy opy_spec run_argv shell tools w)
    = Ok tools' ->
  exists t1 t2 t3 t4 t5 w0 w1 w2,
    block "pyinstaller" tools t1 /\
    check_pyarmor7 python_major python_minor t1 w0 = (Ok t2, w1) /\
    check_opy import_opy opy_spec shell t2 w1 = (Ok t3, w2) /\
    block "pyarmor_gen" t3 t4 /\
    block "pyminifier" t4 t5 /\ block "pyobfuscate" t5 tools'.
Proof.
  unfold check_environment. rewrite bind_run, logger_run, bind_run.
  destruct (check_pyinstaller _ _ _ tools _) as [[t1|e|] w1] eqn:E1;
    try discriminate.
  rewrite bind_run.
  destruct (check_pyarmor7 _ _ t1 w1) as [[t2|e|] w2] eqn:E2; try discriminate.
  rewrite bind_run.
  destruct (check_opy _ _ _ t2 w2) as [[t3|e|] w3] eqn:E3; try discriminate.
  rewrite bind_run.
  destruct (check_pyarmor_gen _ t3 w3) as [[t4|e|] w4] eqn:E4; try discriminate.
  rewrite bind_run.
  destruct (check_pyminifier _ t4 w4) as [[t5|e|] w5] eqn:E5; try discriminate.
  destruct (check_pyobfuscate _ t5 w5) as [r w6] eqn:E6. cbn [fst].
  intros ->. exists t1, t2, t3, t4, t5, w1, w2, w3.
  split; [eapply check_pyinstaller_block; exact E1|].
  split; [exact E2|]. split; [exact E3|].
  split; [eapply check_pyarmor_gen_block; exact E4|].
  split; [eapply check_pyminifier_block; exact E5|].
  eapply check_pyobfuscate_block; exact E6.
Qed.

Lemma block_retuned name tools tools' :
  name <> "original" -> block name tools tools' ->
  Forall2 off_or_retuned tools tools'.
Proof.
  intros Hname [->|(f & Hf & ->)]; [apply retuned_refl|].
  now apply update_retuned.
Qed.

Lemma block_well_templated name tools tools' :
  block name tools tools' -> well_templated tools -> well_templated tools'.
Proof.
  intros [->|(f & Hf & ->)] Hwt; [exact Hwt|].
  now apply update_well_templated.
Qed.

Lemma block_other name tools tools' k :
  block name tools tools' -> str_eqb name k = false ->
  assoc k tools' = assoc k tools.
Proof.
  intros [->|(f & Hf & ->)] Hk; [reflexivity|].
  now rewrite assoc_update, Hk.
Qed.

(** X22. [check_environment] can switch tools off and rewrite their
    command and output templates, and nothing else: when it returns, the
    registry has the same keys in the same order, no entry has gone from
    off to on, and the entry of ['original'] is the record it was. *)
Theorem check_environment_never_switches_on (tools tools' : registry)
  (w : world) :
  fst (check_environment python_major python_minor sys_version sys_executable
         find_pathlib_origin import_opy opy_spec run_argv shell tools w)
    = Ok tools' ->
  Forall2 off_or_retuned tools tools' /\ map fst tools' = map fst tools.
Proof.
  intros Hrun.
  destruct (check_environment_chain tools w tools' Hrun)
    as (t1 & t2 & t3 & t4 & t5 & w0 & w1 & w2 & B1 & E2 & E3 & B4 & B5 & B6).
  apply check_pyarmor7_block in E2. apply check_opy_block in E3.
  assert (H : Forall2 off_or_retuned tools tools').
  { eapply retuned_trans; [eapply block_retuned; [|exact B1]; discriminate|].
    eapply retuned_trans; [eapply block_retuned; [|exact E2]; discriminate|].
    eapply retuned_trans; [eapply block_retuned; [|exact E3]; discriminate|].
    eapply retuned_trans; [eapply block_retuned; [|exact B4]; discriminate|].
    eapply retuned_trans; [eapply block_retuned; [|exact B5]; discriminate|].
    eapply block_retuned; [|exact B6]. discriminate. }
  split; [exact H | now apply retuned_keys].
Qed.

(** X23. The templates that [check_environment] writes use only keywords
    that the driver passes: if every template of the registry could be
    formatted before the check, every template can be formatted after it,
    so the check cannot make [apply_obfuscation] fail with [KeyError]. *)
Theorem check_environment_keeps_templates_formattable
  (tools tools' : registry) (w : world) :
  well_templated tools ->
  fst (check_environment python_major python_minor sys_version sys_executable
         find_pathlib_origin import_opy opy_spec run_argv shell tools w)
    = Ok tools' ->
  forall name info, In (name, info) tools' ->
    (forall t temp_dir input_file stem w0,
       output info = Some t ->
       exists s,
         format t (output_kwargs temp_dir input_file stem) w0 = (Ok s, w0)) /\
    (forall t temp_dir input_file source output_file output_temp stem w0,
       command info = Some t ->
       exists s,
         format t (command_kwargs temp_dir input_file source output_file
                     output_temp stem) w0 = (Ok s, w0)).
Proof.
  intros Hwt Hrun.
  destruct (check_environment_chain tools w tools' Hrun)
    as (t1 & t2 & t3 & t4 & t5 & w0 & w1 & w2 & B1 & E2 & E3 & B4 & B5 & B6).
  apply check_pyarmor7_block in E2. apply check_opy_block in E3.
  assert (H : well_templated tools').
  { eapply block_well_templated; [exact B6|].
    eapply block_well_templated; [exact B5|].
    eapply block_well_templated; [exact B4|].
    eapply block_well_templated; [exact E3|].
    eapply block_well_templated; [exact E2|].
    eapply block_well_templated; [exact B1|]. exact Hwt. }
  intros name info Hin. destruct (H name info Hin) as [Ho Hc]. split.
  - intros t temp_dir input_file stem w' Ht.
    rewrite TemplateFacts.format_render.
    destruct (TemplateFacts.render_total t
                (output_kwargs temp_dir input_file stem) output_keywords
                (Ho t Ht)) as [s ->]; [intros k Hk; exact Hk|].
    now exists s.
  - intros t temp_dir input_file source output_file output_temp stem w' Ht.
    rewrite TemplateFacts.format_render.
    destruct (TemplateFacts.render_total t
                (command_kwargs temp_dir input_file source output_file
                   output_temp stem) command_keywords (Hc t Ht)) as [s ->];
      [intros k Hk; exact Hk|].
    now exists s.
Qed.

(** X24. On Python 3.11 or later, a registered PyArmor 7 is off after the
    check, whatever else the check finds. *)
Theorem pyarmor7_is_off_on_python_3_11 (tools tools' : registry)
  (info : tool_info) (w : world) :
  python_major = 3%nat -> (11 <= python_minor)%nat ->
  assoc "pyarmor7" tools = Some info ->
  fst (check_environment python_major python_minor sys_version sys_executable
         find_pathlib_origin import_opy opy_spec run_argv shell tools w)
    = Ok tools' ->
  exists info',
    assoc "pyarmor7" tools' = Some info' /\ enabled info' = Some false.
Proof.
  intros Hmajor Hminor Hreg Hrun.
  destruct (check_environment_chain tools w tools' Hrun)
    as (t1 & t2 & t3 & t4 & t5 & w0 & w1 & w2 & B1 & E2 & E3 & B4 & B5 & B6).
  apply check_opy_block in E3.
  rewrite (block_other _ _ _ "pyarmor7" B6 eq_refl),
    (block_other _ _ _ "pyarmor7" B5 eq_refl), (block_other _ _ _ "pyarmor7" B4 eq_refl),
    (block_other _ _ _ "pyarmor7" E3 eq_refl).
  pose proof (block_other _ _ _ "pyarmor7" B1 eq_refl) as H1. rewrite Hreg in H1.
  unfold check_pyarmor7 in E2.
  replace ((python_major =? 3) && (11 <=? python_minor))%nat with true in E2.
  2:{ subst python_major. symmetry. apply Nat.leb_le in Hminor.
      now rewrite Hminor. }
  rewrite bind_run, tool_enabled_run, H1 in E2.
  destruct (enabled info) as [[|]|] eqn:Een; try discriminate.
  - rewrite bind_run, logger_run, ret_run in E2. injection E2 as <- _.
    rewrite assoc_set_enabled, H1. cbn. eexists. split; reflexivity.
  - rewrite ret_run in E2. injection E2 as <- _.
    exists info. split; assumption.
Qed.

Lemma assoc_In {V} k (v : V) kvs : assoc k kvs = Some v -> In (k, v) kvs.
Proof.
  induction kvs as [|[k' v'] rest IH]; cbn; [discriminate|].
  destruct (str_eqb k k') eqn:E.
  - apply str_eqb_eq in E. subst k'. intros [= <-]. now left.
  - intros H. right. now apply IH.
Qed.

Lemma block_keyed name tools tools' :
  block name tools tools' -> keyed tools -> keyed tools'.
Proof.
  intros [->|(f & Hf & ->)] Hk; [exact Hk|].
  intros k info. rewrite assoc_update.
  destruct (str_eqb name k); [|apply Hk].
  destruct (assoc k tools) as [i|] eqn:E; [|discriminate].
  cbn [option_map]. intros [= <-].
  destruct (adjustment_enabled f i Hf) as [-> | ->]; [|discriminate].
  exact (Hk k i E).
Qed.

Lemma bind_safe_post {A B} (c : M A) (k : A -> M B) (P : A -> Prop) :
  never_raises c ->
  (forall w a w', c w = (Ok a, w') -> P a) ->
  (forall a, P a -> never_raises (k a)) ->
  never_raises (bind c k).
Proof.
  intros Hc Hpost Hk w e. rewrite bind_run.
  pose proof (Hc w) as Hcw. pose proof (Hpost w) as Hp.
  destruct (c w) as [[a|e'|] w1]; cbn [fst] in *.
  - apply Hk. eapply Hp. reflexivity.
  - exfalso. exact (Hcw e' eq_refl).
  - discriminate.
Qed.

Lemma tool_enabled_safe name tools :
  keyed tools -> never_raises (tool_enabled name tools).
Proof.
  intros Hk w e. rewrite tool_enabled_run. cbn [fst].
  destruct (assoc name tools) as [info|] eqn:E; [|discriminate].
  pose proof (Hk name info E) as Hen.
  destruct (enabled info); [discriminate | contradiction].
Qed.

Ltac safe :=
  repeat first
    [ apply ret_never_raises
    | apply logger_never_raises
    | apply try_except_never_raises; intros ?
    | apply bind_never_raises; [|intros ?]
    | match goal with
      | |- never_raises (if ?b then _ else _) => destruct b
      | |- never_raises (match ?x with _ => _ end) => destruct x
      end ].

Lemma check_pyinstaller_safe tools :
  keyed tools ->
  never_raises
    (check_pyinstaller sys_version sys_executable find_pathlib_origin tools).
Proof.
  intros Hk. unfold check_pyinstaller.
  destruct (in_anaconda sys_version sys_executable); [|apply ret_never_raises].
  apply bind_never_raises; [apply logger_never_raises|]. intros _.
  apply bind_never_raises; [now apply tool_enabled_safe|]. intros [|]; safe.
Qed.

Lemma check_pyarmor7_safe tools :
  keyed tools -> never_raises (check_pyarmor7 python_major python_minor tools).
Proof.
  intros Hk. unfold check_pyarmor7.
  destruct ((python_major =? 3) && (11 <=? python_minor))%nat;
    [|apply ret_never_raises].
  apply bind_never_raises; [now apply tool_enabled_safe|]. intros [|]; safe.
Qed.

Lemma check_pyarmor_gen_safe tools :
  keyed tools -> never_raises (check_pyarmor_gen run_argv tools).
Proof.
  intros Hk. unfold check_pyarmor_gen.
  apply bind_never_raises; [now apply tool_enabled_safe|]. intros [|]; safe.
Qed.

Lemma check_pyminifier_safe tools :
  keyed tools -> never_raises (check_pyminifier run_argv tools).
Proof.
  intros Hk. unfold check_pyminifier.
  apply bind_never_raises; [now apply tool_enabled_safe|]. intros [|]; safe.
Qed.

Lemma check_pyobfuscate_safe tools :
  keyed tools -> never_raises (check_pyobfuscate run_argv tools).
Proof.
  intros Hk. unfold check_pyobfuscate.
  apply bind_never_raises; [now apply tool_enabled_safe|]. intros [|]; safe.
Qed.

Hypothesis import_opy_safe : never_raises import_opy.
Hypothesis opy_spec_safe : never_raises opy_spec.

Lemma first_existing_safe paths : never_raises (first_existing paths).
Proof.
  induction paths as [|p rest IH]; cbn [first_existing];
    [apply ret_never_raises|].
  apply bind_never_raises; [intros w e; discriminate|].
  intros [|]; [apply ret_never_raises | exact IH].
Qed.

Lemma opy_tool_in_safe opy_path : never_raises (opy_tool_in opy_path).
Proof.
  unfold opy_tool_in. cbv zeta.
  apply bind_never_raises; [apply first_existing_safe|]. intros [path|]; safe.
Qed.

Lemma check_opy_path_safe : never_raises (_check_opy_path import_opy opy_spec).
Proof.
  unfold _check_opy_path.
  apply bind_never_raises; [exact import_opy_safe|].
  intros [|[file|]].
  - safe.
  - apply bind_never_raises; [apply logger_never_raises|]. intros _.
    apply opy_tool_in_safe.
  - apply bind_never_raises; [apply logger_never_raises|]. intros _.
    apply bind_never_raises; [exact opy_spec_safe|].
    intros [|[origin|]].
    + safe.
    + cbv zeta. apply bind_never_raises; [apply logger_never_raises|].
      intros _. apply opy_tool_in_safe.
    + safe.
Qed.

Lemma check_opy_safe tools :
  keyed tools -> never_raises (check_opy import_opy opy_spec shell tools).
Proof.
  intros Hk. unfold check_opy.
  apply bind_never_raises; [now apply tool_enabled_safe|].
  intros [|]; [|apply ret_never_raises].
  apply bind_never_raises; [apply check_opy_path_safe|]. intros t.
  destruct (truthy t); safe.
Qed.

(** X25. [check_environment] raises nothing when every entry of the
    registry has the key ['enabled'] and importing [opy] fails, if it
    fails, with [ImportError]: every other failure of a probe is handled
    inside the block that made it. *)
Theorem check_environment_never_raises (tools : registry) :
  (forall name info, In (name, info) tools -> enabled info <> None) ->
  never_raises
    (check_environment python_major python_minor sys_version sys_executable
       find_pathlib_origin import_opy opy_spec run_argv shell tools).
Proof.
  intros Hall.
  assert (Hk : keyed tools).
  { intros k info E. exact (Hall k info (assoc_In k info tools E)). }
  unfold check_environment.
  apply bind_never_raises; [apply logger_never_raises|]. intros _.
  apply (bind_safe_post _ _ keyed); [now apply check_pyinstaller_safe| |].
  { intros w0 a w' E. eapply block_keyed; [|exact Hk].
    eapply check_pyinstaller_block. exact E. }
  clear tools Hall Hk. intros tools Hk.
  apply (bind_safe_post _ _ keyed); [now apply check_pyarmor7_safe| |].
  { intros w0 a w' E. eapply block_keyed; [|exact Hk].
    eapply check_pyarmor7_block. exact E. }
  clear tools Hk. intros tools Hk.
  apply (bind_safe_post _ _ keyed); [now apply check_opy_safe| |].
  { intros w0 a w' E. eapply block_keyed; [|exact Hk].
    eapply check_opy_block. exact E. }
  clear tools Hk. intros tools Hk.
  apply (bind_safe_post _ _ keyed); [now apply check_pyarmor_gen_safe| |].
  { intros w0 a w' E. eapply block_keyed; [|exact Hk].
    eapply check_pyarmor_gen_block. exact E. }
  clear tools Hk. intros tools Hk.
  apply (bind_safe_post _ _ keyed); [now apply check_pyminifier_safe| |].
  { intros w0 a w' E. eapply block_keyed; [|exact Hk].
    eapply check_pyminifier_block. exact E. }
  clear tools Hk. intros tools Hk.
  now apply check_pyobfuscate_safe.
Qed.


End Check.

Lemma shipped_tools_well_templated : well_templated TOOLS.
Proof.
  intros name info Hin. cbn in Hin.
  repeat (destruct Hin as [Hin|Hin];
          [injection Hin as <- <-; split; intros t [= <-];
           apply incl_dec_true; reflexivity |]).
  destruct Hin.
Qed.

Lemma check_environment_never_switches_on_witness :
  Forall2 off_or_retuned TOOLS MoreExamples.checked_tools /\
  map fst MoreExamples.checked_tools = map fst TOOLS.
Proof.
  apply (check_environment_never_switches_on 3 12 MoreExamples.python_3_12
           MoreExamples.usr_bin_python MoreExamples.stock_pathlib
           MoreExamples.no_opy MoreExamples.no_opy MoreExamples.no_argv
           MoreExamples.failing_shell TOOLS MoreExamples.checked_tools
           Examples.plain_world).
  vm_compute. reflexivity.
Defined.

Lemma check_environment_keeps_templates_formattable_witness :
  (forall t temp_dir input_file stem w0,
     output MoreExamples.pyminifier_info = Some t ->
     exists s,
       format t (output_kwargs temp_dir input_file stem) w0 = (Ok s, w0)) /\
  (forall t temp_dir input_file source output_file output_temp stem w0,
     command MoreExamples.pyminifier_info = Some t ->
     exists s,
       format t (command_kwargs temp_dir input_file source output_file
                   output_temp stem) w0 = (Ok s, w0)).
Proof.
  apply (check_environment_keeps_templates_formattable 3 12
           MoreExamples.python_3_12 MoreExamples.usr_bin_python
           MoreExamples.stock_pathlib MoreExamples.no_opy MoreExamples.no_opy
           MoreExamples.no_argv MoreExamples.failing_shell TOOLS
           MoreExamples.checked_tools Examples.plain_world
           shipped_tools_well_templated) with (name := "pyminifier").
  - vm_compute. reflexivity.
  - vm_compute. tauto.
Defined.

Lemma pyarmor7_is_off_on_python_3_11_witness :
  exists info',
    assoc "pyarmor7" MoreExamples.checked_tools = Some info' /\
    enabled info' = Some false.
Proof.
  apply (pyarmor7_is_off_on_python_3_11 3 12 MoreExamples.python_3_12
           MoreExamples.usr_bin_python MoreExamples.stock_pathlib
           MoreExamples.no_opy MoreExamples.no_opy MoreExamples.no_argv
           MoreExamples.failing_shell TOOLS MoreExamples.checked_tools
           (mkTool "PyArmor v7 - Ferramenta comercial com proteção avançada"
              (Some "pip install pyarmor==7.7.4")
              (Some [Lit "pyarmor-7 obfuscate "; Field "input_file";
                     Lit " -O "; Field "output_dir"])
              (Some [Field "output_dir"; Lit "/dist/"; Field "input_name";
                     Lit ".py"])
              (Some true) (Some true) None None None None)
           Examples.plain_world).
  - reflexivity.
  - lia.
  - reflexivity.
  - vm_compute. reflexivity.
Defined.

Lemma check_environment_never_raises_witness :
  never_raises
    (check_environment 3 12 MoreExamples.python_3_12
       MoreExamples.usr_bin_python MoreExamples.stock_pathlib
       MoreExamples.no_opy MoreExamples.no_opy MoreExamples.no_argv
       MoreExamples.failing_shell TOOLS).
Proof.
  apply (check_environment_never_raises 3 12 MoreExamples.python_3_12
           MoreExamples.usr_bin_python MoreExamples.stock_pathlib
           MoreExamples.no_opy MoreExamples.no_opy MoreExamples.no_argv
           MoreExamples.failing_shell).
  - intros w e. discriminate.
  - intros w e. discriminate.
  - intros name info Hin. cbn in Hin.
    repeat (destruct Hin as [Hin|Hin];
            [injection Hin as <- <-; discriminate |]).
    destruct Hin.
Defined.

End EnvironmentFacts.

(* --------------------------------------------------------------------- *)
(** ** The entry point                                                   *)
(* --------------------------------------------------------------------- *)

Module MainFacts.

Import DepsFacts DriverFacts BenchmarkFacts InstallFacts SwitchFacts
  EnvironmentFacts.

Lemma try_finally_never_raises {A} (body : M A) (final : M unit) :
  never_raises body -> never_raises final -> never_raises (try_finally body final).
Proof.
  intros Hb Hf w e. unfold try_finally.
  pose proof (Hb w) as Hbw. pose proof (fun w' => Hf w') as Hfw.
  destruct (body w) as [[a|e'|] w1]; cbn [fst] in *.
  - pose proof (Hfw w1) as H1.
    destruct (final w1) as [[[]|e''|] w2]; cbn [fst] in *;
      [discriminate | exfalso; exact (H1 e'' eq_refl) | discriminate].
  - exfalso. exact (Hbw e' eq_refl).
  - discriminate.
Qed.

Section Entry.

Variable shell : string -> M completed.
Variable name_var_match : string -> option string.
Variable apply_repairs : string -> string.
Variable glob : string -> string -> M (list string).
Variable win32 : bool.
Variable sqrt : Q -> Q.
Variable find_executable find_spec : string -> M bool.
Variable runs : string -> string -> nat -> process_run.
Variable json_dumps : results_map -> string.
Variable depth : nat.
Variable python_major python_minor : nat.
Variable sys_version sys_executable : string.
Variable find_pathlib_origin : M (option string).
Variable import_opy opy_spec : M (probe (option string)).
Variable run_argv : list string -> M (string * string).
Variable locked_isfile : string -> bool.
Variable mkdtemp : M string.
Variable rmtree : string -> M unit.
Variable generate_system_info_csv : string -> M bool.
Variable _generate_metric_chart : string -> results_map -> metric -> M unit.
Variable _generate_markdown_report : string -> results_map -> M unit.
Variable generate_html_report : string -> results_map -> M unit.

Let main_ :=
  main shell name_var_match apply_repairs glob win32 sqrt find_executable
    find_spec runs json_dumps depth python_major python_minor sys_version
    sys_executable find_pathlib_origin import_opy opy_spec run_argv
    locked_isfile mkdtemp rmtree generate_system_info_csv
    _generate_metric_chart _generate_markdown_report generate_html_report.

Let init_ :=
  init shell python_major python_minor sys_version sys_executable
    find_pathlib_origin import_opy opy_spec run_argv mkdtemp.

Lemma first_missing_run test_files w :
  first_missing locked_isfile test_files w
  = (Ok (find (fun f => negb (regular locked_isfile (files w) f)) test_files),
     w).
Proof.
  induction test_files as [|f rest IH]; [reflexivity|].
  cbn [first_missing find]. rewrite bind_run. unfold path_isfile.
  rewrite bind_run. unfold get_files. rewrite ret_run.
  destruct (regular locked_isfile (files w) f); cbn [negb];
    [exact IH | reflexivity].
Qed.

(** What is left of [main] when every test file is there. *)
Lemma main_past_the_check args tools w :
  find (fun f => negb (regular locked_isfile (files w) f))
    (Args.test_files args) = None ->
  forall r, fst (main_ args tools w) = r ->
  r = Ok 0%nat \/ r = Diverged \/
  exists e tools0 w0, r = Raised e /\
    fst (init_ (Args.output_dir args) tools0 w0) = Raised e.
Proof.
  intros Hnone r <-. unfold main_, main.
  rewrite bind_run, first_missing_run, Hnone, bind_run.
  assert (Hd : exists tools1 w1,
             match Args.disable_tools args with
             | Some (name :: names) => disable_tools (name :: names) tools
             | _ => ret tools
             end w = (Ok tools1, w1)).
  { destruct (Args.disable_tools args) as [[|n ns]|];
      try (do 2 eexists; reflexivity).
    destruct (disable_tools_returns (n :: ns) tools w) as (t & w' & E & _).
    eauto. }
  destruct Hd as (tools1 & w1 & ->). rewrite bind_run. fold init_.
  destruct (init_ (Args.output_dir args) tools1 w1)
    as [[[temp_dir tools2]|e|] w2] eqn:Einit.
  - rewrite bind_run.
    match goal with |- context [try_finally ?b ?f w2] =>
      assert (Hsafe : never_raises (try_finally b f))
    end.
    { apply try_finally_never_raises.
      - apply try_except_never_raises. intros e.
        apply bind_never_raises; [apply logger_never_raises|]. intros _.
        apply logger_never_raises.
      - unfold cleanup. apply try_except_never_raises. intros e.
        apply logger_never_raises. }
    specialize (Hsafe w2).
    match goal with |- context [try_finally ?b ?f w2] =>
      destruct (try_finally b f w2) as [[[]|e|] w3]
    end; cbn [fst] in *.
    + now left.
    + exfalso. exact (Hsafe e eq_refl).
    + right. now left.
  - right. right. exists e, tools1, w1. split; [reflexivity|].
    now rewrite Einit.
  - right. now left.
Qed.



End Entry.



End MainFacts.

(* --------------------------------------------------------------------- *)
(** ** Calls that do not fit the registry                                *)
(* --------------------------------------------------------------------- *)

Module RegistryFacts.

Import DepsFacts DriverFacts.

Section Lookup.

Variable shell : string -> M completed.
Variable name_var_match : string -> option string.
Variable apply_repairs : string -> string.
Variable _apply_cython : string -> M (option string).
Variable temp_dir : string.
Variable tools : registry.
Variable depth : nat.
Variable tool_name input_file : string.
Variable w w1 : world.
Variable deps : list string.

Hypothesis resolved : detect_dependencies depth input_file w = (Ok deps, w1).
Hypothesis not_identity : tool_name <> "original".

(** X28. What [apply_obfuscation] does with a registry that does not fit:
    a tool name that is not a key raises [KeyError]; an enabled entry with
    neither a custom handler nor a ['command'] gives null; an enabled entry
    with a ['command'] but no ['output'] raises [KeyError]. *)
Theorem apply_obfuscation_on_ill_fitting_registry :
  (assoc tool_name tools = None ->
   fst (apply_obfuscation shell name_var_match apply_repairs _apply_cython
          temp_dir tools depth tool_name input_file w) = Raised KeyError) /\
  (forall info,
     assoc tool_name tools = Some info ->
     get_default (enabled info) true = true ->
     tool_name <> "cython" ->
     (command info = None ->
      fst (apply_obfuscation shell name_var_match apply_repairs _apply_cython
             temp_dir tools depth tool_name input_file w) = Ok None) /\
     (command info <> None -> output info = None ->
      fst (apply_obfuscation shell name_var_match apply_repairs _apply_cython
             temp_dir tools depth tool_name input_file w) = Raised KeyError)).
Proof.
  split.
  - intros Hnone. unfold apply_obfuscation.
    rewrite bind_run, resolved, bind_run, logger_run.
    rewrite (str_eqb_neq _ _ not_identity). cbn iota.
    rewrite bind_run. unfold lookup_tool. rewrite Hnone. reflexivity.
  - intros info Hreg Hon Hcy. split.
    + intros Hcmd. unfold apply_obfuscation.
      rewrite bind_run, resolved, bind_run, logger_run.
      rewrite (str_eqb_neq _ _ not_identity). cbn iota.
      rewrite bind_run. unfold lookup_tool. rewrite Hreg, ret_run, Hon.
      cbn [negb]. cbv zeta. rewrite (str_eqb_neq _ _ Hcy), Hcmd.
      rewrite bind_run, logger_run. reflexivity.
    + intros Hcmd Hout. unfold apply_obfuscation.
      rewrite bind_run, resolved, bind_run, logger_run.
      rewrite (str_eqb_neq _ _ not_identity). cbn iota.
      rewrite bind_run. unfold lookup_tool. rewrite Hreg, ret_run, Hon.
      cbn [negb]. cbv zeta. rewrite (str_eqb_neq _ _ Hcy).
      destruct (command info) as [t|]; [|congruence].
      rewrite bind_run. unfold required. rewrite Hout. reflexivity.
Qed.

End Lookup.

Section Measure.

Variable temp_dir : string.
Variable tools : registry.
Variable test_files : list string.
Variable iterations : nat.
Variable sqrt : Q -> Q.
Variable runs : nat -> process_run.
Variable tool_name path : string.
Variable w : world.

Hypothesis artifact_exists : path <> "" /\ files w path <> None.

(** X29. Past its guard, [measure_performance] raises before anything is
    launched when it is called with a tool name that is not a key
    ([KeyError]) or, for a registered tool, without any test file
    ([IndexError]); files and working directory are as they were. *)
Theorem measure_performance_on_ill_fitting_call :
  (assoc tool_name tools = None ->
   measure_performance temp_dir tools test_files iterations sqrt runs
     tool_name (Some path) w = (Raised KeyError, w)) /\
  (assoc tool_name tools <> None -> test_files = [] ->
   measure_performance temp_dir tools test_files iterations sqrt runs
     tool_name (Some path) w = (Raised IndexError, w)).
Proof.
  destruct artifact_exists as [Hne Hex].
  split.
  - intros Hnone. unfold measure_performance.
    rewrite bind_run, (str_eqb_neq _ _ Hne), path_exists_run.
    unfold fs_exists. destruct (files w path) as [n|]; [|congruence].
    cbn [negb]. rewrite bind_run. unfold lookup_tool. rewrite Hnone.
    reflexivity.
  - intros Hreg ->. unfold measure_performance.
    rewrite bind_run, (str_eqb_neq _ _ Hne), path_exists_run.
    unfold fs_exists. destruct (files w path) as [n|]; [|congruence].
    cbn [negb]. rewrite bind_run. unfold lookup_tool.
    destruct (assoc tool_name tools) as [info|]; [|congruence].
    rewrite ret_run. cbv zeta. rewrite bind_run. reflexivity.
Qed.

End Measure.

Lemma apply_obfuscation_on_ill_fitting_registry_witness :
  fst (apply_obfuscation Examples.idle_shell Examples.no_name_var
         Examples.no_repairs Examples.no_cython Examples.temp_dir TOOLS 5
         "pyarmor8" "proj/main.py" Examples.plain_world) = Raised KeyError.
Proof.
  assert (Hres : detect_dependencies 5 "proj/main.py" Examples.plain_world
                 = (Ok [], snd (detect_dependencies 5 "proj/main.py"
                                  Examples.plain_world))).
  { apply injective_projections; [vm_compute; reflexivity | reflexivity]. }
  assert (Hname : "pyarmor8" <> "original") by discriminate.
  apply (proj1 (apply_obfuscation_on_ill_fitting_registry
                  Examples.idle_shell Examples.no_name_var
                  Examples.no_repairs Examples.no_cython Examples.temp_dir
                  TOOLS 5 "pyarmor8" "proj/main.py" Examples.plain_world
                  (snd (detect_dependencies 5 "proj/main.py"
                          Examples.plain_world))
                  [] Hres Hname)).
  reflexivity.
Defined.

Lemma measure_performance_on_ill_fitting_call_witness :
  measure_performance Examples.temp_dir TOOLS ["proj/main.py"] 5
    (fun x => x) (fun _ => Examples.clean_run) "pyarmor8" (Some "proj/main.py")
    Examples.sampler_world = (Raised KeyError, Examples.sampler_world).
Proof.
  assert (Hart : "proj/main.py" <> "" /\
                 files Examples.sampler_world "proj/main.py" <> None).
  { split; [discriminate | vm_compute; discriminate]. }
  apply (proj1 (measure_performance_on_ill_fitting_call Examples.temp_dir
                  TOOLS ["proj/main.py"] 5 (fun x => x)
                  (fun _ => Examples.clean_run) "pyarmor8" "proj/main.py"
                  Examples.sampler_world Hart)).
  reflexivity.
Defined.

End RegistryFacts.
